(** * TCP Nice and TCP Westwood+LP congestion control: a shallow embedding

    The two kernel modules [tcp_nice.c] and [tcp_westwoodlp.c] are embedded
    as functions over records that mirror [struct nice], [struct westwood]
    and the fields of [struct tcp_sock] the modules read and write.

    - Fixed-width C integers are values of [Z]; every operation that can
      leave the range of its C type is wrapped explicitly ([u8], [u16],
      [u32], [u64], [s16], [s32]).  [unsigned long] is 64 bits wide.
    - A C division whose divisor is zero is a fault: handlers that divide
      run in the error monad [result], and a fault names its divisor.
    - Kernel helpers that are not part of the two modules
      ([tcp_reno_cong_avoid], [tcp_slow_start], ...) are the fields of a
      [host_stack]; general statements hold for every host stack, and
      [linux_host] is the instance used to run concrete scenarios. *)

From Stdlib Require Import ZArith List Bool Lia.
Import ListNotations.
Local Open Scope Z_scope.

(** ** Machine integers *)

Definition wrap (w x : Z) : Z := x mod 2 ^ w.
Definition swrap (w x : Z) : Z := (x + 2 ^ (w - 1)) mod 2 ^ w - 2 ^ (w - 1).

Definition u8 : Z -> Z := wrap 8.
Definition u16 : Z -> Z := wrap 16.
Definition u32 : Z -> Z := wrap 32.
Definition u64 : Z -> Z := wrap 64.
Definition s16 : Z -> Z := swrap 16.
Definition s32 : Z -> Z := swrap 32.

(** [after(seq1, seq2)] of include/net/tcp.h: [(__s32)(seq2 - seq1) < 0]. *)
Definition after (seq1 seq2 : Z) : bool := s32 (u32 (seq2 - seq1)) <? 0.

(** ** Division faults *)

Inductive divisor : Type :=
| DIV_fraction          (* 100 / fraction                  tcp_nice.c:105 *)
| DIV_minRTT            (* do_div(target_cwnd, rtt)        tcp_nice.c:294 *)
| DIV_baseRTT           (* ... / nice->baseRTT             tcp_nice.c:300 *)
| DIV_fraction_divisor  (* snd_cwnd / fraction_divisor     tcp_nice.c:321 *)
| DIV_delta             (* w->bk / delta            tcp_westwoodlp.c:99,102 *)
| DIV_mss_cache         (* ... / tp->mss_cache      tcp_westwoodlp.c:242 *)
| DIV_advmss            (* ... / tp->advmss         tcp_westwoodlp.c:290,293 *)
| DIV_delay_loss        (* ... / w->delay_loss      tcp_westwoodlp.c:291,294 *)
| DIV_dmax_avg          (* ... / w->dmax_avg        tcp_westwoodlp.c:291 *)
| DIV_delay_max.        (* ... / w->delay_max       tcp_westwoodlp.c:294 *)

Inductive result (A : Type) : Type :=
| Ok (a : A)
| DivByZero (d : divisor).
Arguments Ok {A} a.
Arguments DivByZero {A} d.

Definition bind {A B : Type} (c : result A) (k : A -> result B) : result B :=
  match c with
  | Ok a => k a
  | DivByZero d => DivByZero d
  end.

Notation "x <- c ;; k" := (bind c (fun x => k))
  (at level 61, c at next level, right associativity).

(** Unsigned C division. *)
Definition udiv (d : divisor) (a b : Z) : result Z :=
  if b =? 0 then DivByZero d else Ok (a / b).

(** Signed C division (truncating). *)
Definition sdiv (d : divisor) (a b : Z) : result Z :=
  if b =? 0 then DivByZero d else Ok (Z.quot a b).

(** ** The host stack *)

(** [enum tcp_ca_state]. *)
Inductive tcp_ca_state : Type :=
| TCP_CA_Open | TCP_CA_Disorder | TCP_CA_CWR | TCP_CA_Recovery | TCP_CA_Loss.

(** [enum tcp_ca_event]. *)
Inductive tcp_ca_event : Type :=
| CA_EVENT_TX_START | CA_EVENT_CWND_RESTART | CA_EVENT_COMPLETE_CWR
| CA_EVENT_LOSS | CA_EVENT_ECN_NO_CE | CA_EVENT_ECN_IS_CE
| CA_EVENT_DELAYED_ACK | CA_EVENT_NON_DELAYED_ACK.

(** The fields of [struct tcp_sock] (and of the connection socket) that the
    two modules and the helpers they call read or write. *)
Record tcp_sock : Type := mk_tcp_sock {
  snd_cwnd : Z;            (* u32 *)
  snd_ssthresh : Z;        (* u32 *)
  snd_cwnd_cnt : Z;        (* u32 *)
  snd_cwnd_clamp : Z;      (* u32 *)
  snd_nxt : Z;             (* u32 *)
  snd_una : Z;             (* u32 *)
  mss_cache : Z;           (* u32 *)
  advmss : Z;              (* u16 *)
  max_packets_out : Z;     (* u32 *)
  is_cwnd_limited : bool;
  icsk_ca_state : tcp_ca_state
}.

Definition set_snd_cwnd (v : Z) (tp : tcp_sock) : tcp_sock :=
  mk_tcp_sock v (snd_ssthresh tp) (snd_cwnd_cnt tp) (snd_cwnd_clamp tp)
    (snd_nxt tp) (snd_una tp) (mss_cache tp) (advmss tp)
    (max_packets_out tp) (is_cwnd_limited tp) (icsk_ca_state tp).

Definition set_snd_ssthresh (v : Z) (tp : tcp_sock) : tcp_sock :=
  mk_tcp_sock (snd_cwnd tp) v (snd_cwnd_cnt tp) (snd_cwnd_clamp tp)
    (snd_nxt tp) (snd_una tp) (mss_cache tp) (advmss tp)
    (max_packets_out tp) (is_cwnd_limited tp) (icsk_ca_state tp).

Definition set_snd_cwnd_cnt (v : Z) (tp : tcp_sock) : tcp_sock :=
  mk_tcp_sock (snd_cwnd tp) (snd_ssthresh tp) v (snd_cwnd_clamp tp)
    (snd_nxt tp) (snd_una tp) (mss_cache tp) (advmss tp)
    (max_packets_out tp) (is_cwnd_limited tp) (icsk_ca_state tp).

Definition set_snd_nxt (v : Z) (tp : tcp_sock) : tcp_sock :=
  mk_tcp_sock (snd_cwnd tp) (snd_ssthresh tp) (snd_cwnd_cnt tp)
    (snd_cwnd_clamp tp) v (snd_una tp) (mss_cache tp) (advmss tp)
    (max_packets_out tp) (is_cwnd_limited tp) (icsk_ca_state tp).

(** Kernel code the modules call but do not define.  The helpers get and
    return the [tcp_sock] part only: they do not touch the private area of
    the congestion control module.

    Each helper is a function: it gives the socket the kernel's helper
    leaves when that helper returns.  Whether it returns is not part of
    this record.  [tcp_in_slow_start], [tcp_slow_start],
    [tcp_current_ssthresh] and [usecs_to_jiffies] always return;
    [tcp_reno_cong_avoid] does not: its [tcp_cong_avoid_ai] divides by
    [snd_cwnd], and traps when the caller hands it a window of 0
    ([Linux.tcp_reno_cong_avoid] below).  The value [Ok] of a handler
    therefore says that none of the module's own divisions faulted; it says
    that the call returns only on a path that does not go through
    [tcp_reno_cong_avoid]. *)
Record host_stack : Type := mk_host_stack {
  HZ : Z;
  usecs_to_jiffies : Z -> Z;
  tcp_in_slow_start : tcp_sock -> bool;
  tcp_slow_start : tcp_sock -> Z -> tcp_sock;
  tcp_reno_cong_avoid : tcp_sock -> Z -> Z -> tcp_sock;
  tcp_current_ssthresh : tcp_sock -> Z
}.

(** ** TCP Nice (tcp_nice.c) *)

Module Nice.

(** The module parameters. *)
Record tunables : Type := mk_tunables {
  alpha : Z;       (* int *)
  beta : Z;        (* int *)
  gamma : Z;       (* int *)
  fraction : Z;    (* int *)
  threshold : Z;   (* int *)
  max_fwnd : Z     (* int *)
}.

Definition default_tunables : tunables :=
  {| alpha := 1; beta := 3; gamma := 1;
     fraction := 50; threshold := 20; max_fwnd := 96 |}.

(** [struct nice]. *)
Record nice : Type := mk_nice {
  beg_snd_nxt : Z;      (* u32 *)
  beg_snd_una : Z;      (* u32 *)
  beg_snd_cwnd : Z;     (* u32 *)
  doing_nice_now : Z;   (* u8  *)
  cntRTT : Z;           (* u16 *)
  minRTT : Z;           (* u32 *)
  maxRTT : Z;           (* u32 *)
  baseRTT : Z;          (* u32 *)
  numCong : Z;          (* u8  *)
  fractional_cwnd : Z;  (* u8  *)
  nice_timer : Z        (* u8  *)
}.

Definition set_beg_snd_nxt (v : Z) (n : nice) : nice :=
  mk_nice v (beg_snd_una n) (beg_snd_cwnd n) (doing_nice_now n) (cntRTT n)
    (minRTT n) (maxRTT n) (baseRTT n) (numCong n) (fractional_cwnd n)
    (nice_timer n).
Definition set_doing_nice_now (v : Z) (n : nice) : nice :=
  mk_nice (beg_snd_nxt n) (beg_snd_una n) (beg_snd_cwnd n) v (cntRTT n)
    (minRTT n) (maxRTT n) (baseRTT n) (numCong n) (fractional_cwnd n)
    (nice_timer n).
Definition set_cntRTT (v : Z) (n : nice) : nice :=
  mk_nice (beg_snd_nxt n) (beg_snd_una n) (beg_snd_cwnd n) (doing_nice_now n)
    v (minRTT n) (maxRTT n) (baseRTT n) (numCong n) (fractional_cwnd n)
    (nice_timer n).
Definition set_minRTT (v : Z) (n : nice) : nice :=
  mk_nice (beg_snd_nxt n) (beg_snd_una n) (beg_snd_cwnd n) (doing_nice_now n)
    (cntRTT n) v (maxRTT n) (baseRTT n) (numCong n) (fractional_cwnd n)
    (nice_timer n).
Definition set_maxRTT (v : Z) (n : nice) : nice :=
  mk_nice (beg_snd_nxt n) (beg_snd_una n) (beg_snd_cwnd n) (doing_nice_now n)
    (cntRTT n) (minRTT n) v (baseRTT n) (numCong n) (fractional_cwnd n)
    (nice_timer n).
Definition set_baseRTT (v : Z) (n : nice) : nice :=
  mk_nice (beg_snd_nxt n) (beg_snd_una n) (beg_snd_cwnd n) (doing_nice_now n)
    (cntRTT n) (minRTT n) (maxRTT n) v (numCong n) (fractional_cwnd n)
    (nice_timer n).
Definition set_numCong (v : Z) (n : nice) : nice :=
  mk_nice (beg_snd_nxt n) (beg_snd_una n) (beg_snd_cwnd n) (doing_nice_now n)
    (cntRTT n) (minRTT n) (maxRTT n) (baseRTT n) v (fractional_cwnd n)
    (nice_timer n).
Definition set_fractional_cwnd (v : Z) (n : nice) : nice :=
  mk_nice (beg_snd_nxt n) (beg_snd_una n) (beg_snd_cwnd n) (doing_nice_now n)
    (cntRTT n) (minRTT n) (maxRTT n) (baseRTT n) (numCong n) v
    (nice_timer n).
Definition set_nice_timer (v : Z) (n : nice) : nice :=
  mk_nice (beg_snd_nxt n) (beg_snd_una n) (beg_snd_cwnd n) (doing_nice_now n)
    (cntRTT n) (minRTT n) (maxRTT n) (baseRTT n) (numCong n)
    (fractional_cwnd n) v.

(** A socket running Nice: the host's [tcp_sock], the private [struct nice]
    ([inet_csk_ca(sk)]), and the module-global [fraction_divisor], which
    [tcp_nice_init] assigns. *)
Record sock : Type := mk_sock {
  tp : tcp_sock;
  ca : nice;
  fraction_divisor : Z   (* static int, initially 0 *)
}.

Definition with_tp (f : tcp_sock -> tcp_sock) (sk : sock) : sock :=
  mk_sock (f (tp sk)) (ca sk) (fraction_divisor sk).
Definition with_ca (f : nice -> nice) (sk : sock) : sock :=
  mk_sock (tp sk) (f (ca sk)) (fraction_divisor sk).

(** The unset value of [minRTT] and [baseRTT]. *)
Definition RTT_UNSET : Z := 0x7fffffff.

Section Handlers.

Variable h : host_stack.
Variable cfg : tunables.

Definition nice_enable (sk : sock) : sock :=
  with_ca (fun n =>
    set_minRTT RTT_UNSET
      (set_cntRTT 0
        (set_beg_snd_nxt (snd_nxt (tp sk))
          (set_doing_nice_now 1 n)))) sk.

Definition nice_disable (sk : sock) : sock :=
  with_ca (set_doing_nice_now 0) sk.

Definition tcp_nice_init (sk : sock) : result sock :=
  fd <- sdiv DIV_fraction 100 (fraction cfg) ;;
  let sk := mk_sock (tp sk) (ca sk) fd in
  let sk := with_ca (fun n =>
              set_baseRTT RTT_UNSET
                (set_nice_timer 0 (set_fractional_cwnd 2 n))) sk in
  Ok (nice_enable sk).

(** [vrtt = rtt_us + 1]: the sample as the engine records it. *)
Definition vrtt_of (rtt_us : Z) : Z := u32 (rtt_us + 1).

(** The right-hand side of the comparison at tcp_nice.c:150:
    [((100UL - threshold) * baseRTT + threshold * maxRTT) / 100UL].  The
    first product is computed in [unsigned long], the second one in
    [unsigned int] ([int] times [u32]) before it is widened for the sum. *)
Definition cong_threshold (n : nice) : Z :=
  u64 (u64 (u64 (100 - threshold cfg) * baseRTT n)
       + u32 (threshold cfg * maxRTT n)) / 100.

Definition tcp_nice_pkts_acked (sk : sock) (cnt rtt_us : Z) : sock :=
  if rtt_us <? 0 then sk
  else
    let vrtt := vrtt_of rtt_us in
    let n := ca sk in
    let n := if vrtt <? baseRTT n then set_baseRTT vrtt n else n in
    let n := if cntRTT n =? 0 then set_maxRTT (u32 (baseRTT n * 2)) n else n in
    let n := set_minRTT (Z.min (minRTT n) vrtt) n in
    let n := set_maxRTT (Z.max (maxRTT n) vrtt) n in
    let n := set_cntRTT (u16 (cntRTT n + 1)) n in
    let n := if vrtt >? cong_threshold n
             then set_numCong (u8 (numCong n + 1)) n else n in
    with_ca (fun _ => n) sk.

Definition tcp_nice_state (sk : sock) (ca_state : tcp_ca_state) : sock :=
  match ca_state with
  | TCP_CA_Open => nice_enable sk
  | _ => nice_disable sk
  end.

Definition tcp_nice_cwnd_event (sk : sock) (event : tcp_ca_event)
  : result sock :=
  match event with
  | CA_EVENT_CWND_RESTART | CA_EVENT_TX_START => tcp_nice_init sk
  | _ => Ok sk
  end.

Definition tcp_nice_ssthresh (t : tcp_sock) : Z :=
  Z.min (snd_ssthresh t) (u32 (snd_cwnd t - 1)).

Definition tcp_reno_fractional_ca (sk : sock) (ack acked : Z) : sock :=
  let cur_cwnd := snd_cwnd (tp sk) in
  let cur_cwnd_cnt := snd_cwnd_cnt (tp sk) in
  let sk := with_tp (fun t => tcp_reno_cong_avoid h t ack acked) sk in
  let cwnd_change := s16 (u32 (2 * u32 (snd_cwnd (tp sk) - cur_cwnd))) in
  let sk := if negb (cwnd_change =? 0)
            then with_ca (fun n => set_fractional_cwnd
                                     (u8 (fractional_cwnd n - cwnd_change)) n) sk
            else sk in
  if fractional_cwnd (ca sk) >? 2
  then with_tp (fun t => set_snd_cwnd_cnt cur_cwnd_cnt (set_snd_cwnd cur_cwnd t)) sk
  else with_ca (set_fractional_cwnd 2) sk.

(** The pacing step that opens [tcp_nice_cong_avoid] (lines 221-229). *)
Definition nice_pacing (sk : sock) : sock :=
  let n := ca sk in
  if (fractional_cwnd n >? 2) && (nice_timer n =? fractional_cwnd n)
  then with_ca (set_nice_timer 1) (with_tp (set_snd_cwnd 2) sk)
  else if fractional_cwnd n >? 2
  then with_ca (set_nice_timer (u8 (nice_timer n + 1)))
         (with_tp (set_snd_cwnd 0) sk)
  else sk.

(** The Reno fallback that occurs twice in [tcp_nice_cong_avoid]
    (lines 232-238 and 263-269). *)
Definition nice_reno_fallback (sk : sock) (ack acked : Z) : sock :=
  if (snd_cwnd (tp sk) <=? 2) && (fractional_cwnd (ca sk) >=? 2)
     && (fractional_cwnd (ca sk) <=? max_fwnd cfg)
  then tcp_reno_fractional_ca sk ack acked
  else with_tp (fun t => tcp_reno_cong_avoid h t ack acked) sk.

(** The multiplicative decrease (lines 325-331). *)
Definition nice_mult_decrease (sk : sock) : sock :=
  let sk :=
    if (snd_cwnd (tp sk) >? 2) && (fractional_cwnd (ca sk) =? 2)
    then with_tp (fun t => set_snd_cwnd (snd_cwnd t / 2) t) sk
    else if fractional_cwnd (ca sk) <=? max_fwnd cfg
    then with_ca (fun n => set_fractional_cwnd (u8 (fractional_cwnd n * 4)) n) sk
    else sk in
  with_ca (set_numCong 0) sk.

(** Congestion avoidance proper (lines 338-363). *)
Definition nice_vegas_adjust (sk : sock) (diff : Z) : sock :=
  if diff >? u32 (beta cfg) then
    let sk :=
      if (snd_cwnd (tp sk) >? 2) && (fractional_cwnd (ca sk) =? 2)
      then with_tp (fun t => set_snd_cwnd (u32 (snd_cwnd t - 1)) t) sk
      else if fractional_cwnd (ca sk) <=? max_fwnd cfg
      then with_ca (fun n => set_fractional_cwnd (u8 (fractional_cwnd n + 2)) n) sk
      else sk in
    with_tp (fun t => set_snd_ssthresh (tcp_nice_ssthresh t) t) sk
  else if diff <? u32 (alpha cfg) then
    if (snd_cwnd (tp sk) >=? 2) && (fractional_cwnd (ca sk) =? 2)
    then with_tp (fun t => set_snd_cwnd (u32 (snd_cwnd t + 1)) t) sk
    else if fractional_cwnd (ca sk) <=? max_fwnd cfg
    then with_ca (fun n => set_fractional_cwnd (u8 (fractional_cwnd n - 2)) n) sk
    else sk
  else sk.

(** The final clamp of the round (lines 366-371). *)
Definition nice_clamp (sk : sock) : sock :=
  let sk :=
    if (snd_cwnd (tp sk) <? 2) && (fractional_cwnd (ca sk) =? 2)
    then with_tp (set_snd_cwnd 2) sk
    else if snd_cwnd (tp sk) >? snd_cwnd_clamp (tp sk)
    then with_tp (fun t => set_snd_cwnd (snd_cwnd_clamp t) t) sk
    else sk in
  with_tp (fun t => set_snd_ssthresh (tcp_current_ssthresh h t) t) sk.

(** The once-per-RTT decision with enough samples (lines 271-372). *)
Definition nice_vegas_round (sk : sock) (acked : Z) : result sock :=
  let rtt := minRTT (ca sk) in
  target_cwnd <- udiv DIV_minRTT (u64 (snd_cwnd (tp sk) * baseRTT (ca sk))) rtt ;;
  diff <- udiv DIV_baseRTT
            (u32 (snd_cwnd (tp sk) * u32 (rtt - baseRTT (ca sk))))
            (baseRTT (ca sk)) ;;
  sk <-
    (if (diff >? u32 (gamma cfg)) && tcp_in_slow_start h (tp sk) then
       let sk := with_tp (fun t =>
                   set_snd_cwnd (Z.min (snd_cwnd t) (u32 (u32 target_cwnd + 1))) t) sk in
       let sk := with_tp (fun t => set_snd_ssthresh (tcp_nice_ssthresh t) t) sk in
       Ok (with_ca (set_numCong 0) sk)
     else if tcp_in_slow_start h (tp sk) then
       Ok (with_tp (fun t => tcp_slow_start h t acked) sk)
     else
       q <- udiv DIV_fraction_divisor (snd_cwnd (tp sk))
              (u32 (fraction_divisor sk)) ;;
       if numCong (ca sk) >? q
       then Ok (nice_mult_decrease sk)
       else Ok (nice_vegas_adjust sk diff)) ;;
  Ok (nice_clamp sk).

(** Wipe the slate clean for the next RTT (lines 375-378). *)
Definition nice_wipe (sk : sock) : sock :=
  with_ca (fun n =>
    set_numCong 0 (set_maxRTT 0 (set_minRTT RTT_UNSET (set_cntRTT 0 n)))) sk.

Definition tcp_nice_cong_avoid (sk : sock) (ack acked : Z) : result sock :=
  let sk := nice_pacing sk in
  if doing_nice_now (ca sk) =? 0 then
    Ok (nice_reno_fallback sk ack acked)
  else if after ack (beg_snd_nxt (ca sk)) then
    let sk := with_ca (set_beg_snd_nxt (snd_nxt (tp sk))) sk in
    sk <- (if cntRTT (ca sk) <=? 2
           then Ok (nice_reno_fallback sk ack acked)
           else nice_vegas_round sk acked) ;;
    Ok (nice_wipe sk)
  else if tcp_in_slow_start h (tp sk) then
    Ok (with_tp (fun t => tcp_slow_start h t acked) sk)
  else Ok sk.

End Handlers.

End Nice.

(** ** TCP Westwood+LP (tcp_westwoodlp.c) *)

Module Westwood.

(** [struct westwood].  The field [snd_una] of the structure is called
    [w_snd_una] here, to keep it apart from [tp->snd_una]. *)
Record westwood : Type := mk_westwood {
  bw_ns_est : Z;      (* u32 *)
  bw_est : Z;         (* u32 *)
  rtt_win_sx : Z;     (* u32 *)
  bk : Z;             (* u32 *)
  w_snd_una : Z;      (* u32 *)
  cumul_ack : Z;      (* u32 *)
  accounted : Z;      (* u32 *)
  rtt : Z;            (* u32 *)
  rtt_min : Z;        (* u32 *)
  first_ack : Z;      (* u8  *)
  reset_rtt_min : Z;  (* u8  *)
  delay_min : Z;      (* u32 *)
  delay_max : Z;      (* u32 *)
  dmin_avg : Z;       (* u32 *)
  dmax_avg : Z;       (* u32 *)
  delay_loss : Z      (* u32 *)
}.

Definition set_bw_ns_est (v : Z) (w : westwood) : westwood :=
  mk_westwood v (bw_est w) (rtt_win_sx w) (bk w) (w_snd_una w) (cumul_ack w)
    (accounted w) (rtt w) (rtt_min w) (first_ack w) (reset_rtt_min w)
    (delay_min w) (delay_max w) (dmin_avg w) (dmax_avg w) (delay_loss w).
Definition set_bw_est (v : Z) (w : westwood) : westwood :=
  mk_westwood (bw_ns_est w) v (rtt_win_sx w) (bk w) (w_snd_una w)
    (cumul_ack w) (accounted w) (rtt w) (rtt_min w) (first_ack w)
    (reset_rtt_min w) (delay_min w) (delay_max w) (dmin_avg w) (dmax_avg w)
    (delay_loss w).
Definition set_rtt_win_sx (v : Z) (w : westwood) : westwood :=
  mk_westwood (bw_ns_est w) (bw_est w) v (bk w) (w_snd_una w) (cumul_ack w)
    (accounted w) (rtt w) (rtt_min w) (first_ack w) (reset_rtt_min w)
    (delay_min w) (delay_max w) (dmin_avg w) (dmax_avg w) (delay_loss w).
Definition set_bk (v : Z) (w : westwood) : westwood :=
  mk_westwood (bw_ns_est w) (bw_est w) (rtt_win_sx w) v (w_snd_una w)
    (cumul_ack w) (accounted w) (rtt w) (rtt_min w) (first_ack w)
    (reset_rtt_min w) (delay_min w) (delay_max w) (dmin_avg w) (dmax_avg w)
    (delay_loss w).
Definition set_w_snd_una (v : Z) (w : westwood) : westwood :=
  mk_westwood (bw_ns_est w) (bw_est w) (rtt_win_sx w) (bk w) v (cumul_ack w)
    (accounted w) (rtt w) (rtt_min w) (first_ack w) (reset_rtt_min w)
    (delay_min w) (delay_max w) (dmin_avg w) (dmax_avg w) (delay_loss w).
Definition set_cumul_ack (v : Z) (w : westwood) : westwood :=
  mk_westwood (bw_ns_est w) (bw_est w) (rtt_win_sx w) (bk w) (w_snd_una w) v
    (accounted w) (rtt w) (rtt_min w) (first_ack w) (reset_rtt_min w)
    (delay_min w) (delay_max w) (dmin_avg w) (dmax_avg w) (delay_loss w).
Definition set_accounted (v : Z) (w : westwood) : westwood :=
  mk_westwood (bw_ns_est w) (bw_est w) (rtt_win_sx w) (bk w) (w_snd_una w)
    (cumul_ack w) v (rtt w) (rtt_min w) (first_ack w) (reset_rtt_min w)
    (delay_min w) (delay_max w) (dmin_avg w) (dmax_avg w) (delay_loss w).
Definition set_rtt (v : Z) (w : westwood) : westwood :=
  mk_westwood (bw_ns_est w) (bw_est w) (rtt_win_sx w) (bk w) (w_snd_una w)
    (cumul_ack w) (accounted w) v (rtt_min w) (first_ack w)
    (reset_rtt_min w) (delay_min w) (delay_max w) (dmin_avg w) (dmax_avg w)
    (delay_loss w).
Definition set_rtt_min (v : Z) (w : westwood) : westwood :=
  mk_westwood (bw_ns_est w) (bw_est w) (rtt_win_sx w) (bk w) (w_snd_una w)
    (cumul_ack w) (accounted w) (rtt w) v (first_ack w) (reset_rtt_min w)
    (delay_min w) (delay_max w) (dmin_avg w) (dmax_avg w) (delay_loss w).
Definition set_first_ack (v : Z) (w : westwood) : westwood :=
  mk_westwood (bw_ns_est w) (bw_est w) (rtt_win_sx w) (bk w) (w_snd_una w)
    (cumul_ack w) (accounted w) (rtt w) (rtt_min w) v (reset_rtt_min w)
    (delay_min w) (delay_max w) (dmin_avg w) (dmax_avg w) (delay_loss w).
Definition set_reset_rtt_min (v : Z) (w : westwood) : westwood :=
  mk_westwood (bw_ns_est w) (bw_est w) (rtt_win_sx w) (bk w) (w_snd_una w)
    (cumul_ack w) (accounted w) (rtt w) (rtt_min w) (first_ack w) v
    (delay_min w) (delay_max w) (dmin_avg w) (dmax_avg w) (delay_loss w).
Definition set_delay_min (v : Z) (w : westwood) : westwood :=
  mk_westwood (bw_ns_est w) (bw_est w) (rtt_win_sx w) (bk w) (w_snd_una w)
    (cumul_ack w) (accounted w) (rtt w) (rtt_min w) (first_ack w)
    (reset_rtt_min w) v (delay_max w) (dmin_avg w) (dmax_avg w)
    (delay_loss w).
Definition set_delay_max (v : Z) (w : westwood) : westwood :=
  mk_westwood (bw_ns_est w) (bw_est w) (rtt_win_sx w) (bk w) (w_snd_una w)
    (cumul_ack w) (accounted w) (rtt w) (rtt_min w) (first_ack w)
    (reset_rtt_min w) (delay_min w) v (dmin_avg w) (dmax_avg w)
    (delay_loss w).
Definition set_dmin_avg (v : Z) (w : westwood) : westwood :=
  mk_westwood (bw_ns_est w) (bw_est w) (rtt_win_sx w) (bk w) (w_snd_una w)
    (cumul_ack w) (accounted w) (rtt w) (rtt_min w) (first_ack w)
    (reset_rtt_min w) (delay_min w) (delay_max w) v (dmax_avg w)
    (delay_loss w).
Definition set_dmax_avg (v : Z) (w : westwood) : westwood :=
  mk_westwood (bw_ns_est w) (bw_est w) (rtt_win_sx w) (bk w) (w_snd_una w)
    (cumul_ack w) (accounted w) (rtt w) (rtt_min w) (first_ack w)
    (reset_rtt_min w) (delay_min w) (delay_max w) (dmin_avg w) v
    (delay_loss w).
Definition set_delay_loss (v : Z) (w : westwood) : westwood :=
  mk_westwood (bw_ns_est w) (bw_est w) (rtt_win_sx w) (bk w) (w_snd_una w)
    (cumul_ack w) (accounted w) (rtt w) (rtt_min w) (first_ack w)
    (reset_rtt_min w) (delay_min w) (delay_max w) (dmin_avg w) (dmax_avg w)
    v.

Record sock : Type := mk_sock {
  tp : tcp_sock;
  ca : westwood
}.

Definition with_tp (f : tcp_sock -> tcp_sock) (sk : sock) : sock :=
  mk_sock (f (tp sk)) (ca sk).
Definition with_ca (f : westwood -> westwood) (sk : sock) : sock :=
  mk_sock (tp sk) (f (ca sk)).

(** [CA_ACK_SLOWPATH = (1 << 0)] of [enum tcp_ca_ack_event_flags]. *)
Definition CA_ACK_SLOWPATH : Z := 1.

(** The branch of [tcp_westwood_cong_avoid] that computes the early window
    reduction threshold (lines 289-295). *)
Inductive ewr_branch : Type :=
| EWR_average     (* dmin_avg / dmax_avg, line 291 *)
| EWR_envelope    (* delay_min / delay_max, line 294 *)
| EWR_none.       (* neither: the threshold stays 0 *)

Section Handlers.

Variable h : host_stack.
(** The module parameter [beta]. *)
Variable beta : Z.

Definition TCP_WESTWOOD_RTT_MIN : Z := Z.quot (HZ h) 20.
Definition TCP_WESTWOOD_INIT_RTT : Z := 20 * HZ h.

(** [tcp_time_stamp] is the argument [now]. *)
Definition tcp_westwood_init (now : Z) (sk : sock) : sock :=
  with_ca (fun w =>
    {| bk := 0; bw_ns_est := 0; bw_est := 0; accounted := 0; cumul_ack := 0;
       reset_rtt_min := 1;
       rtt_min := u32 TCP_WESTWOOD_INIT_RTT; rtt := u32 TCP_WESTWOOD_INIT_RTT;
       rtt_win_sx := now;
       w_snd_una := snd_una (tp sk);
       first_ack := 1;
       delay_max := 0; delay_min := 0;
       dmin_avg := 0; dmax_avg := 0;
       delay_loss := 1 |}) sk.

Definition westwood_do_filter (a b : Z) : Z :=
  Z.shiftr (u32 (u32 (7 * a) + b)) 3.

Definition westwood_filter (w : westwood) (delta : Z) : result westwood :=
  if (bw_ns_est w =? 0) && (bw_est w =? 0) then
    s <- udiv DIV_delta (bk w) delta ;;
    Ok (set_bw_est s (set_bw_ns_est s w))
  else
    s <- udiv DIV_delta (bk w) delta ;;
    let w := set_bw_ns_est (westwood_do_filter (bw_ns_est w) s) w in
    Ok (set_bw_est (westwood_do_filter (bw_est w) (bw_ns_est w)) w).

Definition tcp_westwood_pkts_acked (sk : sock) (cnt rtt_arg : Z) : sock :=
  if rtt_arg >? 0
  then with_ca (set_rtt (u32 (usecs_to_jiffies h rtt_arg))) sk
  else sk.

Definition westwood_update_window (now : Z) (sk : sock) : result sock :=
  let w := ca sk in
  let delta := s32 (u32 (now - rtt_win_sx w)) in
  let w := if negb (first_ack w =? 0)
           then set_first_ack 0 (set_w_snd_una (snd_una (tp sk)) w)
           else w in
  if negb (rtt w =? 0)
     && (u32 delta >? Z.max (u32 (rtt w)) (u32 TCP_WESTWOOD_RTT_MIN))
  then
    w <- westwood_filter w (u32 delta) ;;
    Ok (with_ca (fun _ => set_rtt_win_sx now (set_bk 0 w)) sk)
  else Ok (with_ca (fun _ => w) sk).

Definition westwood_update_delay (rtt_arg rtt_avg : Z) : Z :=
  if negb (rtt_avg =? 0) && negb (rtt_avg =? 1) then
    let rtt_arg := u32 (rtt_arg - Z.shiftr rtt_avg 2) in
    u32 (rtt_avg + rtt_arg)
  else
    u32 (Z.shiftl rtt_arg 2).

Definition update_rtt_min (w : westwood) : westwood :=
  if negb (reset_rtt_min w =? 0)
  then set_reset_rtt_min 0 (set_rtt_min (rtt w) w)
  else set_rtt_min (Z.min (rtt w) (rtt_min w)) w.

Definition westwood_fast_bw (now : Z) (sk : sock) : result sock :=
  sk <- westwood_update_window now sk ;;
  Ok (with_ca (fun w =>
        update_rtt_min
          (set_w_snd_una (snd_una (tp sk))
            (set_bk (u32 (bk w + u32 (snd_una (tp sk) - w_snd_una w))) w))) sk).

(** Returns the updated private state and the value of [w->cumul_ack]. *)
Definition westwood_acked_count (sk : sock) : sock * Z :=
  let t := tp sk in
  let w := set_cumul_ack (u32 (snd_una t - w_snd_una (ca sk))) (ca sk) in
  let w := if cumul_ack w =? 0
           then set_cumul_ack (mss_cache t)
                  (set_accounted (u32 (accounted w + mss_cache t)) w)
           else w in
  let w := if cumul_ack w >? mss_cache t then
             if accounted w >=? cumul_ack w
             then set_cumul_ack (mss_cache t)
                    (set_accounted (u32 (accounted w - cumul_ack w)) w)
             else set_accounted 0
                    (set_cumul_ack (u32 (cumul_ack w - accounted w)) w)
           else w in
  let w := set_w_snd_una (snd_una t) w in
  (with_ca (fun _ => w) sk, cumul_ack w).

Definition tcp_westwood_bw_rttmin (sk : sock) : result Z :=
  q <- udiv DIV_mss_cache (u32 (bw_est (ca sk) * rtt_min (ca sk)))
         (mss_cache (tp sk)) ;;
  Ok (Z.max q 2).

Definition tcp_westwood_ack (now : Z) (sk : sock) (ack_flags : Z)
  : result sock :=
  if negb (Z.land ack_flags CA_ACK_SLOWPATH =? 0) then
    sk <- westwood_update_window now sk ;;
    let (sk, n) := westwood_acked_count sk in
    let w := set_bk (u32 (bk (ca sk) + n)) (ca sk) in
    let w := update_rtt_min w in
    let w := if (delay_min w =? 0) && (delay_max w =? 0)
                && negb (rtt w =? u32 TCP_WESTWOOD_INIT_RTT)
             then set_delay_min (rtt w) (set_delay_max (rtt w) w)
             else w in
    let w := if rtt w >? delay_max w then set_delay_max (rtt w) w
             else if rtt w <? delay_min w then set_delay_min (rtt w) w
             else w in
    Ok (with_ca (fun _ => w) sk)
  else westwood_fast_bw now sk.

Definition ewr_select (sk : sock) : ewr_branch :=
  let w := ca sk in
  if negb (dmin_avg w =? dmax_avg w) && negb (dmax_avg w =? 0)
  then EWR_average
  else if negb (delay_min w =? delay_max w) && negb (delay_max w =? 0)
          && negb (tcp_in_slow_start h (tp sk))
  then EWR_envelope
  else EWR_none.

(** [tp->snd_cwnd - w->bw_est * w->rtt_min / tp->advmss]. *)
Definition ewr_queue_length (sk : sock) : result Z :=
  q <- udiv DIV_advmss (u32 (bw_est (ca sk) * rtt_min (ca sk)))
         (advmss (tp sk)) ;;
  Ok (u32 (snd_cwnd (tp sk) - q)).

(** [(beta * (100 - 100 * (rtt << 2) / delay_loss) / 100)
      * (100 - 100 * lo / hi) / 100], in [u32] arithmetic; [dv] names the
    divisor [hi]. *)
Definition ewr_threshold (rtt_arg dloss lo hi : Z) (dv : divisor)
  : result Z :=
  x <- udiv DIV_delay_loss (u32 (100 * u32 (Z.shiftl rtt_arg 2))) dloss ;;
  y <- udiv dv (u32 (100 * lo)) hi ;;
  Ok (u32 (u32 (u32 beta * u32 (100 - x)) / 100 * u32 (100 - y)) / 100).

(** [queue_length] and [ewr_thresh] as lines 278-295 leave them. *)
Definition ewr_inputs (sk : sock) : result (Z * Z) :=
  let w := ca sk in
  let rtt_arg := if delay_loss w >? 1 then rtt w else 0 in
  match ewr_select sk with
  | EWR_average =>
      q <- ewr_queue_length sk ;;
      t <- ewr_threshold rtt_arg (delay_loss w) (dmin_avg w) (dmax_avg w)
             DIV_dmax_avg ;;
      Ok (q, t)
  | EWR_envelope =>
      q <- ewr_queue_length sk ;;
      t <- ewr_threshold rtt_arg (delay_loss w) (delay_min w) (delay_max w)
             DIV_delay_max ;;
      Ok (q, t)
  | EWR_none => Ok (0, 0)
  end.

Definition tcp_westwood_cong_avoid (sk : sock) (ack acked : Z)
  : result sock :=
  qt <- ewr_inputs sk ;;
  let (queue_length, ewr_thresh) := qt : Z * Z in
  if queue_length >? ewr_thresh then
    v <- tcp_westwood_bw_rttmin sk ;;
    let sk := with_tp (fun t => set_snd_cwnd v (set_snd_ssthresh v t)) sk in
    let sk := with_ca (fun w =>
                set_dmin_avg (westwood_update_delay (delay_min w) (dmin_avg w)) w) sk in
    let sk := with_ca (fun w =>
                set_dmax_avg (westwood_update_delay (delay_max w) (dmax_avg w)) w) sk in
    Ok (with_ca (fun w => set_delay_max (rtt w) (set_delay_min (rtt w) w)) sk)
  else
    Ok (with_tp (fun t => tcp_reno_cong_avoid h t ack acked) sk).

Definition tcp_westwood_event (sk : sock) (event : tcp_ca_event)
  : result sock :=
  match event with
  | CA_EVENT_COMPLETE_CWR =>
      v <- tcp_westwood_bw_rttmin sk ;;
      Ok (with_tp (fun t => set_snd_cwnd v (set_snd_ssthresh v t)) sk)
  | CA_EVENT_LOSS =>
      v <- tcp_westwood_bw_rttmin sk ;;
      let sk := with_tp (set_snd_ssthresh v) sk in
      let sk := with_ca (fun w =>
                  set_delay_loss (westwood_update_delay (rtt w) (delay_loss w)) w) sk in
      Ok (with_ca (set_reset_rtt_min 1) sk)
  | _ => Ok sk
  end.

End Handlers.

End Westwood.

(** ** The Linux 4.4 host stack

    The helpers as Linux 4.4 defines them (include/net/tcp.h,
    net/ipv4/tcp_cong.c, include/linux/jiffies.h with [HZ = 1000]).  They
    are used to run concrete scenarios only. *)

Module Linux.

Definition tcp_in_slow_start (t : tcp_sock) : bool :=
  snd_cwnd t <? snd_ssthresh t.

(** Returns the updated socket and the ACKs left over. *)
Definition tcp_slow_start (t : tcp_sock) (acked : Z) : tcp_sock * Z :=
  let cwnd := Z.min (u32 (snd_cwnd t + acked)) (snd_ssthresh t) in
  let acked := u32 (acked - u32 (cwnd - snd_cwnd t)) in
  (set_snd_cwnd (Z.min cwnd (snd_cwnd_clamp t)) t, acked).

(** The kernel divides by [w] without a test: with [w = 0] the division
    [snd_cwnd_cnt / w] is executed and traps.  [None] is the trap. *)
Definition tcp_cong_avoid_ai (t : tcp_sock) (w acked : Z) : option tcp_sock :=
  let t := if snd_cwnd_cnt t >=? w
           then set_snd_cwnd (u32 (snd_cwnd t + 1)) (set_snd_cwnd_cnt 0 t)
           else t in
  let t := set_snd_cwnd_cnt (u32 (snd_cwnd_cnt t + acked)) t in
  match
    (if snd_cwnd_cnt t >=? w then
       if w =? 0 then None
       else
         let delta := snd_cwnd_cnt t / w in
         Some (set_snd_cwnd (u32 (snd_cwnd t + delta))
                 (set_snd_cwnd_cnt (u32 (snd_cwnd_cnt t - u32 (delta * w))) t))
     else Some t)
  with
  | Some t => Some (set_snd_cwnd (Z.min (snd_cwnd t) (snd_cwnd_clamp t)) t)
  | None => None
  end.

Definition tcp_is_cwnd_limited (t : tcp_sock) : bool :=
  if tcp_in_slow_start t
  then snd_cwnd t <? u32 (2 * max_packets_out t)
  else is_cwnd_limited t.

(** [None] when [tcp_cong_avoid_ai] traps. *)
Definition tcp_reno_cong_avoid (t : tcp_sock) (ack acked : Z)
  : option tcp_sock :=
  if negb (tcp_is_cwnd_limited t) then Some t
  else if tcp_in_slow_start t then
    let (t, acked) := tcp_slow_start t acked in
    if acked =? 0 then Some t else tcp_cong_avoid_ai t (snd_cwnd t) acked
  else tcp_cong_avoid_ai t (snd_cwnd t) acked.

Definition tcp_in_cwnd_reduction (t : tcp_sock) : bool :=
  match icsk_ca_state t with
  | TCP_CA_CWR | TCP_CA_Recovery => true
  | _ => false
  end.

Definition tcp_current_ssthresh (t : tcp_sock) : Z :=
  if tcp_in_cwnd_reduction t then snd_ssthresh t
  else Z.max (snd_ssthresh t)
         (u32 (Z.shiftr (snd_cwnd t) 1 + Z.shiftr (snd_cwnd t) 2)).

Definition usecs_to_jiffies (u : Z) : Z := (u + 999) / 1000.

End Linux.

(** The socket [Linux.tcp_reno_cong_avoid] leaves when it returns.  Where
    it traps there is no such socket; the argument stands in for it. *)
Definition linux_reno_result (t : tcp_sock) (ack acked : Z) : tcp_sock :=
  match Linux.tcp_reno_cong_avoid t ack acked with
  | Some t' => t'
  | None => t
  end.

Definition linux_host : host_stack :=
  {| HZ := 1000;
     usecs_to_jiffies := Linux.usecs_to_jiffies;
     tcp_in_slow_start := Linux.tcp_in_slow_start;
     tcp_slow_start := fun t acked => fst (Linux.tcp_slow_start t acked);
     tcp_reno_cong_avoid := linux_reno_result;
     tcp_current_ssthresh := Linux.tcp_current_ssthresh |}.

(** ** Event streams

    The host stack drives a module by calling its handlers; between two
    calls it may rewrite its own fields of the socket ([Ev_host]). *)

Module NiceRun.
Import Nice.

Inductive event : Type :=
| Ev_init
| Ev_pkts_acked (cnt rtt_us : Z)
| Ev_set_state (s : tcp_ca_state)
| Ev_cwnd_event (e : tcp_ca_event)
| Ev_cong_avoid (ack acked : Z)
| Ev_host (f : tcp_sock -> tcp_sock).

(** The RTT sample is an [s32]. *)
Definition wf_event (ev : event) : Prop :=
  match ev with
  | Ev_pkts_acked _ rtt_us => - 2 ^ 31 <= rtt_us < 2 ^ 31
  | _ => True
  end.

Definition wf_eventb (ev : event) : bool :=
  match ev with
  | Ev_pkts_acked _ rtt_us => (- 2 ^ 31 <=? rtt_us) && (rtt_us <? 2 ^ 31)
  | _ => true
  end.

Definition step (h : host_stack) (cfg : tunables) (sk : sock) (ev : event)
  : result sock :=
  match ev with
  | Ev_init => tcp_nice_init cfg sk
  | Ev_pkts_acked cnt rtt_us => Ok (tcp_nice_pkts_acked cfg sk cnt rtt_us)
  | Ev_set_state s => Ok (tcp_nice_state sk s)
  | Ev_cwnd_event e => tcp_nice_cwnd_event cfg sk e
  | Ev_cong_avoid ack acked => tcp_nice_cong_avoid h cfg sk ack acked
  | Ev_host f => Ok (with_tp f sk)
  end.

Fixpoint run (h : host_stack) (cfg : tunables) (sk : sock)
  (evs : list event) : result sock :=
  match evs with
  | [] => Ok sk
  | ev :: evs => sk <- step h cfg sk ev ;; run h cfg sk evs
  end.

(** The states a connection can be in: [tcp_nice_init] has run on some
    socket, and well-formed events followed. *)
Inductive reachable (h : host_stack) (cfg : tunables) : sock -> Prop :=
| reach_init sk0 sk :
    tcp_nice_init cfg sk0 = Ok sk -> reachable h cfg sk
| reach_step sk ev sk' :
    reachable h cfg sk -> wf_event ev -> step h cfg sk ev = Ok sk' ->
    reachable h cfg sk'.

(** The RTT filters hold a sample or their unset value, and
    [fraction_divisor] is what [tcp_nice_init] computes. *)
Definition nice_inv (cfg : tunables) (sk : sock) : Prop :=
  1 <= minRTT (ca sk) <= RTT_UNSET /\
  1 <= baseRTT (ca sk) <= RTT_UNSET /\
  fraction cfg <> 0 /\
  fraction_divisor sk = Z.quot 100 (fraction cfg).

(** What a part of [tcp_nice_cong_avoid] leaves alone. *)
Definition keeps_filters (sk sk' : sock) : Prop :=
  doing_nice_now (ca sk') = doing_nice_now (ca sk) /\
  baseRTT (ca sk') = baseRTT (ca sk) /\
  minRTT (ca sk') = minRTT (ca sk) /\
  fraction_divisor sk' = fraction_divisor sk.



End NiceRun.

Module WestwoodRun.
Import Westwood.

Inductive event : Type :=
| Ev_init (now : Z)
| Ev_pkts_acked (cnt rtt_arg : Z)
| Ev_ack (now : Z) (ack_flags : Z)
| Ev_cong_avoid (ack acked : Z)
| Ev_cwnd_event (e : tcp_ca_event)
| Ev_host (f : tcp_sock -> tcp_sock).

Definition wf_event (ev : event) : Prop :=
  match ev with
  | Ev_pkts_acked _ rtt_arg => - 2 ^ 31 <= rtt_arg < 2 ^ 31
  | _ => True
  end.

Definition step (h : host_stack) (beta : Z) (sk : sock) (ev : event)
  : result sock :=
  match ev with
  | Ev_init now => Ok (tcp_westwood_init h now sk)
  | Ev_pkts_acked cnt rtt_arg => Ok (tcp_westwood_pkts_acked h sk cnt rtt_arg)
  | Ev_ack now ack_flags => tcp_westwood_ack h now sk ack_flags
  | Ev_cong_avoid ack acked => tcp_westwood_cong_avoid h beta sk ack acked
  | Ev_cwnd_event e => tcp_westwood_event sk e
  | Ev_host f => Ok (with_tp f sk)
  end.

Fixpoint run (h : host_stack) (beta : Z) (sk : sock) (evs : list event)
  : result sock :=
  match evs with
  | [] => Ok sk
  | ev :: evs => sk <- step h beta sk ev ;; run h beta sk evs
  end.

Inductive reachable (h : host_stack) (beta : Z) : sock -> Prop :=
| reach_init now sk0 :
    reachable h beta (tcp_westwood_init h now sk0)
| reach_step sk ev sk' :
    reachable h beta sk -> wf_event ev -> step h beta sk ev = Ok sk' ->
    reachable h beta sk'.

(** The filtered RTT is a positive number of jiffies below [2 ^ 30], and
    [delay_loss] is its unset value 1 or a filtered RTT scaled by 4. *)
Definition delay_inv (sk : sock) : Prop :=
  1 <= rtt (ca sk) < 2 ^ 30 /\
  1 <= delay_loss (ca sk) <= 2 ^ 32 - 4.

End WestwoodRun.

(** ** Scenario data *)

(** A connection in congestion avoidance with a window of two segments. *)
Definition example_tp : tcp_sock :=
  {| snd_cwnd := 2; snd_ssthresh := 2; snd_cwnd_cnt := 0;
     snd_cwnd_clamp := 0xffffffff; snd_nxt := 1000; snd_una := 1000;
     mss_cache := 1448; advmss := 1460; max_packets_out := 2;
     is_cwnd_limited := true; icsk_ca_state := TCP_CA_Open |}.

(** A connection in slow start. *)
Definition slow_start_tp : tcp_sock :=
  {| snd_cwnd := 10; snd_ssthresh := 0x7fffffff; snd_cwnd_cnt := 0;
     snd_cwnd_clamp := 0xffffffff; snd_nxt := 15480; snd_una := 1000;
     mss_cache := 1448; advmss := 1460; max_packets_out := 10;
     is_cwnd_limited := true; icsk_ca_state := TCP_CA_Open |}.

(** The private area before [tcp_nice_init] runs (zeroed memory). *)
Definition zero_nice : Nice.nice :=
  Nice.mk_nice 0 0 0 0 0 0 0 0 0 0 0.

Definition fresh_nice_sock : Nice.sock :=
  Nice.mk_sock example_tp zero_nice 0.

(** The same socket once [tcp_nice_init] has run with the default
    parameters. *)
Definition started_nice_sock : Nice.sock :=
  match Nice.tcp_nice_init Nice.default_tunables fresh_nice_sock with
  | Ok sk => sk
  | DivByZero _ => fresh_nice_sock
  end.

(** The host stack sends 100000 bytes. *)
Definition host_sends : NiceRun.event :=
  NiceRun.Ev_host (fun t => set_snd_nxt (u32 (snd_nxt t + 100000)) t).

(** [beg_snd_nxt] in round number [k] of the scenarios. *)
Definition seq_base (k : nat) : Z := 1000 + 100000 * Z.of_nat k.

(** [n] ACKs of one segment each, the last one for [beg_snd_nxt] itself:
    none of them passes [beg_snd_nxt]. *)
Fixpoint inner_acks (k n : nat) : list NiceRun.event :=
  match n with
  | O => []
  | S n => NiceRun.Ev_cong_avoid (seq_base k - 1448 * Z.of_nat n) 1
           :: inner_acks k n
  end.

(** Round number [k] up to its last ACK: the host sends, [inner] ACKs
    arrive that do not pass [beg_snd_nxt], and the RTT samples [rtts] are
    delivered. *)
Definition open_round (k inner : nat) (rtts : list Z) : list NiceRun.event :=
  host_sends :: inner_acks k inner ++ map (NiceRun.Ev_pkts_acked 1) rtts.

(** The ACK that passes [beg_snd_nxt] and closes round [k]. *)
Definition closing_ack (k : nat) : NiceRun.event :=
  NiceRun.Ev_cong_avoid (seq_base k + 1) 1.

Definition nice_round (k inner : nat) (rtts : list Z) : list NiceRun.event :=
  open_round k inner rtts ++ [closing_ack k].

(** Three samples, two of them above the congestion threshold. *)
Definition congested : list Z := [99; 999; 999].
(** Three samples at the base RTT. *)
Definition calm : list Z := [99; 99; 99].

Definition run_nice (evs : list NiceRun.event) : Nice.sock :=
  match NiceRun.run linux_host Nice.default_tunables fresh_nice_sock
          (NiceRun.Ev_init :: evs) with
  | Ok sk => sk
  | DivByZero _ => fresh_nice_sock
  end.


(** Two congested rounds take [fractional_cwnd] from 2 to 8 to 32; the
    third round is left open before its closing ACK. *)
Definition trace_to_32 : list NiceRun.event :=
  nice_round 0 0 congested ++ nice_round 1 8 congested
  ++ open_round 2 31 congested.

(** After the two congested rounds, eight calm rounds take
    [fractional_cwnd] from 32 down to 16 and a congested one takes it to
    64; the last round is left open before its closing ACK. *)
Definition trace_to_64 : list NiceRun.event :=
  nice_round 0 0 congested ++ nice_round 1 8 congested
  ++ nice_round 2 31 calm ++ nice_round 3 29 calm ++ nice_round 4 27 calm
  ++ nice_round 5 25 calm ++ nice_round 6 23 calm ++ nice_round 7 21 calm
  ++ nice_round 8 19 calm ++ nice_round 9 17 calm
  ++ nice_round 10 15 congested
  ++ open_round 11 63 congested.

(** The parameters with [fraction] set to 200. *)
Definition fraction_200 : Nice.tunables :=
  {| Nice.alpha := 1; Nice.beta := 3; Nice.gamma := 1;
     Nice.fraction := 200; Nice.threshold := 20; Nice.max_fwnd := 96 |}.

(** Three samples of 2147483646 us. *)
Definition longest : list Z := [2147483646; 2147483646; 2147483646].

(** A connection in slow start with 100000 bytes sent after
    [tcp_nice_init]. *)
Definition slow_start_nice_sock : Nice.sock :=
  match NiceRun.run linux_host Nice.default_tunables
          (Nice.mk_sock slow_start_tp zero_nice 0)
          [NiceRun.Ev_init; host_sends] with
  | Ok sk => sk
  | DivByZero _ => fresh_nice_sock
  end.

Definition zero_westwood : Westwood.westwood :=
  Westwood.mk_westwood 0 0 0 0 0 0 0 0 0 0 0 0 0 0 0 0.

Definition fresh_westwood_sock : Westwood.sock :=
  Westwood.mk_sock example_tp zero_westwood.

(** A Westwood connection that has seen filtered RTTs of 10 and 40 jiffies
    on slow-path ACKs and no early window reduction yet:
    [delay_min = 10], [delay_max = 40], [dmin_avg = dmax_avg = 0]. *)
Definition envelope_westwood_sock (t : tcp_sock) : Westwood.sock :=
  match WestwoodRun.run linux_host 3 (Westwood.mk_sock t zero_westwood)
          [WestwoodRun.Ev_init 0;
           WestwoodRun.Ev_pkts_acked 1 10000; WestwoodRun.Ev_ack 10 1;
           WestwoodRun.Ev_pkts_acked 1 40000; WestwoodRun.Ev_ack 20 1] with
  | Ok sk => sk
  | DivByZero _ => Westwood.mk_sock t zero_westwood
  end.


(** A connection in congestion avoidance with a window of ten segments. *)
Definition ten_segments_tp : tcp_sock :=
  {| snd_cwnd := 10; snd_ssthresh := 5; snd_cwnd_cnt := 0;
     snd_cwnd_clamp := 0xffffffff; snd_nxt := 1000; snd_una := 1000;
     mss_cache := 1448; advmss := 1460; max_packets_out := 10;
     is_cwnd_limited := true; icsk_ca_state := TCP_CA_Open |}.

(** That connection under Nice, before the ACK that closes a round of three
    samples at the base RTT. *)
Definition calm_round_nice_sock : Nice.sock :=
  match NiceRun.run linux_host Nice.default_tunables
          (Nice.mk_sock ten_segments_tp zero_nice 0)
          (NiceRun.Ev_init :: open_round 0 0 calm) with
  | Ok sk => sk
  | DivByZero _ => fresh_nice_sock
  end.

(** A Westwood stream of samples, a loss and ACKs, none of them on the
    slow path. *)
Definition fast_path_events : list WestwoodRun.event :=
  [WestwoodRun.Ev_pkts_acked 1 10000; WestwoodRun.Ev_ack 10 0;
   WestwoodRun.Ev_cwnd_event CA_EVENT_LOSS;
   WestwoodRun.Ev_pkts_acked 1 40000; WestwoodRun.Ev_ack 200 0;
   WestwoodRun.Ev_cong_avoid 2448 1].

Definition fast_path_westwood_sock : Westwood.sock :=
  match WestwoodRun.run linux_host 3
          (Westwood.tcp_westwood_init linux_host 0 fresh_westwood_sock)
          fast_path_events with
  | Ok sk => sk
  | DivByZero _ => fresh_westwood_sock
  end.

(** ** Views of the Westwood state *)

(** Two private states of Westwood+LP agree on the RTT and delay
    bookkeeping: every field but the bandwidth samples and the ACK
    counters. *)
Definition same_delays (w w' : Westwood.westwood) : Prop :=
  Westwood.rtt w' = Westwood.rtt w /\
  Westwood.rtt_min w' = Westwood.rtt_min w /\
  Westwood.reset_rtt_min w' = Westwood.reset_rtt_min w /\
  Westwood.delay_min w' = Westwood.delay_min w /\
  Westwood.delay_max w' = Westwood.delay_max w /\
  Westwood.dmin_avg w' = Westwood.dmin_avg w /\
  Westwood.dmax_avg w' = Westwood.dmax_avg w /\
  Westwood.delay_loss w' = Westwood.delay_loss w.

(** The delay envelope and its averages as [tcp_westwood_init] leaves
    them. *)
Definition envelope_unset (w : Westwood.westwood) : Prop :=
  Westwood.delay_min w = 0 /\ Westwood.delay_max w = 0 /\
  Westwood.dmin_avg w = 0 /\ Westwood.dmax_avg w = 0.

(** No ACK of the stream carries [CA_ACK_SLOWPATH]: the host's header
    prediction handled every one of them. *)
Definition fast_path_only (evs : list WestwoodRun.event) : bool :=
  forallb (fun ev =>
             match ev with
             | WestwoodRun.Ev_ack _ fl =>
                 Z.land fl Westwood.CA_ACK_SLOWPATH =? 0
             | _ => true
             end) evs.

(** * Properties *)

(** ** Machine integers *)

Arguments wrap : simpl never.
Arguments swrap : simpl never.
Arguments u8 : simpl never.
Arguments u16 : simpl never.
Arguments u32 : simpl never.
Arguments u64 : simpl never.
Arguments s16 : simpl never.
Arguments s32 : simpl never.

Lemma wrap_small (w x : Z) : 0 <= x < 2 ^ w -> wrap w x = x.
Proof. intros H. unfold wrap. now apply Z.mod_small. Qed.

Lemma wrap_range (w x : Z) : 0 <= w -> 0 <= wrap w x < 2 ^ w.
Proof.
  intros Hw. unfold wrap. apply Z.mod_pos_bound.
  now apply Z.pow_pos_nonneg.
Qed.

Lemma u8_small (x : Z) : 0 <= x < 256 -> u8 x = x.
Proof. intros H. apply wrap_small. now change (2 ^ 8) with 256. Qed.

Lemma u16_small (x : Z) : 0 <= x < 65536 -> u16 x = x.
Proof. intros H. apply wrap_small. now change (2 ^ 16) with 65536. Qed.

Lemma u32_small (x : Z) : 0 <= x < 4294967296 -> u32 x = x.
Proof. intros H. apply wrap_small. now change (2 ^ 32) with 4294967296. Qed.

Lemma u64_small (x : Z) : 0 <= x < 18446744073709551616 -> u64 x = x.
Proof.
  intros H. apply wrap_small.
  now change (2 ^ 64) with 18446744073709551616.
Qed.

Lemma u8_range (x : Z) : 0 <= u8 x < 256.
Proof. change 256 with (2 ^ 8). now apply wrap_range. Qed.

Lemma u32_range (x : Z) : 0 <= u32 x < 4294967296.
Proof. change 4294967296 with (2 ^ 32). now apply wrap_range. Qed.


(** ** Proof automation for the conditionals of the handlers *)

Ltac case_if :=
  match goal with
  | |- context [if ?c then _ else _] => destruct c eqn:?
  end.

Ltac bool_prop :=
  repeat match goal with
  | H : (_ && _)%bool = true |- _ => apply andb_true_iff in H; destruct H
  | H : (_ && _)%bool = false |- _ => apply andb_false_iff in H
  | H : negb _ = true |- _ => apply negb_true_iff in H
  | H : negb _ = false |- _ => apply negb_false_iff in H
  | H : (_ <? _) = true |- _ => apply Z.ltb_lt in H
  | H : (_ <? _) = false |- _ => apply Z.ltb_ge in H
  | H : (_ <=? _) = true |- _ => apply Z.leb_le in H
  | H : (_ <=? _) = false |- _ => apply Z.leb_gt in H
  | H : (_ >? _) = true |- _ => rewrite Z.gtb_ltb in H
  | H : (_ >? _) = false |- _ => rewrite Z.gtb_ltb in H
  | H : (_ >=? _) = true |- _ => rewrite Z.geb_leb in H
  | H : (_ >=? _) = false |- _ => rewrite Z.geb_leb in H
  | H : (_ =? _) = true |- _ => apply Z.eqb_eq in H
  | H : (_ =? _) = false |- _ => apply Z.eqb_neq in H
  end.

(** ** Nice: RTT sampling *)

Section NiceSampling.
Import Nice.

Variable cfg : tunables.

Lemma vrtt_of_s32 (rtt_us : Z) :
  0 <= rtt_us < 2 ^ 31 -> vrtt_of rtt_us = rtt_us + 1.
Proof.
  intros H. unfold vrtt_of. apply u32_small.
  change (2 ^ 31) with 2147483648 in H. lia.
Qed.

(** What [tcp_nice_pkts_acked] does to the three RTT filters. *)
Lemma pkts_acked_filters (sk : sock) (cnt rtt_us : Z) :
  0 <= rtt_us ->
  let n' := ca (tcp_nice_pkts_acked cfg sk cnt rtt_us) in
  baseRTT n' = Z.min (baseRTT (ca sk)) (vrtt_of rtt_us) /\
  minRTT n' = Z.min (minRTT (ca sk)) (vrtt_of rtt_us) /\
  vrtt_of rtt_us <= maxRTT n'.
Proof.
  intros H. unfold tcp_nice_pkts_acked.
  repeat (case_if; cbn); bool_prop; repeat split; lia.
Qed.

Lemma pkts_acked_ignored (sk : sock) (cnt rtt_us : Z) :
  rtt_us < 0 -> tcp_nice_pkts_acked cfg sk cnt rtt_us = sk.
Proof.
  intros H. unfold tcp_nice_pkts_acked.
  destruct (Z.ltb_spec rtt_us 0); [reflexivity|lia].
Qed.




End NiceSampling.



(** ** Nice: the per-sample congestion detector *)

Section NiceDetector.
Import Nice.

Variable cfg : tunables.

(** [tcp_nice_pkts_acked] compares the sample against [cong_threshold],
    taken over the values of [baseRTT] and [maxRTT] it has just stored. *)
Lemma pkts_acked_numCong (sk : sock) (cnt rtt_us : Z) :
  0 <= rtt_us ->
  let n' := ca (tcp_nice_pkts_acked cfg sk cnt rtt_us) in
  numCong n' = if vrtt_of rtt_us >? cong_threshold cfg n'
               then u8 (numCong (ca sk) + 1) else numCong (ca sk).
Proof.
  intros H. unfold tcp_nice_pkts_acked.
  destruct (rtt_us <? 0) eqn:Hneg; bool_prop; [lia|].
  cbv zeta.
  match goal with
  | |- context [if vrtt_of rtt_us >? cong_threshold cfg ?n then _ else _] =>
      set (m := n);
      change (cong_threshold cfg m)
        with (cong_threshold cfg (set_numCong (u8 (numCong m + 1)) m));
      destruct (vrtt_of rtt_us >? cong_threshold cfg
                  (set_numCong (u8 (numCong m + 1)) m)) eqn:Hc
  end.
  - cbn. unfold cong_threshold in *. cbn in *. rewrite Hc. subst m.
    repeat (case_if; cbn); reflexivity.
  - cbn. change (cong_threshold cfg (set_numCong (u8 (numCong m + 1)) m))
      with (cong_threshold cfg m) in Hc. rewrite Hc. subst m.
    repeat (case_if; cbn); reflexivity.
Qed.

(** Where no product leaves its C type, the code's threshold is the
    weighted mean of [baseRTT] and [maxRTT]. *)
Lemma cong_threshold_exact (n : nice) :
  0 <= threshold cfg <= 100 ->
  0 <= baseRTT n < 2 ^ 32 ->
  0 <= maxRTT n ->
  threshold cfg * maxRTT n < 2 ^ 32 ->
  cong_threshold cfg n =
  ((100 - threshold cfg) * baseRTT n + threshold cfg * maxRTT n) / 100.
Proof.
  intros Ht Hb Hm Hp. unfold cong_threshold.
  change (2 ^ 32) with 4294967296 in *.
  rewrite (u32_small (threshold cfg * maxRTT n)) by nia.
  rewrite (u64_small (100 - threshold cfg)) by lia.
  rewrite (u64_small ((100 - threshold cfg) * baseRTT n)) by nia.
  rewrite u64_small by nia.
  reflexivity.
Qed.

(** In that range [numCong] is incremented exactly when the sample
    exceeds the weighted mean, and is unchanged otherwise. *)
Lemma numCong_follows_weighted_mean (sk : sock) (cnt rtt_us : Z) :
  0 <= rtt_us ->
  let n' := ca (tcp_nice_pkts_acked cfg sk cnt rtt_us) in
  0 <= threshold cfg <= 100 ->
  0 <= baseRTT n' < 2 ^ 32 ->
  0 <= maxRTT n' ->
  threshold cfg * maxRTT n' < 2 ^ 32 ->
  numCong n'
  = if vrtt_of rtt_us >? ((100 - threshold cfg) * baseRTT n'
                          + threshold cfg * maxRTT n') / 100
    then u8 (numCong (ca sk) + 1) else numCong (ca sk).
Proof.
  intros Hr n' Ht Hb Hm Hp.
  rewrite <- (cong_threshold_exact n') by assumption.
  now apply pkts_acked_numCong.
Qed.

End NiceDetector.

(** C5. The code diverges from the formula of the claim on a first sample
    of 110 s: the product [threshold * maxRTT] is computed in 32 bits and
    wraps, the threshold the code compares against is too small, and
    [numCong] is incremented although the sample does not exceed
    [((100 - threshold) * baseRTT + threshold * maxRTT) / 100]. *)
Theorem C5_numCong_threshold_product_wraps :
  let cfg := Nice.default_tunables in
  let s' := Nice.tcp_nice_pkts_acked cfg started_nice_sock 1 110000000 in
  let n' := Nice.ca s' in
  Nice.numCong n' = Nice.numCong (Nice.ca started_nice_sock) + 1 /\
  Nice.baseRTT n' = 110000001 /\ Nice.maxRTT n' = 220000002 /\
  Nice.cong_threshold cfg n' = 89050328 /\
  ((100 - Nice.threshold cfg) * Nice.baseRTT n'
   + Nice.threshold cfg * Nice.maxRTT n') / 100 = 132000001 /\
  Nice.vrtt_of 110000000 = 110000001.
Proof. vm_compute. repeat split; reflexivity. Qed.

(** ** Invalid RTT samples in both engines *)

(** C6 (as the code has it). A negative sample is a no-op in both
    handlers.  A sample of zero is a no-op in Westwood only: Nice turns it
    into the sample [vrtt = 1] and processes it like any other sample (it is
    counted in [cntRTT] and min-filtered into [minRTT] and [baseRTT]). *)
Theorem C6_negative_and_zero_samples
  (h : host_stack) (cfg : Nice.tunables)
  (nsk : Nice.sock) (wsk : Westwood.sock) (cnt rtt_us : Z) :
  let nsk' := Nice.tcp_nice_pkts_acked cfg nsk cnt rtt_us in
  let wsk' := Westwood.tcp_westwood_pkts_acked h wsk cnt rtt_us in
  (if rtt_us <? 0 then nsk' = nsk
   else Nice.cntRTT (Nice.ca nsk') = u16 (Nice.cntRTT (Nice.ca nsk) + 1) /\
        Nice.minRTT (Nice.ca nsk')
        = Z.min (Nice.minRTT (Nice.ca nsk)) (Nice.vrtt_of rtt_us) /\
        Nice.baseRTT (Nice.ca nsk')
        = Z.min (Nice.baseRTT (Nice.ca nsk)) (Nice.vrtt_of rtt_us)) /\
  (if rtt_us <=? 0 then wsk' = wsk
   else wsk' = Westwood.with_ca
                 (Westwood.set_rtt (u32 (usecs_to_jiffies h rtt_us))) wsk) /\
  Nice.vrtt_of 0 = 1.
Proof.
  cbv zeta. split; [|split].
  - unfold Nice.tcp_nice_pkts_acked.
    destruct (rtt_us <? 0) eqn:Hneg; [reflexivity|].
    repeat (case_if; cbn); bool_prop; repeat split; lia.
  - unfold Westwood.tcp_westwood_pkts_acked.
    rewrite Z.gtb_ltb, Z.ltb_antisym.
    destruct (rtt_us <=? 0); reflexivity.
  - reflexivity.
Qed.

(** C6, the claim as stated fails: a sample of zero changes the state of
    Nice. *)
Lemma C6_nice_zero_sample_is_processed :
  let s' := Nice.tcp_nice_pkts_acked Nice.default_tunables
              started_nice_sock 1 0 in
  s' <> started_nice_sock /\
  Nice.cntRTT (Nice.ca started_nice_sock) = 0 /\
  Nice.cntRTT (Nice.ca s') = 1 /\
  Nice.baseRTT (Nice.ca started_nice_sock) = Nice.RTT_UNSET /\
  Nice.baseRTT (Nice.ca s') = 1 /\
  Nice.minRTT (Nice.ca s') = 1.
Proof.
  cbv zeta. split.
  - intros H. apply (f_equal (fun s => Nice.cntRTT (Nice.ca s))) in H.
    vm_compute in H. discriminate H.
  - vm_compute. repeat split; reflexivity.
Qed.

(** ** Nice: fractional-window pacing *)

Section NicePacing.
Import Nice NiceRun.



Variable h : host_stack.
Variable cfg : tunables.








End NicePacing.



(** ** Nice: the bounds of [fractional_cwnd] *)

Section NiceReachable.
Import Nice NiceRun.

Variable h : host_stack.
Variable cfg : tunables.

Lemma wf_eventb_sound (evs : list event) :
  forallb wf_eventb evs = true -> Forall wf_event evs.
Proof.
  induction evs as [|ev evs IH]; cbn; intros H; constructor.
  - apply andb_true_iff in H. destruct H as [H _].
    destruct ev; cbn in *; trivial.
    apply andb_true_iff in H. destruct H as [H1 H2].
    apply Z.leb_le in H1. apply Z.ltb_lt in H2. lia.
  - apply IH. apply andb_true_iff in H. tauto.
Qed.

Lemma run_reachable (evs : list event) (sk sk' : sock) :
  reachable h cfg sk -> Forall wf_event evs ->
  run h cfg sk evs = Ok sk' -> reachable h cfg sk'.
Proof.
  revert sk. induction evs as [|ev evs IH]; cbn; intros sk Hr Hwf Hrun.
  - inversion Hrun; subst. exact Hr.
  - inversion Hwf; subst.
    destruct (step h cfg sk ev) as [s|d] eqn:Hs; cbn in Hrun; [|discriminate].
    apply (IH s); trivial. now apply (reach_step h cfg sk ev s).
Qed.

Lemma run_init_reachable (evs : list event) (sk0 sk' : sock) :
  forallb wf_eventb evs = true ->
  run h cfg sk0 (Ev_init :: evs) = Ok sk' -> reachable h cfg sk'.
Proof.
  intros Hwf Hrun. cbn in Hrun.
  destruct (tcp_nice_init cfg sk0) as [s|d] eqn:Hi; cbn in Hrun; [|discriminate].
  apply (run_reachable evs s); [now apply (reach_init h cfg sk0)| |assumption].
  now apply wf_eventb_sound.
Qed.

End NiceReachable.

Lemma run_nice_reachable (evs : list NiceRun.event) :
  forallb NiceRun.wf_eventb evs = true ->
  (exists sk, NiceRun.run linux_host Nice.default_tunables fresh_nice_sock
                (NiceRun.Ev_init :: evs) = Ok sk) ->
  NiceRun.reachable linux_host Nice.default_tunables (run_nice evs).
Proof.
  intros Hwf [sk Hrun]. unfold run_nice. rewrite Hrun.
  now apply (run_init_reachable _ _ evs fresh_nice_sock).
Qed.

(** Outside [tcp_nice_cong_avoid] the handlers keep [fractional_cwnd] or
    set it to 2. *)
Lemma fractional_cwnd_outside_cong_avoid
  (h : host_stack) (cfg : Nice.tunables) (sk sk' : Nice.sock)
  (ev : NiceRun.event) :
  NiceRun.step h cfg sk ev = Ok sk' ->
  match ev with
  | NiceRun.Ev_cong_avoid _ _ => True
  | _ => Nice.fractional_cwnd (Nice.ca sk')
         = Nice.fractional_cwnd (Nice.ca sk)
         \/ Nice.fractional_cwnd (Nice.ca sk') = 2
  end.
Proof.
  destruct ev as [|cnt r|s|e|ack acked|f]; cbn; trivial.
  - unfold Nice.tcp_nice_init, sdiv. case_if; cbn; [discriminate|].
    intros H; inversion H; subst. now right.
  - intros H; inversion H; subst. left.
    unfold Nice.tcp_nice_pkts_acked. repeat (case_if; cbn); reflexivity.
  - intros H; inversion H; subst. left. destruct s; reflexivity.
  - destruct e; cbn; try (intros H; inversion H; subst; now left);
      unfold Nice.tcp_nice_init, sdiv; case_if; cbn; try discriminate;
      intros H; inversion H; subst; now right.
  - intros H; inversion H; subst. now left.
Qed.

(** C3. The code breaks both bounds.  Two congested rounds take a fresh
    connection to a reachable state with [fractional_cwnd = 32], within
    [2..max_fwnd]; the next congested round quadruples it to 128, above
    [max_fwnd = 96].  Another reachable state has [fractional_cwnd = 64];
    the next congested round quadruples it to 256, which the [u8] field
    stores as 0, below 2. *)
Theorem C3_fractional_cwnd_leaves_its_bounds :
  let cfg := Nice.default_tunables in
  let above := run_nice trace_to_32 in
  let below := run_nice trace_to_64 in
  Nice.max_fwnd cfg = 96 /\
  (NiceRun.reachable linux_host cfg above /\
   Nice.fractional_cwnd (Nice.ca above) = 32 /\
   exists sk',
     NiceRun.step linux_host cfg above (closing_ack 2) = Ok sk' /\
     Nice.fractional_cwnd (Nice.ca sk') = 128) /\
  (NiceRun.reachable linux_host cfg below /\
   Nice.fractional_cwnd (Nice.ca below) = 64 /\
   exists sk',
     NiceRun.step linux_host cfg below (closing_ack 11) = Ok sk' /\
     Nice.fractional_cwnd (Nice.ca sk') = 0).
Proof.
  cbv zeta. split; [reflexivity|]. split.
  - split; [|split].
    + apply run_nice_reachable; [vm_compute; reflexivity|].
      eexists. vm_compute. reflexivity.
    + vm_compute. reflexivity.
    + eexists. split; vm_compute; reflexivity.
  - split; [|split].
    + apply run_nice_reachable; [vm_compute; reflexivity|].
      eexists. vm_compute. reflexivity.
    + vm_compute. reflexivity.
    + eexists. split; vm_compute; reflexivity.
Qed.

(** ** Nice: the multiplicative decrease *)

Section NiceDecrease.
Import Nice.

Variable h : host_stack.
Variable cfg : tunables.

(** The decrease halves [snd_cwnd] when the window is above 2 and not
    fractional; otherwise it quadruples [fractional_cwnd] in [u8], provided
    the value before the update is at most [max_fwnd]. *)
Lemma nice_mult_decrease_spec (sk : sock) :
  let sk' := nice_mult_decrease cfg sk in
  let fc := fractional_cwnd (ca sk) in
  numCong (ca sk') = 0 /\
  (if (snd_cwnd (tp sk) >? 2) && (fc =? 2)
   then snd_cwnd (tp sk') = snd_cwnd (tp sk) / 2 /\
        fractional_cwnd (ca sk') = fc
   else snd_cwnd (tp sk') = snd_cwnd (tp sk) /\
        fractional_cwnd (ca sk')
        = if fc <=? max_fwnd cfg then u8 (fc * 4) else fc).
Proof.
  unfold nice_mult_decrease. cbv zeta.
  destruct ((snd_cwnd (tp sk) >? 2) && (fractional_cwnd (ca sk) =? 2));
    [cbn; auto|].
  destruct (fractional_cwnd (ca sk) <=? max_fwnd cfg); cbn; auto.
Qed.

Lemma nice_pacing_frame (sk : sock) :
  let p := nice_pacing sk in
  doing_nice_now (ca p) = doing_nice_now (ca sk) /\
  beg_snd_nxt (ca p) = beg_snd_nxt (ca sk) /\
  cntRTT (ca p) = cntRTT (ca sk) /\
  minRTT (ca p) = minRTT (ca sk) /\
  baseRTT (ca p) = baseRTT (ca sk) /\
  numCong (ca p) = numCong (ca sk) /\
  fraction_divisor p = fraction_divisor sk.
Proof.
  unfold nice_pacing. repeat (case_if; cbn); repeat split; reflexivity.
Qed.

(** When the engine is sampling, the ACK closes a round with at least
    three samples, the connection is not in slow start and [numCong]
    exceeds [snd_cwnd / fraction_divisor], the call is: pacing step,
    multiplicative decrease, final clamp, wipe. *)
Lemma cong_avoid_mult_decrease (sk : sock) (ack acked : Z) :
  let p := with_ca (set_beg_snd_nxt (snd_nxt (tp (nice_pacing sk))))
             (nice_pacing sk) in
  doing_nice_now (ca sk) <> 0 ->
  after ack (beg_snd_nxt (ca sk)) = true ->
  2 < cntRTT (ca sk) ->
  minRTT (ca sk) <> 0 -> baseRTT (ca sk) <> 0 ->
  u32 (fraction_divisor sk) <> 0 ->
  tcp_in_slow_start h (tp p) = false ->
  snd_cwnd (tp p) / u32 (fraction_divisor sk) < numCong (ca sk) ->
  tcp_nice_cong_avoid h cfg sk ack acked
  = Ok (nice_wipe (nice_clamp h (nice_mult_decrease cfg p))).
Proof.
  intros p Hd Ha Hc Hm Hb Hf Hs Hn.
  destruct (nice_pacing_frame sk) as (Fd & Fb & Fc & Fm & Fbase & Fn & Ff).
  unfold tcp_nice_cong_avoid. cbv zeta.
  rewrite Fd, Fb, Ha.
  destruct (Z.eqb_spec (doing_nice_now (ca sk)) 0) as [E|_]; [contradiction|].
  fold p.
  assert (Ep : cntRTT (ca p) = cntRTT (ca sk)) by (subst p; cbn; exact Fc).
  rewrite Ep. destruct (Z.leb_spec (cntRTT (ca sk)) 2) as [E|_]; [lia|].
  unfold nice_vegas_round, udiv.
  assert (Em : minRTT (ca p) = minRTT (ca sk)) by (subst p; cbn; exact Fm).
  assert (Eb : baseRTT (ca p) = baseRTT (ca sk)) by (subst p; cbn; exact Fbase).
  assert (En : numCong (ca p) = numCong (ca sk)) by (subst p; cbn; exact Fn).
  assert (Ef : fraction_divisor p = fraction_divisor sk)
    by (subst p; cbn; exact Ff).
  rewrite Em, Eb, En, Ef.
  destruct (Z.eqb_spec (minRTT (ca sk)) 0) as [E|_]; [contradiction|].
  destruct (Z.eqb_spec (baseRTT (ca sk)) 0) as [E|_]; [contradiction|].
  cbn [bind]. rewrite Hs, andb_false_r.
  destruct (Z.eqb_spec (u32 (fraction_divisor sk)) 0) as [E|_]; [contradiction|].
  cbn [bind].
  destruct (Z.gtb_spec (numCong (ca sk))
              (snd_cwnd (tp p) / u32 (fraction_divisor sk))) as [_|E]; [|lia].
  reflexivity.
Qed.

End NiceDecrease.

(** C4. The code diverges from the claim where it quadruples.  In the
    reachable state [run_nice trace_to_32] all conditions of the claim
    hold: the engine is sampling, the ACK closes a round of 3 samples, the
    connection is not in slow start, and [numCong = 2] exceeds
    [snd_cwnd / (100 / fraction) = 1].  The window is fractional
    ([fractional_cwnd = 32]), so [tcp_nice_cong_avoid] quadruples it: to
    128, which is not bounded by [max_fwnd = 96].  [numCong] is reset. *)
Theorem C4_quadrupled_fractional_cwnd_exceeds_max_fwnd :
  let cfg := Nice.default_tunables in
  let sk := run_nice trace_to_32 in
  let ack := seq_base 2 + 1 in
  let p := Nice.nice_pacing sk in
  Nice.doing_nice_now (Nice.ca sk) = 1 /\
  after ack (Nice.beg_snd_nxt (Nice.ca sk)) = true /\
  Nice.cntRTT (Nice.ca sk) = 3 /\
  tcp_in_slow_start linux_host (Nice.tp p) = false /\
  Nice.numCong (Nice.ca sk) = 2 /\
  snd_cwnd (Nice.tp p) / (100 / Nice.fraction cfg) = 1 /\
  Nice.fractional_cwnd (Nice.ca sk) = 32 /\
  Nice.max_fwnd cfg = 96 /\
  exists sk',
    Nice.tcp_nice_cong_avoid linux_host cfg sk ack 1 = Ok sk' /\
    sk' = Nice.nice_wipe (Nice.nice_clamp linux_host
            (Nice.nice_mult_decrease cfg
               (Nice.with_ca (Nice.set_beg_snd_nxt (snd_nxt (Nice.tp p))) p))) /\
    Nice.fractional_cwnd (Nice.ca sk') = 128 /\
    Nice.numCong (Nice.ca sk') = 0.
Proof.
  cbv zeta. repeat (split; [vm_compute; reflexivity|]).
  eexists. split; [vm_compute; reflexivity|].
  repeat split; vm_compute; reflexivity.
Qed.

(** ** Divisors: Nice *)

Section NiceDivisors.
Import Nice NiceRun.

Variable h : host_stack.
Variable cfg : tunables.

Lemma keeps_filters_trans (a b c : sock) :
  keeps_filters a b -> keeps_filters b c -> keeps_filters a c.
Proof.
  unfold keeps_filters. intros (A1 & A2 & A3 & A4) (B1 & B2 & B3 & B4).
  repeat split; congruence.
Qed.

Lemma pacing_keeps_filters (sk : sock) : keeps_filters sk (nice_pacing sk).
Proof.
  unfold keeps_filters, nice_pacing.
  repeat (case_if; cbn); repeat split; reflexivity.
Qed.

Lemma reno_fallback_keeps_filters (sk : sock) (ack acked : Z) :
  keeps_filters sk (nice_reno_fallback h cfg sk ack acked).
Proof.
  unfold keeps_filters, nice_reno_fallback, tcp_reno_fractional_ca.
  repeat (case_if; cbn); repeat split; reflexivity.
Qed.

Lemma vegas_round_keeps_filters (sk sk' : sock) (acked : Z) :
  nice_vegas_round h cfg sk acked = Ok sk' -> keeps_filters sk sk'.
Proof.
  unfold keeps_filters, nice_vegas_round, udiv, nice_mult_decrease,
    nice_vegas_adjust, nice_clamp.
  repeat (case_if; cbn); intros H; inversion H; subst; cbn;
    repeat (case_if; cbn); repeat split; reflexivity.
Qed.

(** [tcp_nice_cong_avoid] keeps [doing_nice_now], [baseRTT] and
    [fraction_divisor]; it keeps [minRTT] or resets it. *)
Lemma cong_avoid_frame (sk sk' : sock) (ack acked : Z) :
  tcp_nice_cong_avoid h cfg sk ack acked = Ok sk' ->
  doing_nice_now (ca sk') = doing_nice_now (ca sk) /\
  baseRTT (ca sk') = baseRTT (ca sk) /\
  (minRTT (ca sk') = minRTT (ca sk) \/ minRTT (ca sk') = RTT_UNSET) /\
  fraction_divisor sk' = fraction_divisor sk.
Proof.
  unfold tcp_nice_cong_avoid. cbv zeta.
  pose proof (pacing_keeps_filters sk) as Hp.
  set (p := nice_pacing sk) in *. clearbody p.
  destruct (doing_nice_now (ca p) =? 0).
  { intros H; inversion H; subst.
    destruct (keeps_filters_trans _ _ _ Hp
                (reno_fallback_keeps_filters p ack acked)) as (A & B & C & D).
    auto. }
  destruct (after ack (beg_snd_nxt (ca p))).
  - set (q := with_ca (set_beg_snd_nxt (snd_nxt (tp p))) p).
    assert (Hq : keeps_filters sk q).
    { apply (keeps_filters_trans _ p); [exact Hp|].
      subst q. unfold keeps_filters. cbn. auto. }
    clearbody q.
    destruct (cntRTT (ca q) <=? 2).
    + cbn. intros H; inversion H; subst.
      destruct (keeps_filters_trans _ _ _ Hq
                  (reno_fallback_keeps_filters q ack acked)) as (A & B & C & D).
      cbn. auto.
    + destruct (nice_vegas_round h cfg q acked) as [s|d] eqn:Hv; cbn;
        intros H; inversion H; subst.
      destruct (keeps_filters_trans _ _ _ Hq
                  (vegas_round_keeps_filters _ _ _ Hv)) as (A & B & C & D).
      cbn. auto.
  - destruct Hp as (A & B & C & D).
    case_if; intros H; inversion H; subst; cbn; auto.
Qed.

Lemma init_establishes_inv (sk0 sk : sock) :
  tcp_nice_init cfg sk0 = Ok sk -> nice_inv cfg sk.
Proof.
  unfold tcp_nice_init, sdiv, nice_inv.
  destruct (Z.eqb_spec (fraction cfg) 0) as [E|N]; cbn; [discriminate|].
  intros H; inversion H; subst; cbn. unfold RTT_UNSET. repeat split; lia.
Qed.

Lemma init_succeeds (sk : sock) :
  fraction cfg <> 0 -> exists sk', tcp_nice_init cfg sk = Ok sk'.
Proof.
  intros N. unfold tcp_nice_init, sdiv.
  destruct (Z.eqb_spec (fraction cfg) 0) as [E|_]; [contradiction|].
  cbn. eexists. reflexivity.
Qed.

Lemma vrtt_of_range (rtt_us : Z) :
  0 <= rtt_us < 2 ^ 31 -> 1 <= vrtt_of rtt_us <= 2 ^ 31.
Proof. intros H. rewrite vrtt_of_s32 by assumption. lia. Qed.

Lemma pkts_acked_keeps_inv (sk : sock) (cnt rtt_us : Z) :
  - 2 ^ 31 <= rtt_us < 2 ^ 31 ->
  nice_inv cfg sk -> nice_inv cfg (tcp_nice_pkts_acked cfg sk cnt rtt_us).
Proof.
  intros Hr (Hm & Hb & Hf & Hd).
  destruct (Z.lt_ge_cases rtt_us 0) as [Hneg|Hpos].
  - rewrite pkts_acked_ignored by assumption. unfold nice_inv. auto.
  - destruct (pkts_acked_filters cfg sk cnt rtt_us Hpos) as (Eb & Em & _).
    pose proof (vrtt_of_range rtt_us ltac:(lia)) as Hv.
    unfold nice_inv. rewrite Eb, Em.
    assert (Ed : fraction_divisor (tcp_nice_pkts_acked cfg sk cnt rtt_us)
                 = fraction_divisor sk).
    { unfold tcp_nice_pkts_acked. case_if; reflexivity. }
    rewrite Ed. repeat split; try assumption; lia.
Qed.

Lemma step_keeps_inv (sk sk' : sock) (ev : event) :
  wf_event ev -> nice_inv cfg sk -> step h cfg sk ev = Ok sk' ->
  nice_inv cfg sk'.
Proof.
  intros Hwf Hinv Hs. destruct ev as [|cnt r|s|e|ack acked|f]; cbn in Hs.
  - now apply (init_establishes_inv sk).
  - inversion Hs; subst. now apply pkts_acked_keeps_inv.
  - inversion Hs; subst. destruct Hinv as (Hm & Hb & Hf & Hd).
    destruct s;
      unfold nice_inv, tcp_nice_state, nice_enable, nice_disable, RTT_UNSET in *;
      cbn; repeat split; try assumption; lia.
  - destruct e; cbn in Hs;
      try (inversion Hs; subst; exact Hinv);
      now apply (init_establishes_inv sk).
  - destruct Hinv as (Hm & Hb & Hf & Hd).
    destruct (cong_avoid_frame _ _ _ _ Hs) as (_ & Eb & Em & Ed).
    unfold nice_inv. rewrite Eb, Ed.
    repeat split; try assumption; try lia;
      destruct Em as [Em|Em]; rewrite Em; unfold RTT_UNSET; lia.
  - inversion Hs; subst. exact Hinv.
Qed.

Lemma reachable_inv (sk : sock) : reachable h cfg sk -> nice_inv cfg sk.
Proof.
  induction 1 as [sk0 sk Hi|sk ev sk' _ IH Hwf Hs].
  - now apply (init_establishes_inv sk0).
  - now apply (step_keeps_inv sk sk' ev).
Qed.

(** With nonzero RTT filters, the round decision can only fault on
    [fraction_divisor]. *)
Lemma vegas_round_faults (sk : sock) (acked : Z) :
  minRTT (ca sk) <> 0 -> baseRTT (ca sk) <> 0 ->
  match nice_vegas_round h cfg sk acked with
  | Ok _ => True
  | DivByZero d => d = DIV_fraction_divisor /\ u32 (fraction_divisor sk) = 0
  end.
Proof.
  intros Hm Hb. unfold nice_vegas_round, udiv.
  destruct (Z.eqb_spec (minRTT (ca sk)) 0) as [E|_]; [contradiction|].
  destruct (Z.eqb_spec (baseRTT (ca sk)) 0) as [E|_]; [contradiction|].
  cbn [bind].
  repeat (case_if; cbn [bind]); bool_prop; auto.
Qed.

Lemma cong_avoid_faults (sk : sock) (ack acked : Z) :
  minRTT (ca sk) <> 0 -> baseRTT (ca sk) <> 0 ->
  match tcp_nice_cong_avoid h cfg sk ack acked with
  | Ok _ => True
  | DivByZero d => d = DIV_fraction_divisor /\ u32 (fraction_divisor sk) = 0
  end.
Proof.
  intros Hm Hb. unfold tcp_nice_cong_avoid. cbv zeta.
  destruct (pacing_keeps_filters sk) as (_ & Eb & Em & Ed).
  set (p := nice_pacing sk) in *. clearbody p.
  destruct (doing_nice_now (ca p) =? 0); [exact I|].
  destruct (after ack (beg_snd_nxt (ca p))); [|case_if; exact I].
  set (q := with_ca (set_beg_snd_nxt (snd_nxt (tp p))) p).
  destruct (cntRTT (ca q) <=? 2); [exact I|].
  pose proof (vegas_round_faults q acked) as Hv.
  assert (Hq : minRTT (ca q) = minRTT (ca sk) /\ baseRTT (ca q) = baseRTT (ca sk)
               /\ fraction_divisor q = fraction_divisor sk)
    by (subst q; cbn; auto).
  destruct Hq as (Qm & Qb & Qd). rewrite Qm, Qb, Qd in Hv.
  specialize (Hv Hm Hb).
  destruct (nice_vegas_round h cfg q acked); cbn; auto.
Qed.

(** From a reachable state no handler divides by a zero [minRTT] or
    [baseRTT]: both lie between 1 and the unset value [0x7fffffff].  The
    only division that can fault is the one by [fraction_divisor], when
    [100 / fraction] is 0. *)
Lemma nice_reachable_divisors (sk : sock) (ev : event) :
  reachable h cfg sk -> wf_event ev ->
  (1 <= minRTT (ca sk) <= RTT_UNSET /\ 1 <= baseRTT (ca sk) <= RTT_UNSET) /\
  match step h cfg sk ev with
  | Ok _ => True
  | DivByZero d => d = DIV_fraction_divisor /\ Z.quot 100 (fraction cfg) = 0
  end.
Proof.
  intros Hr Hwf. destruct (reachable_inv sk Hr) as (Hm & Hb & Hf & Hd).
  split; [auto|].
  assert (Hq : u32 (fraction_divisor sk) = 0 -> Z.quot 100 (fraction cfg) = 0).
  { rewrite Hd. intros Hu.
    assert (Hb100 : - 100 <= Z.quot 100 (fraction cfg) <= 100).
    { pose proof (Z.quot_lt_upper_bound 100 (Z.abs (fraction cfg)) 101).
      assert (Habs : Z.abs (Z.quot 100 (fraction cfg)) <= 100).
      { rewrite <- (Z.abs_eq 100) at 1 by lia. rewrite <- Z.quot_abs by lia.
        apply Z.lt_succ_r. apply Z.quot_lt_upper_bound; lia. }
      lia. }
    destruct (Z.eq_dec (Z.quot 100 (fraction cfg)) 0) as [E|N]; [exact E|].
    exfalso. unfold u32, wrap in Hu. change (2 ^ 32) with 4294967296 in Hu.
    destruct (Z.lt_ge_cases (Z.quot 100 (fraction cfg)) 0).
    - rewrite <- (Z.mod_add _ 1) in Hu by lia.
      rewrite Z.mod_small in Hu; lia.
    - rewrite Z.mod_small in Hu; lia. }
  destruct ev as [|cnt r|s|e|ack acked|f]; cbn; trivial.
  - destruct (init_succeeds sk Hf) as [sk' E]. now rewrite E.
  - destruct e; cbn; trivial;
      destruct (init_succeeds sk Hf) as [sk' E]; now rewrite E.
  - pose proof (cong_avoid_faults sk ack acked ltac:(lia) ltac:(lia)) as Hc.
    destruct (tcp_nice_cong_avoid h cfg sk ack acked); [exact I|].
    destruct Hc as [Hd' Hu]. auto.
Qed.

End NiceDivisors.

(** ** Divisors: Westwood+LP *)

Section WestwoodDivisors.
Import Westwood WestwoodRun.

Variable h : host_stack.
Variable beta : Z.

(** [20 * HZ] jiffies and the jiffies of a positive [s32] number of
    microseconds are positive and below [2 ^ 30]. *)
Hypothesis init_rtt_bound : 1 <= 20 * HZ h < 2 ^ 30.
Hypothesis jiffies_bound :
  forall r, 0 < r < 2 ^ 31 -> 1 <= usecs_to_jiffies h r < 2 ^ 30.

Lemma westwood_filter_ok (w : westwood) (delta : Z) :
  delta <> 0 ->
  exists w', westwood_filter w delta = Ok w' /\
             rtt w' = rtt w /\ delay_loss w' = delay_loss w.
Proof.
  intros Hd. unfold westwood_filter, udiv.
  destruct (Z.eqb_spec delta 0) as [E|_]; [contradiction|].
  case_if; cbn; eexists; repeat split; reflexivity.
Qed.

(** The bandwidth filter runs only with a positive [delta]: the guard of
    [westwood_update_window] compares it against a [u32] maximum. *)
Lemma update_window_ok (now : Z) (sk : sock) :
  exists sk', westwood_update_window h now sk = Ok sk' /\
              tp sk' = tp sk /\
              rtt (ca sk') = rtt (ca sk) /\
              delay_loss (ca sk') = delay_loss (ca sk).
Proof.
  unfold westwood_update_window. cbv zeta.
  set (delta := u32 (s32 (u32 (now - rtt_win_sx (ca sk))))).
  set (w := if negb (first_ack (ca sk) =? 0)
            then set_first_ack 0 (set_w_snd_una (snd_una (tp sk)) (ca sk))
            else ca sk).
  assert (Hw : rtt w = rtt (ca sk) /\ delay_loss w = delay_loss (ca sk))
    by (subst w; case_if; cbn; auto).
  destruct Hw as [Hr Hl].
  destruct (negb (rtt w =? 0)
            && (delta >? Z.max (u32 (rtt w))
                           (u32 (TCP_WESTWOOD_RTT_MIN h)))) eqn:Hg.
  - bool_prop.
    assert (Hd : delta <> 0).
    { pose proof (u32_range (rtt w)). lia. }
    destruct (westwood_filter_ok w delta Hd) as (w' & Hf & Hr' & Hl').
    rewrite Hf. cbn. eexists. repeat split; cbn; congruence.
  - eexists. repeat split; cbn; assumption.
Qed.

Lemma update_rtt_min_frame (w : westwood) :
  rtt (update_rtt_min w) = rtt w /\
  delay_loss (update_rtt_min w) = delay_loss w.
Proof. unfold update_rtt_min. case_if; cbn; auto. Qed.

Lemma acked_count_frame (sk : sock) :
  tp (fst (westwood_acked_count sk)) = tp sk /\
  rtt (ca (fst (westwood_acked_count sk))) = rtt (ca sk) /\
  delay_loss (ca (fst (westwood_acked_count sk))) = delay_loss (ca sk).
Proof.
  unfold westwood_acked_count. repeat (case_if; cbn); auto.
Qed.

Lemma ack_ok (now : Z) (sk : sock) (ack_flags : Z) :
  exists sk', tcp_westwood_ack h now sk ack_flags = Ok sk' /\
              rtt (ca sk') = rtt (ca sk) /\
              delay_loss (ca sk') = delay_loss (ca sk).
Proof.
  unfold tcp_westwood_ack, westwood_fast_bw.
  destruct (update_window_ok now sk) as (s & Hs & Ht & Hr & Hl).
  rewrite Hs. cbn [bind].
  destruct (negb (Z.land ack_flags CA_ACK_SLOWPATH =? 0)).
  - destruct (acked_count_frame s) as (At & Ar & Al).
    destruct (westwood_acked_count s) as [s' n]. cbn [fst] in *.
    eexists. split; [reflexivity|].
    match goal with
    | |- context [update_rtt_min ?x] =>
        destruct (update_rtt_min_frame x) as [Ur Ul];
        set (u := update_rtt_min x) in *
    end.
    cbn in Ur, Ul.
    repeat (case_if; cbn); split; congruence.
  - eexists. split; [reflexivity|]. cbn.
    match goal with
    | |- context [update_rtt_min ?x] =>
        destruct (update_rtt_min_frame x) as [Ur Ul]
    end.
    rewrite Ur, Ul. cbn. auto.
Qed.

Lemma update_delay_range (r dl : Z) :
  1 <= r < 2 ^ 30 -> 1 <= dl <= 2 ^ 32 - 4 ->
  1 <= westwood_update_delay r dl <= 2 ^ 32 - 4.
Proof.
  intros Hr Hd. unfold westwood_update_delay.
  change (2 ^ 30) with 1073741824 in *.
  change (2 ^ 32) with 4294967296 in *.
  destruct (negb (dl =? 0) && negb (dl =? 1)) eqn:Hc; bool_prop.
  - rewrite Z.shiftr_div_pow2 by lia. change (2 ^ 2) with 4.
    pose proof (Z.div_mod dl 4 ltac:(lia)) as Hdm.
    pose proof (Z.mod_pos_bound dl 4 ltac:(lia)) as Hmb.
    unfold u32, wrap. change (2 ^ 32) with 4294967296.
    rewrite Z.add_mod_idemp_r by lia.
    rewrite Z.mod_small; lia.
  - rewrite Z.shiftl_mul_pow2 by lia. change (2 ^ 2) with 4.
    rewrite u32_small; lia.
Qed.

Lemma bw_rttmin_faults (sk : sock) :
  match tcp_westwood_bw_rttmin sk with
  | Ok _ => True
  | DivByZero d => d = DIV_mss_cache /\ mss_cache (tp sk) = 0
  end.
Proof.
  unfold tcp_westwood_bw_rttmin, udiv.
  destruct (Z.eqb_spec (mss_cache (tp sk)) 0); cbn; auto.
Qed.

Lemma event_keeps_inv (sk : sock) (e : tcp_ca_event) :
  delay_inv sk ->
  match tcp_westwood_event sk e with
  | Ok sk' => delay_inv sk'
  | DivByZero d => d = DIV_mss_cache /\ mss_cache (tp sk) = 0
  end.
Proof.
  intros [Hr Hl]. pose proof (bw_rttmin_faults sk) as Hb.
  destruct e; cbn; try (split; assumption);
    destruct (tcp_westwood_bw_rttmin sk) as [v|d]; cbn; trivial;
    unfold delay_inv; cbn; split; trivial.
  now apply update_delay_range.
Qed.

Lemma queue_length_faults (sk : sock) :
  match ewr_queue_length sk with
  | Ok _ => True
  | DivByZero d => d = DIV_advmss /\ advmss (tp sk) = 0
  end.
Proof.
  unfold ewr_queue_length, udiv.
  destruct (Z.eqb_spec (advmss (tp sk)) 0); cbn; auto.
Qed.

Lemma threshold_ok (r dl lo hi : Z) (dv : divisor) :
  dl <> 0 -> hi <> 0 -> exists t, ewr_threshold beta r dl lo hi dv = Ok t.
Proof.
  intros Hd Hh. unfold ewr_threshold, udiv.
  destruct (Z.eqb_spec dl 0) as [E|_]; [contradiction|].
  destruct (Z.eqb_spec hi 0) as [E|_]; [contradiction|].
  cbn. eexists. reflexivity.
Qed.

(** The threshold and the queue length: with a nonzero [delay_loss], only
    the division by [advmss] can fault, since each branch is entered with
    its own divisor tested. *)
Lemma ewr_inputs_faults (sk : sock) :
  delay_loss (ca sk) <> 0 ->
  match ewr_inputs h beta sk with
  | Ok _ => True
  | DivByZero d => d = DIV_advmss /\ advmss (tp sk) = 0
  end.
Proof.
  intros Hl. pose proof (queue_length_faults sk) as Hq.
  unfold ewr_inputs, ewr_select. cbv zeta.
  set (r := if delay_loss (ca sk) >? 1 then rtt (ca sk) else 0).
  destruct (negb (dmin_avg (ca sk) =? dmax_avg (ca sk))
            && negb (dmax_avg (ca sk) =? 0)) eqn:Ha; bool_prop.
  - destruct (ewr_queue_length sk) as [q|d]; cbn [bind]; trivial.
    destruct (threshold_ok r (delay_loss (ca sk)) (dmin_avg (ca sk))
                (dmax_avg (ca sk)) DIV_dmax_avg Hl ltac:(assumption)) as [t Ht].
    rewrite Ht. exact I.
  - destruct (negb (delay_min (ca sk) =? delay_max (ca sk))
              && negb (delay_max (ca sk) =? 0)
              && negb (tcp_in_slow_start h (tp sk))) eqn:He; bool_prop;
      [|exact I].
    destruct (ewr_queue_length sk) as [q|d]; cbn [bind]; trivial.
    destruct (threshold_ok r (delay_loss (ca sk)) (delay_min (ca sk))
                (delay_max (ca sk)) DIV_delay_max Hl ltac:(assumption)) as [t Ht].
    rewrite Ht. exact I.
Qed.

Lemma cong_avoid_keeps_inv (sk : sock) (ack acked : Z) :
  delay_inv sk ->
  match tcp_westwood_cong_avoid h beta sk ack acked with
  | Ok sk' => delay_inv sk'
  | DivByZero d => (d = DIV_mss_cache /\ mss_cache (tp sk) = 0) \/
                   (d = DIV_advmss /\ advmss (tp sk) = 0)
  end.
Proof.
  intros [Hr Hl]. unfold tcp_westwood_cong_avoid.
  pose proof (ewr_inputs_faults sk ltac:(lia)) as Hi.
  destruct (ewr_inputs h beta sk) as [[q t]|d]; cbn [bind]; [|auto].
  destruct (q >? t).
  - pose proof (bw_rttmin_faults sk) as Hb.
    destruct (tcp_westwood_bw_rttmin sk) as [v|d]; cbn [bind]; [|auto].
    unfold delay_inv. cbn. auto.
  - unfold delay_inv. cbn. auto.
Qed.

Lemma init_establishes_delay_inv (now : Z) (sk : sock) :
  delay_inv (tcp_westwood_init h now sk).
Proof.
  unfold delay_inv, tcp_westwood_init, TCP_WESTWOOD_INIT_RTT.
  cbn [ca with_ca rtt delay_loss].
  change (2 ^ 30) with 1073741824 in *.
  change (2 ^ 32) with 4294967296 in *.
  rewrite u32_small by lia. lia.
Qed.

Lemma step_keeps_delay_inv (sk : sock) (ev : event) :
  wf_event ev -> delay_inv sk ->
  match step h beta sk ev with
  | Ok sk' => delay_inv sk'
  | DivByZero d => (d = DIV_mss_cache /\ mss_cache (tp sk) = 0) \/
                   (d = DIV_advmss /\ advmss (tp sk) = 0)
  end.
Proof.
  intros Hwf Hinv. destruct ev as [now|cnt r|now fl|ack acked|e|f]; cbn.
  - apply init_establishes_delay_inv.
  - destruct Hinv as [Hr Hl]. unfold tcp_westwood_pkts_acked, delay_inv.
    destruct (Z.gtb_spec r 0) as [Hp|_]; [|auto]. cbn in *.
    pose proof (jiffies_bound r ltac:(lia)) as Hj.
    change (2 ^ 30) with 1073741824 in *.
    rewrite u32_small by lia. auto.
  - destruct (ack_ok now sk fl) as (s & Hs & Er & El). rewrite Hs.
    destruct Hinv as [Hr Hl]. unfold delay_inv. rewrite Er, El. auto.
  - now apply cong_avoid_keeps_inv.
  - pose proof (event_keeps_inv sk e Hinv) as He.
    destruct (tcp_westwood_event sk e); auto.
  - exact Hinv.
Qed.

Lemma westwood_reachable_inv (sk : sock) :
  reachable h beta sk -> delay_inv sk.
Proof.
  induction 1 as [now sk0|sk ev sk' _ IH Hwf Hs].
  - apply init_establishes_delay_inv.
  - pose proof (step_keeps_delay_inv sk ev Hwf IH) as Hk.
    now rewrite Hs in Hk.
Qed.

(** From a reachable state no handler divides by a zero [delta],
    [delay_loss], [dmax_avg] or [delay_max]; the only divisions that can
    fault are those by the host's [mss_cache] and [advmss]. *)
Lemma westwood_reachable_divisors (sk : sock) (ev : event) :
  reachable h beta sk -> wf_event ev ->
  1 <= delay_loss (ca sk) /\
  match step h beta sk ev with
  | Ok _ => True
  | DivByZero d => (d = DIV_mss_cache /\ mss_cache (tp sk) = 0) \/
                   (d = DIV_advmss /\ advmss (tp sk) = 0)
  end.
Proof.
  intros Hr Hwf. pose proof (westwood_reachable_inv sk Hr) as Hinv.
  split; [destruct Hinv; lia|].
  pose proof (step_keeps_delay_inv sk ev Hwf Hinv) as Hk.
  destruct (step h beta sk ev); auto.
Qed.

End WestwoodDivisors.

(** ** Divisors: both engines *)

Section Divisors.

Variable h : host_stack.
Variable cfg : Nice.tunables.
Variable beta : Z.

Hypothesis init_rtt_bound : 1 <= 20 * HZ h < 2 ^ 30.
Hypothesis jiffies_bound :
  forall r, 0 < r < 2 ^ 31 -> 1 <= usecs_to_jiffies h r < 2 ^ 30.

(** C7 (as the code has it). From every state reachable after the init
    handler, and for every event:
    - Nice: [minRTT] and [baseRTT] lie between 1 and their unset value
      [0x7fffffff] inclusive, so the per-round divisions by them never have
      a zero divisor; a handler can only fault on [fraction_divisor], when
      [100 / fraction] is 0.
    - Westwood: [delay_loss] is at least 1, and a handler can only fault on
      the host's [mss_cache] or [advmss]: never on [delta] (the guard of
      [westwood_update_window] makes it positive), on [dmax_avg] or
      [delay_max] (each branch tests its divisor), or on [delay_loss].
    The bounds on [HZ] and [usecs_to_jiffies] are what keeps the filtered
    RTT, and with it [delay_loss], positive and inside [u32]. *)
Theorem C7_reachable_divisors_nonzero :
  (forall (sk : Nice.sock) (ev : NiceRun.event),
     NiceRun.reachable h cfg sk -> NiceRun.wf_event ev ->
     (1 <= Nice.minRTT (Nice.ca sk) <= Nice.RTT_UNSET /\
      1 <= Nice.baseRTT (Nice.ca sk) <= Nice.RTT_UNSET) /\
     match NiceRun.step h cfg sk ev with
     | Ok _ => True
     | DivByZero d =>
         d = DIV_fraction_divisor /\ Z.quot 100 (Nice.fraction cfg) = 0
     end) /\
  (forall (sk : Westwood.sock) (ev : WestwoodRun.event),
     WestwoodRun.reachable h beta sk -> WestwoodRun.wf_event ev ->
     1 <= Westwood.delay_loss (Westwood.ca sk) /\
     match WestwoodRun.step h beta sk ev with
     | Ok _ => True
     | DivByZero d =>
         (d = DIV_mss_cache /\ mss_cache (Westwood.tp sk) = 0) \/
         (d = DIV_advmss /\ advmss (Westwood.tp sk) = 0)
     end).
Proof.
  split.
  - intros sk ev Hr Hwf. now apply nice_reachable_divisors.
  - intros sk ev Hr Hwf. now apply westwood_reachable_divisors.
Qed.

End Divisors.

Lemma linux_usecs_to_jiffies_bound (r : Z) :
  0 < r < 2 ^ 31 -> 1 <= usecs_to_jiffies linux_host r < 2 ^ 30.
Proof.
  intros Hr. cbn. unfold Linux.usecs_to_jiffies.
  change (2 ^ 31) with 2147483648 in Hr. change (2 ^ 30) with 1073741824.
  split.
  - apply Z.div_le_lower_bound; lia.
  - apply Z.div_lt_upper_bound; lia.
Qed.

Lemma C7_witness :
  ((1 <= Nice.minRTT (Nice.ca (run_nice trace_to_32)) <= Nice.RTT_UNSET /\
    1 <= Nice.baseRTT (Nice.ca (run_nice trace_to_32)) <= Nice.RTT_UNSET) /\
   match NiceRun.step linux_host Nice.default_tunables
           (run_nice trace_to_32) (closing_ack 2) with
   | Ok _ => True
   | DivByZero d =>
       d = DIV_fraction_divisor /\
       Z.quot 100 (Nice.fraction Nice.default_tunables) = 0
   end) /\
  (1 <= Westwood.delay_loss
          (Westwood.ca (Westwood.tcp_westwood_init linux_host 0
                          fresh_westwood_sock)) /\
   match WestwoodRun.step linux_host 3
           (Westwood.tcp_westwood_init linux_host 0 fresh_westwood_sock)
           (WestwoodRun.Ev_cong_avoid 1001 1) with
   | Ok _ => True
   | DivByZero d =>
       (d = DIV_mss_cache /\
        mss_cache (Westwood.tp (Westwood.tcp_westwood_init linux_host 0
                                  fresh_westwood_sock)) = 0) \/
       (d = DIV_advmss /\
        advmss (Westwood.tp (Westwood.tcp_westwood_init linux_host 0
                               fresh_westwood_sock)) = 0)
   end).
Proof.
  destruct (C7_reachable_divisors_nonzero linux_host Nice.default_tunables 3)
    as [HN HW].
  - vm_compute. split; [discriminate|reflexivity].
  - exact linux_usecs_to_jiffies_bound.
  - split.
    + apply HN; [|exact I].
      apply run_nice_reachable; [vm_compute; reflexivity|].
      eexists. vm_compute. reflexivity.
    + apply HW; [|exact I]. apply WestwoodRun.reach_init.
Defined.

(** C7, the claim as stated fails.  With the parameter [fraction] set to
    200, [tcp_nice_init] stores [fraction_divisor = 100 / 200 = 0], and the
    ACK that closes the first round of three samples makes
    [tcp_nice_cong_avoid] divide [snd_cwnd] by zero.  And three samples of
    2147483646 us leave [minRTT] and [baseRTT] at their unset value, not
    below it, while the round decision runs, divides by them and ends in a
    multiplicative decrease. *)
Lemma C7_zero_fraction_divisor_and_unset_filters :
  NiceRun.run linux_host fraction_200 fresh_nice_sock
    (NiceRun.Ev_init :: nice_round 0 0 calm)
  = DivByZero DIV_fraction_divisor /\
  (let sk := run_nice (open_round 0 0 longest) in
   Nice.cntRTT (Nice.ca sk) = 3 /\
   Nice.minRTT (Nice.ca sk) = Nice.RTT_UNSET /\
   Nice.baseRTT (Nice.ca sk) = Nice.RTT_UNSET /\
   exists sk',
     NiceRun.step linux_host Nice.default_tunables sk (closing_ack 0) = Ok sk' /\
     sk' = Nice.nice_wipe (Nice.nice_clamp linux_host
             (Nice.nice_mult_decrease Nice.default_tunables
                (Nice.with_ca (Nice.set_beg_snd_nxt (snd_nxt (Nice.tp sk))) sk))) /\
     Nice.fractional_cwnd (Nice.ca sk') = 8).
Proof.
  split; [vm_compute; reflexivity|].
  cbv zeta. repeat (split; [vm_compute; reflexivity|]).
  eexists. split; [vm_compute; reflexivity|].
  split; vm_compute; reflexivity.
Qed.

(** ** Nice: the same ACK delivered twice *)

Section NiceRepeatedAck.
Import Nice.

Variable h : host_stack.
Variable cfg : tunables.

Lemma nice_pacing_off (sk : sock) :
  fractional_cwnd (ca sk) <= 2 -> nice_pacing sk = sk.
Proof.
  intros H. unfold nice_pacing.
  destruct (Z.gtb_spec (fractional_cwnd (ca sk)) 2); [lia|].
  reflexivity.
Qed.

Lemma nice_pacing_snd_nxt (sk : sock) :
  snd_nxt (tp (nice_pacing sk)) = snd_nxt (tp sk).
Proof. unfold nice_pacing. repeat (case_if; cbn); reflexivity. Qed.

Lemma reno_fallback_beg_snd_nxt (sk : sock) (ack acked : Z) :
  beg_snd_nxt (ca (nice_reno_fallback h cfg sk ack acked))
  = beg_snd_nxt (ca sk).
Proof.
  unfold nice_reno_fallback, tcp_reno_fractional_ca.
  repeat (case_if; cbn); reflexivity.
Qed.

Lemma vegas_round_beg_snd_nxt (sk sk' : sock) (acked : Z) :
  nice_vegas_round h cfg sk acked = Ok sk' ->
  beg_snd_nxt (ca sk') = beg_snd_nxt (ca sk).
Proof.
  unfold nice_vegas_round, udiv, nice_mult_decrease, nice_vegas_adjust,
    nice_clamp.
  repeat (case_if; cbn); intros H; inversion H; subst; cbn;
    repeat (case_if; cbn); reflexivity.
Qed.

(** The ACK that closes a round moves [beg_snd_nxt] to [snd_nxt]. *)
Lemma cong_avoid_closes_round (sk sk' : sock) (ack acked : Z) :
  tcp_nice_cong_avoid h cfg sk ack acked = Ok sk' ->
  doing_nice_now (ca sk) <> 0 ->
  after ack (beg_snd_nxt (ca sk)) = true ->
  beg_snd_nxt (ca sk') = snd_nxt (tp sk).
Proof.
  unfold tcp_nice_cong_avoid. cbv zeta. intros H Hd Ha.
  destruct (nice_pacing_frame sk) as (Fd & Fb & _).
  rewrite Fd, Fb, Ha in H.
  destruct (Z.eqb_spec (doing_nice_now (ca sk)) 0) as [E|_]; [contradiction|].
  rewrite <- (nice_pacing_snd_nxt sk).
  set (q := with_ca (set_beg_snd_nxt (snd_nxt (tp (nice_pacing sk))))
              (nice_pacing sk)) in *.
  assert (Hq : beg_snd_nxt (ca q) = snd_nxt (tp (nice_pacing sk)))
    by reflexivity.
  clearbody q.
  destruct (cntRTT (ca q) <=? 2).
  - cbn in H. inversion H; subst. cbn.
    now rewrite reno_fallback_beg_snd_nxt.
  - destruct (nice_vegas_round h cfg q acked) as [s|d] eqn:Hv; cbn in H;
      inversion H; subst. cbn.
    now rewrite (vegas_round_beg_snd_nxt _ _ _ Hv).
Qed.

(** C8 (as the code has it). When an ACK that closes a round is delivered
    a second time with no samples in between, the second call changes
    nothing, [snd_cwnd] included, provided that the engine is sampling,
    the ACK does not pass [snd_nxt], and the first call leaves the
    connection outside slow start with [fractional_cwnd] at 2 or below.
    Otherwise the second call may change [snd_cwnd]: by the pacing step,
    by a slow-start increase, or by the Reno fallback. *)
Theorem C8_repeated_ack_is_idle_outside_slow_start
  (sk sk1 : sock) (ack acked : Z) :
  tcp_nice_cong_avoid h cfg sk ack acked = Ok sk1 ->
  doing_nice_now (ca sk) <> 0 ->
  after ack (beg_snd_nxt (ca sk)) = true ->
  after ack (snd_nxt (tp sk)) = false ->
  fractional_cwnd (ca sk1) <= 2 ->
  tcp_in_slow_start h (tp sk1) = false ->
  tcp_nice_cong_avoid h cfg sk1 ack acked = Ok sk1.
Proof.
  intros H1 Hd Ha Hn Hf Hs.
  pose proof (cong_avoid_closes_round _ _ _ _ H1 Hd Ha) as Hb.
  destruct (cong_avoid_frame h cfg _ _ _ _ H1) as (Ed & _).
  unfold tcp_nice_cong_avoid. cbv zeta.
  rewrite (nice_pacing_off sk1 Hf), Ed, Hb, Hn, Hs.
  destruct (Z.eqb_spec (doing_nice_now (ca sk)) 0) as [E|_]; [contradiction|].
  reflexivity.
Qed.

End NiceRepeatedAck.

Lemma C8_witness :
  Nice.tcp_nice_cong_avoid linux_host Nice.default_tunables
    (run_nice (nice_round 0 0 calm)) (seq_base 0 + 1) 1
  = Ok (run_nice (nice_round 0 0 calm)).
Proof.
  refine (C8_repeated_ack_is_idle_outside_slow_start linux_host
           Nice.default_tunables (run_nice (open_round 0 0 calm))
           (run_nice (nice_round 0 0 calm)) (seq_base 0 + 1) 1 _ _ _ _ _ _).
  - vm_compute. reflexivity.
  - vm_compute. discriminate.
  - vm_compute. reflexivity.
  - vm_compute. reflexivity.
  - vm_compute. discriminate.
  - vm_compute. reflexivity.
Defined.

(** C8, the claim as stated fails.  A connection in slow start gets an ACK
    that closes a round without samples: the Reno fallback raises
    [snd_cwnd] from 10 to 11.  The same ACK again, with no sample in
    between, no longer closes a round; the connection is still in slow
    start, and the call raises [snd_cwnd] to 12. *)
Lemma C8_repeated_ack_grows_cwnd_in_slow_start :
  let sk := slow_start_nice_sock in
  let ack := 16928 in
  snd_cwnd (Nice.tp sk) = 10 /\
  Nice.cntRTT (Nice.ca sk) = 0 /\
  after ack (Nice.beg_snd_nxt (Nice.ca sk)) = true /\
  exists sk1 sk2,
    Nice.tcp_nice_cong_avoid linux_host Nice.default_tunables sk ack 1
    = Ok sk1 /\
    Nice.tcp_nice_cong_avoid linux_host Nice.default_tunables sk1 ack 1
    = Ok sk2 /\
    snd_cwnd (Nice.tp sk1) = 11 /\
    snd_cwnd (Nice.tp sk2) = 12.
Proof.
  cbv zeta. repeat (split; [vm_compute; reflexivity|]).
  do 2 eexists.
  split; [vm_compute; reflexivity|].
  split; [vm_compute; reflexivity|].
  split; vm_compute; reflexivity.
Qed.

(** ** Westwood+LP: the branch of the EWR threshold *)

Section WestwoodThreshold.
Import Westwood.

Variable h : host_stack.

(** C9 (as the code has it). In a state with [delay_min = 10],
    [delay_max = 40], [dmin_avg = dmax_avg = 0] and [beta = 3], the
    average branch is never taken.  Outside slow start the threshold is
    computed by the envelope branch, from [delay_min / delay_max]; in slow
    start neither branch is taken, the threshold and the queue length stay
    0, and the call is the Reno step. *)
Theorem C9_threshold_from_envelope_outside_slow_start
  (sk : sock) (ack acked : Z) :
  delay_min (ca sk) = 10 -> delay_max (ca sk) = 40 ->
  dmin_avg (ca sk) = 0 -> dmax_avg (ca sk) = 0 ->
  let r := if delay_loss (ca sk) >? 1 then rtt (ca sk) else 0 in
  ewr_select h sk <> EWR_average /\
  (if tcp_in_slow_start h (tp sk)
   then ewr_select h sk = EWR_none /\
        ewr_inputs h 3 sk = Ok (0, 0) /\
        tcp_westwood_cong_avoid h 3 sk ack acked
        = Ok (with_tp (fun t => tcp_reno_cong_avoid h t ack acked) sk)
   else ewr_select h sk = EWR_envelope /\
        ewr_inputs h 3 sk
        = (q <- ewr_queue_length sk ;;
           t <- ewr_threshold 3 r (delay_loss (ca sk)) 10 40 DIV_delay_max ;;
           Ok (q, t))).
Proof.
  intros Hmin Hmax Hdmin Hdmax r.
  assert (Hsel : ewr_select h sk
                 = if tcp_in_slow_start h (tp sk) then EWR_none
                   else EWR_envelope).
  { unfold ewr_select. rewrite Hmin, Hmax, Hdmin, Hdmax. cbn.
    destruct (tcp_in_slow_start h (tp sk)); reflexivity. }
  split.
  - rewrite Hsel. destruct (tcp_in_slow_start h (tp sk)); discriminate.
  - unfold tcp_westwood_cong_avoid, ewr_inputs. rewrite Hsel.
    destruct (tcp_in_slow_start h (tp sk)).
    + repeat split; reflexivity.
    + split; [reflexivity|]. cbv zeta. fold r. rewrite Hmin, Hmax.
      reflexivity.
Qed.

End WestwoodThreshold.

Lemma C9_witness :
  let sk := envelope_westwood_sock example_tp in
  Westwood.ewr_select linux_host sk <> Westwood.EWR_average /\
  Westwood.ewr_select linux_host sk = Westwood.EWR_envelope /\
  Westwood.ewr_inputs linux_host 3 sk = Ok (2, 2).
Proof.
  destruct (C9_threshold_from_envelope_outside_slow_start linux_host
              (envelope_westwood_sock example_tp) 1001 1)
    as [Hne Hif]; try (vm_compute; reflexivity).
  change (tcp_in_slow_start linux_host
            (Westwood.tp (envelope_westwood_sock example_tp)))
    with false in Hif.
  destruct Hif as [Hsel Hin].
  split; [exact Hne|]. split; [exact Hsel|].
  rewrite Hin. vm_compute. reflexivity.
Defined.

(** C9, the claim as stated fails for a state in slow start: with the
    same delay envelope the threshold is not computed by the envelope
    branch either; it stays 0 and the window grows by the Reno step. *)
Lemma C9_no_threshold_in_slow_start :
  let sk := envelope_westwood_sock slow_start_tp in
  Westwood.delay_min (Westwood.ca sk) = 10 /\
  Westwood.delay_max (Westwood.ca sk) = 40 /\
  Westwood.dmin_avg (Westwood.ca sk) = 0 /\
  Westwood.dmax_avg (Westwood.ca sk) = 0 /\
  tcp_in_slow_start linux_host (Westwood.tp sk) = true /\
  Westwood.ewr_select linux_host sk = Westwood.EWR_none /\
  Westwood.ewr_inputs linux_host 3 sk = Ok (0, 0) /\
  exists sk',
    Westwood.tcp_westwood_cong_avoid linux_host 3 sk 1001 1 = Ok sk' /\
    snd_cwnd (Westwood.tp sk') = 11.
Proof.
  cbv zeta. repeat (split; [vm_compute; reflexivity|]).
  eexists. split; vm_compute; reflexivity.
Qed.

(** ** Westwood+LP: [delay_loss] across two losses *)

Section WestwoodLoss.
Import Westwood WestwoodRun.

Variable h : host_stack.
Variable beta : Z.

(** A loss folds the filtered RTT into [delay_loss]. *)
Lemma loss_updates_delay_loss (sk : sock) :
  mss_cache (tp sk) <> 0 ->
  exists sk',
    tcp_westwood_event sk CA_EVENT_LOSS = Ok sk' /\
    delay_loss (ca sk')
    = westwood_update_delay (rtt (ca sk)) (delay_loss (ca sk)) /\
    rtt (ca sk') = rtt (ca sk) /\
    mss_cache (tp sk') = mss_cache (tp sk).
Proof.
  intros Hm. unfold tcp_westwood_event, tcp_westwood_bw_rttmin, udiv.
  destruct (Z.eqb_spec (mss_cache (tp sk)) 0) as [E|_]; [contradiction|].
  cbn. eexists. repeat split.
Qed.

(** C10. [tcp_westwood_init] leaves [delay_loss] at its unset value 1.
    With a filtered RTT of 100 the first loss sets [delay_loss] to
    [100 << 2 = 400]; with a filtered RTT of 120 the next loss sets it to
    [delay_loss - (delay_loss >> 2) + 120 = 420]. *)
Theorem C10_delay_loss_seeded_then_filtered
  (now : Z) (sk0 : sock) (r1 r2 : Z) :
  0 < r1 -> usecs_to_jiffies h r1 = 100 ->
  0 < r2 -> usecs_to_jiffies h r2 = 120 ->
  mss_cache (tp sk0) <> 0 ->
  delay_loss (ca (tcp_westwood_init h now sk0)) = 1 /\
  exists s1 s2,
    run h beta sk0
      [Ev_init now; Ev_pkts_acked 1 r1; Ev_cwnd_event CA_EVENT_LOSS] = Ok s1 /\
    rtt (ca s1) = 100 /\
    delay_loss (ca s1) = Z.shiftl 100 2 /\
    run h beta s1 [Ev_pkts_acked 1 r2; Ev_cwnd_event CA_EVENT_LOSS] = Ok s2 /\
    rtt (ca s2) = 120 /\
    delay_loss (ca s2)
    = delay_loss (ca s1) - Z.shiftr (delay_loss (ca s1)) 2 + 120 /\
    delay_loss (ca s1) = 400 /\ delay_loss (ca s2) = 420.
Proof.
  intros Hr1 Hj1 Hr2 Hj2 Hm. split; [reflexivity|].
  set (a := tcp_westwood_pkts_acked h (tcp_westwood_init h now sk0) 1 r1).
  assert (Ha : rtt (ca a) = 100 /\ delay_loss (ca a) = 1
               /\ mss_cache (tp a) = mss_cache (tp sk0)).
  { subst a. unfold tcp_westwood_pkts_acked.
    destruct (Z.gtb_spec r1 0) as [_|N]; [|lia].
    cbn. rewrite Hj1. repeat split. }
  destruct Ha as (Ar & Al & Am).
  destruct (loss_updates_delay_loss a ltac:(congruence))
    as (s1 & E1 & L1 & R1 & M1).
  rewrite Ar, Al in L1.
  set (b := tcp_westwood_pkts_acked h s1 1 r2).
  assert (Hb : rtt (ca b) = 120 /\ delay_loss (ca b) = delay_loss (ca s1)
               /\ mss_cache (tp b) = mss_cache (tp s1)).
  { subst b. unfold tcp_westwood_pkts_acked.
    destruct (Z.gtb_spec r2 0) as [_|N]; [|lia].
    cbn. rewrite Hj2. repeat split. }
  destruct Hb as (Br & Bl & Bm).
  destruct (loss_updates_delay_loss b ltac:(congruence))
    as (s2 & E2 & L2 & R2 & M2).
  rewrite Br, Bl, L1 in L2.
  exists s1, s2.
  split; [cbn [run step bind]; fold a; rewrite E1; reflexivity|].
  split; [congruence|].
  split; [exact L1|].
  split; [cbn [run step bind]; fold b; rewrite E2; reflexivity|].
  split; [congruence|].
  split; [rewrite L2, L1; reflexivity|].
  split; [rewrite L1; reflexivity|exact L2].
Qed.

End WestwoodLoss.

Lemma C10_witness :
  Westwood.delay_loss
    (Westwood.ca (Westwood.tcp_westwood_init linux_host 0
                    fresh_westwood_sock)) = 1 /\
  exists s1 s2,
    WestwoodRun.run linux_host 3 fresh_westwood_sock
      [WestwoodRun.Ev_init 0; WestwoodRun.Ev_pkts_acked 1 100000;
       WestwoodRun.Ev_cwnd_event CA_EVENT_LOSS] = Ok s1 /\
    Westwood.rtt (Westwood.ca s1) = 100 /\
    Westwood.delay_loss (Westwood.ca s1) = Z.shiftl 100 2 /\
    WestwoodRun.run linux_host 3 s1
      [WestwoodRun.Ev_pkts_acked 1 120000;
       WestwoodRun.Ev_cwnd_event CA_EVENT_LOSS] = Ok s2 /\
    Westwood.rtt (Westwood.ca s2) = 120 /\
    Westwood.delay_loss (Westwood.ca s2)
    = Westwood.delay_loss (Westwood.ca s1)
      - Z.shiftr (Westwood.delay_loss (Westwood.ca s1)) 2 + 120 /\
    Westwood.delay_loss (Westwood.ca s1) = 400 /\
    Westwood.delay_loss (Westwood.ca s2) = 420.
Proof.
  refine (C10_delay_loss_seeded_then_filtered linux_host 3 0
            fresh_westwood_sock 100000 120000 _ _ _ _ _).
  - lia.
  - vm_compute. reflexivity.
  - lia.
  - vm_compute. reflexivity.
  - vm_compute. discriminate.
Defined.

(** * Further properties of the two modules *)

(** ** Nice: rounds *)

Section NiceRounds.
Import Nice NiceRun.

Variable h : host_stack.
Variable cfg : tunables.

(** The round statistics and the long-run filter of a socket. *)
Lemma reno_fallback_round_state (sk : sock) (ack acked : Z) :
  let sk' := nice_reno_fallback h cfg sk ack acked in
  beg_snd_nxt (ca sk') = beg_snd_nxt (ca sk) /\
  doing_nice_now (ca sk') = doing_nice_now (ca sk) /\
  cntRTT (ca sk') = cntRTT (ca sk) /\
  minRTT (ca sk') = minRTT (ca sk) /\
  maxRTT (ca sk') = maxRTT (ca sk) /\
  baseRTT (ca sk') = baseRTT (ca sk) /\
  numCong (ca sk') = numCong (ca sk).
Proof.
  unfold nice_reno_fallback, tcp_reno_fractional_ca.
  repeat (case_if; cbn); repeat split; reflexivity.
Qed.

Lemma nice_pacing_round_state (sk : sock) :
  let sk' := nice_pacing sk in
  beg_snd_nxt (ca sk') = beg_snd_nxt (ca sk) /\
  doing_nice_now (ca sk') = doing_nice_now (ca sk) /\
  cntRTT (ca sk') = cntRTT (ca sk) /\
  minRTT (ca sk') = minRTT (ca sk) /\
  maxRTT (ca sk') = maxRTT (ca sk) /\
  baseRTT (ca sk') = baseRTT (ca sk) /\
  numCong (ca sk') = numCong (ca sk).
Proof.
  unfold nice_pacing. repeat (case_if; cbn); repeat split; reflexivity.
Qed.

(** Every reachable state has [baseRTT <= minRTT]. *)
Lemma reachable_base_le_min (sk : sock) :
  reachable h cfg sk -> baseRTT (ca sk) <= minRTT (ca sk).
Proof.
  induction 1 as [sk0 sk Hi|sk ev sk' Hr IH Hwf Hs].
  - unfold tcp_nice_init, sdiv in Hi.
    destruct (fraction cfg =? 0); cbn in Hi; [discriminate|].
    inversion Hi; subst; cbn. lia.
  - destruct (reachable_inv h cfg sk Hr) as (Hm & Hb & _).
    destruct ev as [|cnt r|s|e|ack acked|f]; cbn in Hs.
    + unfold tcp_nice_init, sdiv in Hs.
      destruct (fraction cfg =? 0); cbn in Hs; [discriminate|].
      inversion Hs; subst; cbn. lia.
    + inversion Hs; subst.
      destruct (Z.lt_ge_cases r 0) as [Hneg|Hpos].
      * now rewrite pkts_acked_ignored.
      * destruct (pkts_acked_filters cfg sk cnt r Hpos) as (Eb & Em & _).
        rewrite Eb, Em. lia.
    + inversion Hs; subst.
      destruct s; unfold tcp_nice_state, nice_enable, nice_disable; cbn;
        trivial; lia.
    + destruct e; cbn in Hs; try (inversion Hs; subst; exact IH);
        unfold tcp_nice_init, sdiv in Hs;
        destruct (fraction cfg =? 0); cbn in Hs; try discriminate;
        inversion Hs; subst; cbn; lia.
    + destruct (cong_avoid_frame h cfg _ _ _ _ Hs) as (_ & Eb & Em & _).
      rewrite Eb. destruct Em as [Em|Em]; rewrite Em; lia.
    + inversion Hs; subst. exact IH.
Qed.

(** X1. In every state reachable after [tcp_nice_init],
    [1 <= baseRTT <= minRTT <= 0x7fffffff]: the subtraction
    [rtt - baseRTT] of the round decision does not wrap, and the target
    window [snd_cwnd * baseRTT / rtt] is at most [snd_cwnd]. *)
Theorem X1_reachable_base_le_min (sk : sock) :
  reachable h cfg sk ->
  1 <= baseRTT (ca sk) <= minRTT (ca sk) /\
  minRTT (ca sk) <= RTT_UNSET /\
  u32 (minRTT (ca sk) - baseRTT (ca sk))
  = minRTT (ca sk) - baseRTT (ca sk) /\
  forall cwnd, 0 <= cwnd < 2 ^ 32 ->
    u64 (cwnd * baseRTT (ca sk)) / minRTT (ca sk) <= cwnd.
Proof.
  intros Hr. pose proof (reachable_base_le_min sk Hr) as Hle.
  destruct (reachable_inv h cfg sk Hr) as (Hm & Hb & _).
  unfold RTT_UNSET in *.
  split; [lia|]. split; [lia|]. split; [apply u32_small; lia|].
  intros cwnd Hc. change (2 ^ 32) with 4294967296 in Hc.
  rewrite u64_small by nia.
  apply Z.div_le_upper_bound; [lia|]. nia.
Qed.

(** The ACK that closes a round ends in [nice_wipe]. *)
Lemma cong_avoid_round_end (sk sk' : sock) (ack acked : Z) :
  tcp_nice_cong_avoid h cfg sk ack acked = Ok sk' ->
  doing_nice_now (ca sk) <> 0 ->
  after ack (beg_snd_nxt (ca sk)) = true ->
  exists s, sk' = nice_wipe s.
Proof.
  unfold tcp_nice_cong_avoid. cbv zeta. intros H Hd Ha.
  destruct (nice_pacing_frame sk) as (Fd & Fb & _).
  rewrite Fd, Fb, Ha in H.
  destruct (Z.eqb_spec (doing_nice_now (ca sk)) 0) as [E|_]; [contradiction|].
  match type of H with
  | bind ?c _ = _ => destruct c as [s|d]; cbn in H; inversion H; subst
  end.
  now exists s.
Qed.

(** X2. When the engine is sampling and the ACK passes [beg_snd_nxt], a
    call of [tcp_nice_cong_avoid] that returns has closed the round:
    [beg_snd_nxt] is the current [snd_nxt], the round statistics are wiped
    ([cntRTT = 0], [minRTT] unset, [maxRTT = 0], [numCong = 0]), and
    [baseRTT] and [doing_nice_now] are kept. *)
Theorem X2_closing_ack_wipes_round (sk sk' : sock) (ack acked : Z) :
  tcp_nice_cong_avoid h cfg sk ack acked = Ok sk' ->
  doing_nice_now (ca sk) <> 0 ->
  after ack (beg_snd_nxt (ca sk)) = true ->
  beg_snd_nxt (ca sk') = snd_nxt (tp sk) /\
  cntRTT (ca sk') = 0 /\
  minRTT (ca sk') = RTT_UNSET /\
  maxRTT (ca sk') = 0 /\
  numCong (ca sk') = 0 /\
  baseRTT (ca sk') = baseRTT (ca sk) /\
  doing_nice_now (ca sk') = doing_nice_now (ca sk).
Proof.
  intros H Hd Ha.
  pose proof (cong_avoid_closes_round h cfg _ _ _ _ H Hd Ha) as Hb.
  destruct (cong_avoid_frame h cfg _ _ _ _ H) as (Ed & Eb & _ & _).
  destruct (cong_avoid_round_end _ _ _ _ H Hd Ha) as [s Es].
  split; [exact Hb|]. rewrite <- Eb, <- Ed. subst sk'. cbn.
  repeat split; reflexivity.
Qed.

(** X3. When sampling is off, or the ACK does not pass [beg_snd_nxt], a
    call of [tcp_nice_cong_avoid] that returns leaves the round bookkeeping
    alone: [beg_snd_nxt], [doing_nice_now], [cntRTT], [minRTT], [maxRTT],
    [baseRTT] and [numCong] are unchanged.  With sampling on and an ACK that
    does not pass [beg_snd_nxt] the call does return: it performs no
    division and calls only [tcp_in_slow_start] and [tcp_slow_start], on
    the socket the pacing step left.  With sampling off the call goes
    through [tcp_reno_cong_avoid], which divides by a [snd_cwnd] that the
    pacing step may have set to 0: nothing is said about its return. *)
Theorem X3_no_round_end_keeps_round_state (sk : sock) (ack acked : Z) :
  doing_nice_now (ca sk) = 0 \/ after ack (beg_snd_nxt (ca sk)) = false ->
  (forall sk',
     tcp_nice_cong_avoid h cfg sk ack acked = Ok sk' ->
     beg_snd_nxt (ca sk') = beg_snd_nxt (ca sk) /\
     doing_nice_now (ca sk') = doing_nice_now (ca sk) /\
     cntRTT (ca sk') = cntRTT (ca sk) /\
     minRTT (ca sk') = minRTT (ca sk) /\
     maxRTT (ca sk') = maxRTT (ca sk) /\
     baseRTT (ca sk') = baseRTT (ca sk) /\
     numCong (ca sk') = numCong (ca sk)) /\
  (doing_nice_now (ca sk) <> 0 ->
   tcp_nice_cong_avoid h cfg sk ack acked
   = Ok (if tcp_in_slow_start h (tp (nice_pacing sk))
         then with_tp (fun t => tcp_slow_start h t acked) (nice_pacing sk)
         else nice_pacing sk)).
Proof.
  intros Hc. unfold tcp_nice_cong_avoid. cbv zeta.
  pose proof (nice_pacing_round_state sk) as Hp. cbv zeta in Hp.
  destruct Hp as (P1 & P2 & P3 & P4 & P5 & P6 & P7).
  set (p := nice_pacing sk) in *. clearbody p.
  destruct (Z.eqb_spec (doing_nice_now (ca p)) 0) as [E|N].
  - split; [|intros Hd; congruence].
    intros sk' H. inversion H; subst sk'.
    pose proof (reno_fallback_round_state p ack acked) as Hf. cbv zeta in Hf.
    destruct Hf as (F1 & F2 & F3 & F4 & F5 & F6 & F7).
    repeat split; congruence.
  - destruct Hc as [Hc|Hc]; [congruence|].
    rewrite P1, Hc.
    split; [|intros _; destruct (tcp_in_slow_start h (tp p)); reflexivity].
    intros sk' H.
    destruct (tcp_in_slow_start h (tp p)); inversion H; subst sk'; cbn;
      repeat split; assumption.
Qed.

End NiceRounds.

Lemma X1_witness :
  let sk := run_nice trace_to_32 in
  1 <= Nice.baseRTT (Nice.ca sk) <= Nice.minRTT (Nice.ca sk) /\
  Nice.minRTT (Nice.ca sk) <= Nice.RTT_UNSET /\
  u32 (Nice.minRTT (Nice.ca sk) - Nice.baseRTT (Nice.ca sk))
  = Nice.minRTT (Nice.ca sk) - Nice.baseRTT (Nice.ca sk) /\
  forall cwnd, 0 <= cwnd < 2 ^ 32 ->
    u64 (cwnd * Nice.baseRTT (Nice.ca sk)) / Nice.minRTT (Nice.ca sk) <= cwnd.
Proof.
  refine (X1_reachable_base_le_min linux_host Nice.default_tunables
            (run_nice trace_to_32) _).
  apply run_nice_reachable; [vm_compute; reflexivity|].
  eexists. vm_compute. reflexivity.
Defined.

Lemma X2_witness :
  let sk := run_nice (open_round 0 0 calm) in
  let sk' := run_nice (nice_round 0 0 calm) in
  Nice.beg_snd_nxt (Nice.ca sk') = snd_nxt (Nice.tp sk) /\
  Nice.cntRTT (Nice.ca sk') = 0 /\
  Nice.minRTT (Nice.ca sk') = Nice.RTT_UNSET /\
  Nice.maxRTT (Nice.ca sk') = 0 /\
  Nice.numCong (Nice.ca sk') = 0 /\
  Nice.baseRTT (Nice.ca sk') = Nice.baseRTT (Nice.ca sk) /\
  Nice.doing_nice_now (Nice.ca sk') = Nice.doing_nice_now (Nice.ca sk).
Proof.
  refine (X2_closing_ack_wipes_round linux_host Nice.default_tunables
            (run_nice (open_round 0 0 calm)) (run_nice (nice_round 0 0 calm))
            (seq_base 0 + 1) 1 _ _ _).
  - vm_compute. reflexivity.
  - vm_compute. discriminate.
  - vm_compute. reflexivity.
Defined.

Lemma X3_witness :
  let sk := run_nice (open_round 0 0 calm) in
  (forall sk',
     Nice.tcp_nice_cong_avoid linux_host Nice.default_tunables sk 1000 1
     = Ok sk' ->
     Nice.beg_snd_nxt (Nice.ca sk') = Nice.beg_snd_nxt (Nice.ca sk) /\
     Nice.doing_nice_now (Nice.ca sk') = Nice.doing_nice_now (Nice.ca sk) /\
     Nice.cntRTT (Nice.ca sk') = Nice.cntRTT (Nice.ca sk) /\
     Nice.minRTT (Nice.ca sk') = Nice.minRTT (Nice.ca sk) /\
     Nice.maxRTT (Nice.ca sk') = Nice.maxRTT (Nice.ca sk) /\
     Nice.baseRTT (Nice.ca sk') = Nice.baseRTT (Nice.ca sk) /\
     Nice.numCong (Nice.ca sk') = Nice.numCong (Nice.ca sk)) /\
  (Nice.doing_nice_now (Nice.ca sk) <> 0 ->
   Nice.tcp_nice_cong_avoid linux_host Nice.default_tunables sk 1000 1
   = Ok (if tcp_in_slow_start linux_host (Nice.tp (Nice.nice_pacing sk))
         then Nice.with_tp (fun t => tcp_slow_start linux_host t 1)
                (Nice.nice_pacing sk)
         else Nice.nice_pacing sk)).
Proof.
  refine (X3_no_round_end_keeps_round_state linux_host Nice.default_tunables
            (run_nice (open_round 0 0 calm)) 1000 1 _).
  right. vm_compute. reflexivity.
Defined.

(** Why X3 says nothing about the return of a call with sampling off: on a
    waiting tick the pacing step writes [snd_cwnd = 0], and the
    [tcp_reno_cong_avoid] of Linux 4.4, called on that socket outside slow
    start while the connection is cwnd-limited, traps in
    [tcp_cong_avoid_ai]. *)
Lemma linux_reno_traps_after_waiting_tick
  (sk : Nice.sock) (ack acked : Z) :
  2 < Nice.fractional_cwnd (Nice.ca sk) ->
  Nice.nice_timer (Nice.ca sk) <> Nice.fractional_cwnd (Nice.ca sk) ->
  snd_ssthresh (Nice.tp sk) <= 0 ->
  is_cwnd_limited (Nice.tp sk) = true ->
  snd_cwnd (Nice.tp (Nice.nice_pacing sk)) = 0 /\
  Linux.tcp_reno_cong_avoid (Nice.tp (Nice.nice_pacing sk)) ack acked = None.
Proof.
  intros Hf Ht Hs Hl. unfold Nice.nice_pacing.
  destruct (Z.gtb_spec (Nice.fractional_cwnd (Nice.ca sk)) 2) as [_|E];
    [|lia].
  destruct (Z.eqb_spec (Nice.nice_timer (Nice.ca sk))
              (Nice.fractional_cwnd (Nice.ca sk))) as [E|_]; [contradiction|].
  cbn [andb Nice.tp Nice.with_tp Nice.with_ca snd_cwnd set_snd_cwnd].
  split; [reflexivity|].
  unfold Linux.tcp_reno_cong_avoid, Linux.tcp_is_cwnd_limited,
    Linux.tcp_in_slow_start.
  cbn [snd_cwnd snd_ssthresh is_cwnd_limited set_snd_cwnd].
  destruct (Z.ltb_spec 0 (snd_ssthresh (Nice.tp sk))) as [E|_]; [lia|].
  rewrite Hl. cbn [negb].
  unfold Linux.tcp_cong_avoid_ai. cbv zeta.
  match goal with
  | |- context [set_snd_cwnd_cnt (u32 ?x) ?t] =>
      pose proof (u32_range x) as Hx; generalize dependent (u32 x)
  end.
  intros c Hc. cbn [snd_cwnd_cnt set_snd_cwnd_cnt].
  destruct (Z.geb_spec c 0) as [_|E]; [reflexivity|lia].
Qed.

(** ** Nice: the Reno blend, the restart and the final clamp *)

Lemma s16_small (x : Z) : - 32768 <= x < 32768 -> s16 x = x.
Proof.
  intros H. unfold s16, swrap.
  change (2 ^ (16 - 1)) with 32768. change (2 ^ 16) with 65536.
  rewrite Z.mod_small; lia.
Qed.

Section NiceBlend.
Import Nice.

Variable h : host_stack.
Variable cfg : tunables.

(** X4. [tcp_reno_fractional_ca] never leaves [fractional_cwnd] below 2.
    Either the result has [fractional_cwnd > 2], and then [snd_cwnd] and
    [snd_cwnd_cnt] are exactly what they were before the call (Reno's
    change to them is undone); or it has [fractional_cwnd = 2], and then
    the host's fields are exactly what [tcp_reno_cong_avoid] made them. *)
Theorem X4_reno_fractional_restores_or_hands_over
  (sk : sock) (ack acked : Z) :
  let sk' := tcp_reno_fractional_ca h sk ack acked in
  (2 < fractional_cwnd (ca sk') /\
   snd_cwnd (tp sk') = snd_cwnd (tp sk) /\
   snd_cwnd_cnt (tp sk') = snd_cwnd_cnt (tp sk)) \/
  (fractional_cwnd (ca sk') = 2 /\
   tp sk' = tcp_reno_cong_avoid h (tp sk) ack acked).
Proof.
  unfold tcp_reno_fractional_ca. cbv zeta.
  match goal with
  | |- context [negb (?c =? 0)] => destruct (negb (c =? 0))
  end.
  - cbn [ca tp with_ca with_tp fractional_cwnd set_fractional_cwnd].
    match goal with
    | |- context [?v >? 2] => destruct (Z.gtb_spec v 2)
    end.
    + left. cbn. repeat split; assumption || reflexivity.
    + right. cbn. split; reflexivity.
  - cbn [ca tp with_ca with_tp].
    destruct (Z.gtb_spec (fractional_cwnd (ca sk)) 2).
    + left. cbn. repeat split; assumption || reflexivity.
    + right. cbn. split; reflexivity.
Qed.

(** X5. When Reno raises [snd_cwnd] by [k] segments and [2 * k] does not
    exceed [fractional_cwnd], the blend lowers [fractional_cwnd] by
    [2 * k], but not below 2; above 2 the window itself is restored, at 2
    Reno's window stands. *)
Theorem X5_reno_delta_scaled_by_two (sk : sock) (ack acked k : Z) :
  let r := tcp_reno_cong_avoid h (tp sk) ack acked in
  let fc := fractional_cwnd (ca sk) in
  let sk' := tcp_reno_fractional_ca h sk ack acked in
  snd_cwnd r = snd_cwnd (tp sk) + k ->
  0 <= k -> 2 * k <= fc <= 255 ->
  fractional_cwnd (ca sk') = Z.max (fc - 2 * k) 2 /\
  snd_cwnd (tp sk') = (if fc - 2 * k >? 2 then snd_cwnd (tp sk)
                       else snd_cwnd (tp sk) + k).
Proof.
  intros r fc sk' Hr Hk Hf. subst sk'. unfold tcp_reno_fractional_ca.
  cbv zeta. cbn [tp with_tp]. fold r. rewrite Hr.
  replace (snd_cwnd (tp sk) + k - snd_cwnd (tp sk)) with k by lia.
  rewrite (u32_small k) by lia. rewrite (u32_small (2 * k)) by lia.
  rewrite s16_small by lia.
  subst fc.
  destruct (Z.eqb_spec (2 * k) 0) as [E|N]; cbn [negb].
  - replace (fractional_cwnd (ca sk) - 2 * k)
      with (fractional_cwnd (ca sk)) by lia.
    cbn [ca with_tp].
    destruct (Z.gtb_spec (fractional_cwnd (ca sk)) 2);
      cbn [ca tp with_ca with_tp fractional_cwnd set_fractional_cwnd
           snd_cwnd set_snd_cwnd set_snd_cwnd_cnt];
      fold r; split; trivial; lia.
  - cbn [ca with_ca with_tp fractional_cwnd set_fractional_cwnd].
    rewrite !u8_small by lia.
    destruct (Z.gtb_spec (fractional_cwnd (ca sk) - 2 * k) 2);
      cbn [ca tp with_ca with_tp fractional_cwnd set_fractional_cwnd
           snd_cwnd set_snd_cwnd set_snd_cwnd_cnt];
      fold r; rewrite ?u8_small by lia; split; trivial; lia.
Qed.

(** X6. With a nonzero [fraction], [tcp_nice_init] succeeds and is
    idempotent: a second init, or a change to the Open state, right after
    it changes nothing.  Init leaves the host's fields alone and does not
    write [numCong] or [maxRTT]: their old values survive a restart. *)
Theorem X6_init_idempotent (sk : sock) :
  fraction cfg <> 0 ->
  exists s,
    tcp_nice_init cfg sk = Ok s /\
    tcp_nice_init cfg s = Ok s /\
    tcp_nice_state s TCP_CA_Open = s /\
    tcp_nice_cwnd_event cfg s CA_EVENT_TX_START = Ok s /\
    tp s = tp sk /\
    numCong (ca s) = numCong (ca sk) /\
    maxRTT (ca s) = maxRTT (ca sk) /\
    doing_nice_now (ca s) = 1 /\ cntRTT (ca s) = 0 /\
    fractional_cwnd (ca s) = 2 /\ nice_timer (ca s) = 0 /\
    baseRTT (ca s) = RTT_UNSET /\ minRTT (ca s) = RTT_UNSET /\
    beg_snd_nxt (ca s) = snd_nxt (tp sk).
Proof.
  intros Hf. unfold tcp_nice_cwnd_event, tcp_nice_init, sdiv.
  destruct (Z.eqb_spec (fraction cfg) 0) as [E|_]; [contradiction|].
  cbn. eexists. split; [reflexivity|].
  destruct sk as [t n fd]. destruct n. cbn.
  repeat split; reflexivity.
Qed.

Lemma nice_clamp_bounds (s : sock) :
  let c := nice_clamp h s in
  fractional_cwnd (ca c) = fractional_cwnd (ca s) /\
  snd_cwnd_clamp (tp c) = snd_cwnd_clamp (tp s) /\
  (2 <= snd_cwnd_clamp (tp s) ->
   snd_cwnd (tp c) <= snd_cwnd_clamp (tp s) /\
   (fractional_cwnd (ca s) = 2 -> 2 <= snd_cwnd (tp c))).
Proof.
  unfold nice_clamp. cbv zeta.
  repeat (case_if; cbn); bool_prop; repeat split; try reflexivity; lia.
Qed.

Lemma vegas_round_ends_in_clamp (sk sk' : sock) (acked : Z) :
  nice_vegas_round h cfg sk acked = Ok sk' ->
  exists s, sk' = nice_clamp h s.
Proof.
  unfold nice_vegas_round.
  destruct (udiv DIV_minRTT _ _) as [t|]; cbn [bind]; [|discriminate].
  destruct (udiv DIV_baseRTT _ _) as [d|]; cbn [bind]; [|discriminate].
  match goal with
  | |- bind ?c _ = _ -> _ => destruct c as [s|]; cbn [bind]; [|discriminate]
  end.
  intros H; inversion H; subst. now exists s.
Qed.

(** X7. A round closed with three samples or more ends with the clamp:
    if [snd_cwnd_clamp] is at least 2, the call leaves
    [snd_cwnd <= snd_cwnd_clamp], and [snd_cwnd >= 2] whenever
    [fractional_cwnd] is 2 (whole-segment mode). *)
Theorem X7_round_decision_clamps_cwnd (sk sk' : sock) (ack acked : Z) :
  tcp_nice_cong_avoid h cfg sk ack acked = Ok sk' ->
  doing_nice_now (ca sk) <> 0 ->
  after ack (beg_snd_nxt (ca sk)) = true ->
  2 < cntRTT (ca sk) ->
  2 <= snd_cwnd_clamp (tp sk') ->
  snd_cwnd (tp sk') <= snd_cwnd_clamp (tp sk') /\
  (fractional_cwnd (ca sk') = 2 -> 2 <= snd_cwnd (tp sk')).
Proof.
  unfold tcp_nice_cong_avoid. cbv zeta. intros H Hd Ha Hc Hcl.
  destruct (nice_pacing_frame sk) as (Fd & Fb & Fc & _).
  rewrite Fd, Fb, Ha in H.
  destruct (Z.eqb_spec (doing_nice_now (ca sk)) 0) as [E|_]; [contradiction|].
  cbn [ca with_ca cntRTT set_beg_snd_nxt] in H.
  change (cntRTT (set_beg_snd_nxt (snd_nxt (tp (nice_pacing sk)))
                    (ca (nice_pacing sk))))
    with (cntRTT (ca (nice_pacing sk))) in H.
  rewrite Fc in H.
  destruct (Z.leb_spec (cntRTT (ca sk)) 2) as [E|_]; [lia|].
  destruct (nice_vegas_round h cfg _ acked) as [s|] eqn:Hv; cbn in H;
    [|discriminate].
  inversion H; subst. cbn in *.
  destruct (vegas_round_ends_in_clamp _ _ _ Hv) as [s0 Es]. subst s.
  destruct (nice_clamp_bounds s0) as (Ef & Ec & Hb).
  rewrite Ec in Hcl. destruct (Hb Hcl) as [H1 H2].
  rewrite Ec, Ef. split; [exact H1|exact H2].
Qed.

(** X8. A sample that is a new minimum (at most the stored [baseRTT]) is
    never counted as a congestion event, as long as the products of the
    threshold stay inside their C types. *)
Theorem X8_new_minimum_is_no_congestion_event (sk : sock) (cnt rtt_us : Z) :
  let n' := ca (tcp_nice_pkts_acked cfg sk cnt rtt_us) in
  0 <= rtt_us < 2 ^ 31 ->
  rtt_us + 1 <= baseRTT (ca sk) ->
  0 <= threshold cfg <= 100 ->
  threshold cfg * maxRTT n' < 2 ^ 32 ->
  numCong n' = numCong (ca sk) /\ baseRTT n' = rtt_us + 1.
Proof.
  intros n' Hr Hmin Ht Hp.
  assert (Hpos : 0 <= rtt_us) by lia.
  destruct (pkts_acked_filters cfg sk cnt rtt_us Hpos) as (Eb & _ & HM).
  fold n' in Eb, HM. rewrite (vrtt_of_s32 _ Hr) in Eb, HM.
  assert (Eb' : baseRTT n' = rtt_us + 1) by lia.
  split; [|exact Eb'].
  change (2 ^ 31) with 2147483648 in Hr.
  change (2 ^ 32) with 4294967296 in Hp.
  pose proof (numCong_follows_weighted_mean cfg sk cnt rtt_us Hpos) as Hn.
  cbv zeta in Hn. fold n' in Hn.
  rewrite Hn; try assumption; try (change (2 ^ 32) with 4294967296; lia).
  rewrite (vrtt_of_s32 rtt_us) by (change (2 ^ 31) with 2147483648; lia).
  destruct (Z.gtb_spec (rtt_us + 1)
              (((100 - threshold cfg) * baseRTT n'
                + threshold cfg * maxRTT n') / 100)) as [Hgt|_];
    [|reflexivity].
  exfalso.
  assert (rtt_us + 1 <= ((100 - threshold cfg) * baseRTT n'
                         + threshold cfg * maxRTT n') / 100).
  { apply Z.div_le_lower_bound; [lia|]. rewrite Eb'. nia. }
  lia.
Qed.

End NiceBlend.

Lemma X5_witness :
  let sk := Nice.with_ca (Nice.set_fractional_cwnd 8)
              (Nice.with_tp (set_snd_cwnd 0) started_nice_sock) in
  let sk' := Nice.tcp_reno_fractional_ca linux_host sk 1001 1 in
  Nice.fractional_cwnd (Nice.ca sk') = Z.max (8 - 2 * 1) 2 /\
  snd_cwnd (Nice.tp sk') = (if 8 - 2 * 1 >? 2 then 0 else 0 + 1).
Proof.
  refine (X5_reno_delta_scaled_by_two linux_host
            (Nice.with_ca (Nice.set_fractional_cwnd 8)
               (Nice.with_tp (set_snd_cwnd 0) started_nice_sock))
            1001 1 1 _ _ _).
  - vm_compute. reflexivity.
  - lia.
  - vm_compute. split; discriminate.
Defined.

Lemma X6_witness :
  exists s,
    Nice.tcp_nice_init Nice.default_tunables fresh_nice_sock = Ok s /\
    Nice.tcp_nice_init Nice.default_tunables s = Ok s /\
    Nice.tcp_nice_state s TCP_CA_Open = s /\
    Nice.tcp_nice_cwnd_event Nice.default_tunables s CA_EVENT_TX_START
    = Ok s /\
    Nice.tp s = Nice.tp fresh_nice_sock /\
    Nice.numCong (Nice.ca s) = Nice.numCong (Nice.ca fresh_nice_sock) /\
    Nice.maxRTT (Nice.ca s) = Nice.maxRTT (Nice.ca fresh_nice_sock) /\
    Nice.doing_nice_now (Nice.ca s) = 1 /\ Nice.cntRTT (Nice.ca s) = 0 /\
    Nice.fractional_cwnd (Nice.ca s) = 2 /\ Nice.nice_timer (Nice.ca s) = 0 /\
    Nice.baseRTT (Nice.ca s) = Nice.RTT_UNSET /\
    Nice.minRTT (Nice.ca s) = Nice.RTT_UNSET /\
    Nice.beg_snd_nxt (Nice.ca s) = snd_nxt (Nice.tp fresh_nice_sock).
Proof.
  refine (X6_init_idempotent Nice.default_tunables fresh_nice_sock _).
  vm_compute. discriminate.
Defined.

Lemma X7_witness :
  let sk' := run_nice (nice_round 0 0 calm) in
  snd_cwnd (Nice.tp sk') <= snd_cwnd_clamp (Nice.tp sk') /\
  (Nice.fractional_cwnd (Nice.ca sk') = 2 -> 2 <= snd_cwnd (Nice.tp sk')).
Proof.
  refine (X7_round_decision_clamps_cwnd linux_host Nice.default_tunables
            (run_nice (open_round 0 0 calm)) (run_nice (nice_round 0 0 calm))
            (seq_base 0 + 1) 1 _ _ _ _ _).
  - vm_compute. reflexivity.
  - vm_compute. discriminate.
  - vm_compute. reflexivity.
  - vm_compute. reflexivity.
  - vm_compute. discriminate.
Defined.

Lemma X8_witness :
  let n' := Nice.ca (Nice.tcp_nice_pkts_acked Nice.default_tunables
                       started_nice_sock 1 99) in
  Nice.numCong n' = Nice.numCong (Nice.ca started_nice_sock) /\
  Nice.baseRTT n' = 99 + 1.
Proof.
  refine (X8_new_minimum_is_no_congestion_event Nice.default_tunables
            started_nice_sock 1 99 _ _ _ _).
  - lia.
  - vm_compute. discriminate.
  - vm_compute. split; discriminate.
  - vm_compute. reflexivity.
Defined.

(** ** Westwood+LP: the filters *)

Section WestwoodFilters.
Import Westwood.

Lemma do_filter_between (a b : Z) :
  0 <= a -> 0 <= b -> 7 * a + b < 2 ^ 32 ->
  Z.min a b <= westwood_do_filter a b <= Z.max a b.
Proof.
  intros Ha Hb Hs. change (2 ^ 32) with 4294967296 in Hs.
  unfold westwood_do_filter.
  rewrite (u32_small (7 * a)) by lia. rewrite u32_small by lia.
  rewrite Z.shiftr_div_pow2 by lia. change (2 ^ 3) with 8.
  split.
  - apply Z.div_le_lower_bound; lia.
  - apply Z.div_le_upper_bound; lia.
Qed.

(** X9. The bandwidth filter divides by [delta] only; with a nonzero
    [delta] it returns.  An empty filter takes the sample [bk / delta] for
    both estimates.  Otherwise, with the estimates and the sample below
    [2 ^ 29] (so that [7 * a + b] fits 32 bits), the new [bw_ns_est] lies
    between the old one and the sample, and the new [bw_est] between the
    old one and the new [bw_ns_est]: the filter never overshoots. *)
Theorem X9_bandwidth_filter_bootstraps_and_never_overshoots
  (w : westwood) (delta : Z) :
  0 < delta -> 0 <= bk w ->
  0 <= bw_ns_est w < 2 ^ 29 -> 0 <= bw_est w < 2 ^ 29 ->
  bk w / delta < 2 ^ 29 ->
  let s := bk w / delta in
  exists w',
    westwood_filter w delta = Ok w' /\
    (if (bw_ns_est w =? 0) && (bw_est w =? 0)
     then bw_ns_est w' = s /\ bw_est w' = s
     else Z.min (bw_ns_est w) s <= bw_ns_est w' <= Z.max (bw_ns_est w) s /\
          Z.min (bw_est w) (bw_ns_est w') <= bw_est w'
          <= Z.max (bw_est w) (bw_ns_est w')).
Proof.
  intros Hd Hbk Hn He Hs s.
  change (2 ^ 29) with 536870912 in *.
  assert (Hs0 : 0 <= s) by (apply Z.div_pos; lia).
  unfold westwood_filter, udiv.
  destruct (Z.eqb_spec delta 0) as [E|_]; [lia|].
  destruct ((bw_ns_est w =? 0) && (bw_est w =? 0)); cbn [bind].
  - eexists. split; [reflexivity|]. cbn. split; reflexivity.
  - eexists. split; [reflexivity|].
    cbn [bw_ns_est bw_est set_bw_ns_est set_bw_est].
    fold s.
    pose proof (do_filter_between (bw_ns_est w) s ltac:(lia) Hs0
                  ltac:(change (2 ^ 32) with 4294967296; lia)) as H1.
    split; [exact H1|].
    apply do_filter_between;
      try (change (2 ^ 32) with 4294967296); lia.
Qed.

(** X10. The delay average holds four times the RTT.  An unset average
    (0 or 1) is seeded with [4 * rtt]; a set one moves towards [4 * rtt]
    and never past it, so [4 * rtt] is a fixed point. *)
Theorem X10_delay_average_moves_towards_four_rtt (r avg : Z) :
  0 <= r < 2 ^ 30 -> 0 <= avg <= 2 ^ 32 - 4 ->
  let avg' := westwood_update_delay r avg in
  (if avg <=? 1 then avg' = 4 * r
   else Z.min avg (4 * r) <= avg' <= Z.max avg (4 * r)) /\
  (avg = 4 * r -> avg' = avg).
Proof.
  intros Hr Ha avg'. subst avg'. unfold westwood_update_delay.
  change (2 ^ 30) with 1073741824 in *.
  change (2 ^ 32) with 4294967296 in *.
  assert (Hseed : u32 (Z.shiftl r 2) = 4 * r).
  { rewrite Z.shiftl_mul_pow2 by lia. change (2 ^ 2) with 4.
    rewrite u32_small; lia. }
  assert (Hstep : 2 <= avg ->
            u32 (avg + u32 (r - Z.shiftr avg 2)) = avg - avg / 4 + r /\
            Z.min avg (4 * r) <= avg - avg / 4 + r <= Z.max avg (4 * r)).
  { intros H2. rewrite Z.shiftr_div_pow2 by lia. change (2 ^ 2) with 4.
    pose proof (Z.div_mod avg 4 ltac:(lia)) as Hdm.
    pose proof (Z.mod_pos_bound avg 4 ltac:(lia)) as Hmb.
    split; [|lia].
    unfold u32, wrap. change (2 ^ 32) with 4294967296.
    rewrite Z.add_mod_idemp_r by lia.
    rewrite Z.mod_small by lia. lia. }
  destruct (Z.leb_spec avg 1) as [Hle|Hgt].
  - assert (Hc : negb (avg =? 0) && negb (avg =? 1) = false).
    { destruct (Z.eqb_spec avg 0); destruct (Z.eqb_spec avg 1); cbn;
        trivial; lia. }
    rewrite Hc. split; [exact Hseed|]. intros E. lia.
  - assert (Hc : negb (avg =? 0) && negb (avg =? 1) = true).
    { destruct (Z.eqb_spec avg 0); destruct (Z.eqb_spec avg 1); cbn;
        trivial; lia. }
    rewrite Hc. cbv zeta. destruct (Hstep ltac:(lia)) as [E B].
    rewrite E. split; [exact B|]. intros E4. lia.
Qed.

(** X11. With a nonzero [mss_cache] the event handler returns.  After
    CompleteCWR the window equals the threshold and is at least 2, and the
    private state is untouched; after Loss the threshold is at least 2,
    the window is untouched, the RTT is folded into [delay_loss] and
    [rtt_min] is marked for reset; every other event changes nothing. *)
Theorem X11_event_sets_window_floor_two (sk : sock) (e : tcp_ca_event) :
  mss_cache (tp sk) <> 0 ->
  exists sk',
    tcp_westwood_event sk e = Ok sk' /\
    match e with
    | CA_EVENT_COMPLETE_CWR =>
        snd_cwnd (tp sk') = snd_ssthresh (tp sk') /\
        2 <= snd_ssthresh (tp sk') /\ ca sk' = ca sk
    | CA_EVENT_LOSS =>
        2 <= snd_ssthresh (tp sk') /\
        snd_cwnd (tp sk') = snd_cwnd (tp sk) /\
        reset_rtt_min (ca sk') = 1 /\
        delay_loss (ca sk')
        = westwood_update_delay (rtt (ca sk)) (delay_loss (ca sk)) /\
        rtt_min (ca sk') = rtt_min (ca sk)
    | _ => sk' = sk
    end.
Proof.
  intros Hm. unfold tcp_westwood_event, tcp_westwood_bw_rttmin, udiv.
  destruct (Z.eqb_spec (mss_cache (tp sk)) 0) as [E|_]; [contradiction|].
  destruct e; cbn; eexists; (split; [reflexivity|]); cbn;
    repeat split; try reflexivity; try lia.
Qed.

(** X12. [westwood_acked_count] brings [w->snd_una] up to [tp->snd_una]
    and leaves the host's fields alone.  With a positive [mss_cache] the
    count it returns is at least 1 and at most the larger of [mss_cache]
    and the advance of [snd_una]; a duplicate ACK (no advance) counts one
    [mss_cache] and adds the same amount to [accounted]. *)
Theorem X12_acked_count_bounds (sk : sock) :
  let d := u32 (snd_una (tp sk) - w_snd_una (ca sk)) in
  let sk' := fst (westwood_acked_count sk) in
  let n := snd (westwood_acked_count sk) in
  0 < mss_cache (tp sk) < 2 ^ 32 ->
  0 <= accounted (ca sk) < 2 ^ 32 ->
  1 <= n <= Z.max d (mss_cache (tp sk)) /\
  cumul_ack (ca sk') = n /\
  w_snd_una (ca sk') = snd_una (tp sk) /\
  tp sk' = tp sk /\
  0 <= accounted (ca sk') < 2 ^ 32 /\
  (d = 0 -> n = mss_cache (tp sk) /\
            accounted (ca sk') = u32 (accounted (ca sk) + mss_cache (tp sk))).
Proof.
  intros d sk' n Hm Ha. subst sk' n.
  pose proof (u32_range (snd_una (tp sk) - w_snd_una (ca sk))) as Hd.
  fold d in Hd.
  pose proof (u32_range (accounted (ca sk) + mss_cache (tp sk))) as Hacc.
  change (2 ^ 32) with 4294967296 in *.
  unfold westwood_acked_count. cbv zeta.
  cbn [cumul_ack set_cumul_ack accounted set_accounted]. fold d.
  destruct (Z.eqb_spec d 0) as [E0|N0].
  - cbn [cumul_ack set_cumul_ack accounted set_accounted].
    destruct (Z.gtb_spec (mss_cache (tp sk)) (mss_cache (tp sk))); [lia|].
    cbn. repeat split; try lia. all: intros _; try reflexivity.
  - cbn [cumul_ack set_cumul_ack accounted set_accounted].
    destruct (Z.gtb_spec d (mss_cache (tp sk))) as [Hgt|Hle].
    + destruct (Z.geb_spec (accounted (ca sk)) d) as [Hge|Hlt].
      * cbn. rewrite u32_small by lia. repeat split; try lia.
      * cbn. rewrite u32_small by lia. repeat split; try lia.
    + cbn. repeat split; try lia.
Qed.

End WestwoodFilters.

Lemma X9_witness :
  let w := Westwood.set_bk 2896 (Westwood.set_bw_ns_est 80
             (Westwood.set_bw_est 100 zero_westwood)) in
  exists w',
    Westwood.westwood_filter w 20 = Ok w' /\
    (if (Westwood.bw_ns_est w =? 0) && (Westwood.bw_est w =? 0)
     then Westwood.bw_ns_est w' = 2896 / 20 /\ Westwood.bw_est w' = 2896 / 20
     else Z.min (Westwood.bw_ns_est w) (2896 / 20) <= Westwood.bw_ns_est w'
          <= Z.max (Westwood.bw_ns_est w) (2896 / 20) /\
          Z.min (Westwood.bw_est w) (Westwood.bw_ns_est w')
          <= Westwood.bw_est w'
          <= Z.max (Westwood.bw_est w) (Westwood.bw_ns_est w')).
Proof.
  refine (X9_bandwidth_filter_bootstraps_and_never_overshoots
            (Westwood.set_bk 2896 (Westwood.set_bw_ns_est 80
               (Westwood.set_bw_est 100 zero_westwood))) 20 _ _ _ _ _).
  - lia.
  - vm_compute. discriminate.
  - vm_compute. split; [discriminate|reflexivity].
  - vm_compute. split; [discriminate|reflexivity].
  - vm_compute. reflexivity.
Defined.

Lemma X10_witness :
  (if 400 <=? 1 then Westwood.westwood_update_delay 120 400 = 4 * 120
   else Z.min 400 (4 * 120) <= Westwood.westwood_update_delay 120 400
        <= Z.max 400 (4 * 120)) /\
  (400 = 4 * 120 -> Westwood.westwood_update_delay 120 400 = 400).
Proof.
  refine (X10_delay_average_moves_towards_four_rtt 120 400 _ _).
  - vm_compute. split; [discriminate|reflexivity].
  - vm_compute. split; discriminate.
Defined.

Lemma X11_witness :
  exists sk',
    Westwood.tcp_westwood_event (envelope_westwood_sock example_tp)
      CA_EVENT_LOSS = Ok sk' /\
    (2 <= snd_ssthresh (Westwood.tp sk') /\
     snd_cwnd (Westwood.tp sk')
     = snd_cwnd (Westwood.tp (envelope_westwood_sock example_tp)) /\
     Westwood.reset_rtt_min (Westwood.ca sk') = 1 /\
     Westwood.delay_loss (Westwood.ca sk')
     = Westwood.westwood_update_delay
         (Westwood.rtt (Westwood.ca (envelope_westwood_sock example_tp)))
         (Westwood.delay_loss
            (Westwood.ca (envelope_westwood_sock example_tp))) /\
     Westwood.rtt_min (Westwood.ca sk')
     = Westwood.rtt_min (Westwood.ca (envelope_westwood_sock example_tp))).
Proof.
  refine (X11_event_sets_window_floor_two
            (envelope_westwood_sock example_tp) CA_EVENT_LOSS _).
  vm_compute. discriminate.
Defined.

Lemma X12_witness :
  let sk := envelope_westwood_sock example_tp in
  let d := u32 (snd_una (Westwood.tp sk)
                - Westwood.w_snd_una (Westwood.ca sk)) in
  let sk' := fst (Westwood.westwood_acked_count sk) in
  let n := snd (Westwood.westwood_acked_count sk) in
  1 <= n <= Z.max d (mss_cache (Westwood.tp sk)) /\
  Westwood.cumul_ack (Westwood.ca sk') = n /\
  Westwood.w_snd_una (Westwood.ca sk') = snd_una (Westwood.tp sk) /\
  Westwood.tp sk' = Westwood.tp sk /\
  0 <= Westwood.accounted (Westwood.ca sk') < 2 ^ 32 /\
  (d = 0 -> n = mss_cache (Westwood.tp sk) /\
            Westwood.accounted (Westwood.ca sk')
            = u32 (Westwood.accounted (Westwood.ca sk)
                   + mss_cache (Westwood.tp sk))).
Proof.
  refine (X12_acked_count_bounds (envelope_westwood_sock example_tp) _ _).
  - vm_compute. split; reflexivity.
  - vm_compute. split; [discriminate|reflexivity].
Defined.

(** ** Westwood+LP: the ACK handler *)

Section WestwoodAck.
Import Westwood WestwoodRun.

Variable h : host_stack.
Variable beta : Z.

Ltac ww_simpl :=
  cbn [ca tp with_ca with_tp fst snd
       bw_ns_est bw_est rtt_win_sx bk w_snd_una cumul_ack accounted rtt
       rtt_min first_ack reset_rtt_min delay_min delay_max dmin_avg dmax_avg
       delay_loss
       set_bw_ns_est set_bw_est set_rtt_win_sx set_bk set_w_snd_una
       set_cumul_ack set_accounted set_rtt set_rtt_min set_first_ack
       set_reset_rtt_min set_delay_min set_delay_max set_dmin_avg
       set_dmax_avg set_delay_loss] in *.

Lemma same_delays_refl (w : westwood) : same_delays w w.
Proof. unfold same_delays. repeat split. Qed.

Lemma filter_delays (w : westwood) (delta : Z) :
  delta <> 0 ->
  exists w', westwood_filter w delta = Ok w' /\ same_delays w w' /\
             first_ack w' = first_ack w /\ w_snd_una w' = w_snd_una w.
Proof.
  intros Hd. unfold westwood_filter, udiv.
  destruct (Z.eqb_spec delta 0) as [E|_]; [contradiction|].
  case_if; cbn [bind]; eexists; (split; [reflexivity|]);
    unfold same_delays; ww_simpl; repeat split.
Qed.

(** What [westwood_update_window] leaves alone, and what it does with the
    first-ACK flag. *)
Lemma update_window_delays (now : Z) (sk : sock) :
  exists sk', westwood_update_window h now sk = Ok sk' /\
              tp sk' = tp sk /\ same_delays (ca sk) (ca sk') /\
              first_ack (ca sk') = 0 /\
              w_snd_una (ca sk')
              = (if first_ack (ca sk) =? 0 then w_snd_una (ca sk)
                 else snd_una (tp sk)).
Proof.
  unfold westwood_update_window. cbv zeta.
  set (delta := u32 (s32 (u32 (now - rtt_win_sx (ca sk))))).
  set (w := if negb (first_ack (ca sk) =? 0)
            then set_first_ack 0 (set_w_snd_una (snd_una (tp sk)) (ca sk))
            else ca sk).
  assert (Hw : same_delays (ca sk) w /\ first_ack w = 0 /\
               w_snd_una w = (if first_ack (ca sk) =? 0 then w_snd_una (ca sk)
                              else snd_una (tp sk))).
  { subst w. destruct (Z.eqb_spec (first_ack (ca sk)) 0) as [E|N];
      cbn [negb]; unfold same_delays; ww_simpl; repeat split; trivial. }
  destruct Hw as (Hs & Hf & Hu).
  destruct (negb (rtt w =? 0)
            && (delta >? Z.max (u32 (rtt w))
                           (u32 (TCP_WESTWOOD_RTT_MIN h)))) eqn:Hg.
  - bool_prop.
    assert (Hd : delta <> 0).
    { pose proof (u32_range (rtt w)). lia. }
    destruct (filter_delays w delta Hd) as (w' & Hfl & Hs' & Hf' & Hu').
    rewrite Hfl. cbn [bind]. eexists. split; [reflexivity|].
    unfold same_delays in *. ww_simpl.
    repeat split; try congruence; intuition congruence.
  - eexists. split; [reflexivity|]. ww_simpl.
    split; [reflexivity|]. split; [exact Hs|]. split; assumption.
Qed.

Lemma acked_count_delays (sk : sock) :
  tp (fst (westwood_acked_count sk)) = tp sk /\
  same_delays (ca sk) (ca (fst (westwood_acked_count sk))) /\
  first_ack (ca (fst (westwood_acked_count sk))) = first_ack (ca sk) /\
  w_snd_una (ca (fst (westwood_acked_count sk))) = snd_una (tp sk).
Proof.
  unfold westwood_acked_count, same_delays. cbv zeta.
  repeat (case_if; ww_simpl); repeat split.
Qed.

(** The effect of one ACK on the RTT and delay bookkeeping. *)
Lemma ack_delays (now : Z) (sk : sock) (fl : Z) :
  exists sk',
    tcp_westwood_ack h now sk fl = Ok sk' /\
    tp sk' = tp sk /\
    rtt (ca sk') = rtt (ca sk) /\
    rtt_min (ca sk')
    = (if reset_rtt_min (ca sk) =? 0
       then Z.min (rtt (ca sk)) (rtt_min (ca sk)) else rtt (ca sk)) /\
    reset_rtt_min (ca sk') = 0 /\
    first_ack (ca sk') = 0 /\
    w_snd_una (ca sk') = snd_una (tp sk) /\
    dmin_avg (ca sk') = dmin_avg (ca sk) /\
    dmax_avg (ca sk') = dmax_avg (ca sk) /\
    delay_loss (ca sk') = delay_loss (ca sk) /\
    (Z.land fl CA_ACK_SLOWPATH = 0 ->
     delay_min (ca sk') = delay_min (ca sk) /\
     delay_max (ca sk') = delay_max (ca sk)) /\
    (Z.land fl CA_ACK_SLOWPATH <> 0 ->
     delay_min (ca sk) <= delay_max (ca sk) ->
     delay_min (ca sk') <= rtt (ca sk) <= delay_max (ca sk')).
Proof.
  unfold tcp_westwood_ack, westwood_fast_bw.
  destruct (update_window_delays now sk) as (s & Hs & Ht & Hd & Hf & Hu).
  rewrite Hs. cbn [bind].
  unfold same_delays in Hd.
  destruct Hd as (D1 & D2 & D3 & D4 & D5 & D6 & D7 & D8).
  destruct (Z.eqb_spec (Z.land fl CA_ACK_SLOWPATH) 0) as [E|N]; cbn [negb].
  - eexists. split; [reflexivity|]. unfold update_rtt_min. ww_simpl.
    rewrite D3, D1, D2, Ht.
    destruct (Z.eqb_spec (reset_rtt_min (ca sk)) 0) as [R|R]; cbn [negb];
      ww_simpl; repeat split; try congruence; try contradiction.
  - destruct (acked_count_delays s) as (At & Ad & Af & Au).
    destruct (westwood_acked_count s) as [s' n]. cbn [fst] in *.
    unfold same_delays in Ad.
    destruct Ad as (A1 & A2 & A3 & A4 & A5 & A6 & A7 & A8).
    eexists. split; [reflexivity|]. unfold update_rtt_min. ww_simpl.
    rewrite A1, A2, A3, D1, D2, D3.
    destruct (Z.eqb_spec (reset_rtt_min (ca sk)) 0) as [R|R]; cbn [negb];
      ww_simpl; rewrite ?A4, ?A5, ?D4, ?D5;
      repeat (case_if; ww_simpl); bool_prop;
      repeat split; try congruence; try contradiction; try lia.
Qed.

(** X13. Every ACK, fast or slow path, returns; it leaves the host's
    fields and the filtered RTT alone, clears the first-ACK and the
    reset flags, brings [w->snd_una] up to [tp->snd_una], and stores in
    [rtt_min] the RTT itself when a reset was pending and the smaller of
    the RTT and the old minimum otherwise.  So after an ACK [rtt_min] never
    exceeds the filtered RTT. *)
Theorem X13_ack_tracks_minimum_rtt (now : Z) (sk : sock) (fl : Z) :
  exists sk',
    tcp_westwood_ack h now sk fl = Ok sk' /\
    tp sk' = tp sk /\
    rtt (ca sk') = rtt (ca sk) /\
    rtt_min (ca sk')
    = (if reset_rtt_min (ca sk) =? 0
       then Z.min (rtt (ca sk)) (rtt_min (ca sk)) else rtt (ca sk)) /\
    rtt_min (ca sk') <= rtt (ca sk') /\
    reset_rtt_min (ca sk') = 0 /\
    first_ack (ca sk') = 0 /\
    w_snd_una (ca sk') = snd_una (tp sk).
Proof.
  destruct (ack_delays now sk fl)
    as (sk' & Hk & Ht & Hr & Hm & Hz & Hf & Hu & _).
  exists sk'. repeat split; trivial.
  rewrite Hm, Hr. destruct (reset_rtt_min (ca sk) =? 0); lia.
Qed.

(** X14. A loss restarts the minimum RTT.  With a nonzero [mss_cache],
    the Loss event, a positive RTT sample and the next ACK (fast or slow
    path) all return, and leave [rtt_min] equal to the filtered RTT of that
    sample, whatever the minimum was before; the threshold is at least 2
    and the window is the one before the loss. *)
Theorem X14_loss_restarts_minimum_rtt (sk : sock) (cnt r now fl : Z) :
  mss_cache (tp sk) <> 0 -> 0 < r ->
  exists sk',
    run h beta sk [Ev_cwnd_event CA_EVENT_LOSS; Ev_pkts_acked cnt r;
                   Ev_ack now fl] = Ok sk' /\
    rtt (ca sk') = u32 (usecs_to_jiffies h r) /\
    rtt_min (ca sk') = rtt (ca sk') /\
    2 <= snd_ssthresh (tp sk') /\
    snd_cwnd (tp sk') = snd_cwnd (tp sk).
Proof.
  intros Hm Hr. cbn [run step].
  unfold tcp_westwood_event, tcp_westwood_bw_rttmin, udiv.
  destruct (Z.eqb_spec (mss_cache (tp sk)) 0) as [E|_]; [contradiction|].
  cbn [bind]. unfold tcp_westwood_pkts_acked.
  destruct (Z.gtb_spec r 0) as [_|Hle]; [|lia].
  match goal with
  | |- context [tcp_westwood_ack h now ?s fl] =>
      destruct (ack_delays now s fl)
        as (sk' & Hk & Ht & Hrt & Hmin & _)
  end.
  rewrite Hk. cbn [bind]. exists sk'. split; [reflexivity|].
  ww_simpl. change (1 =? 0) with false in Hmin. cbv iota in Hmin.
  rewrite Hmin, Hrt, Ht. cbn. repeat split; lia.
Qed.

Lemma step_keeps_envelope_order (sk sk' : sock) (ev : event) :
  delay_min (ca sk) <= delay_max (ca sk) ->
  step h beta sk ev = Ok sk' ->
  delay_min (ca sk') <= delay_max (ca sk').
Proof.
  intros Ho Hs. destruct ev as [now|cnt r|now fl|ack acked|e|f]; cbn in Hs.
  - inversion Hs; subst. cbn. lia.
  - inversion Hs; subst. unfold tcp_westwood_pkts_acked.
    case_if; cbn; exact Ho.
  - destruct (ack_delays now sk fl)
      as (s & Hk & _ & _ & _ & _ & _ & _ & _ & _ & _ & Hfast & Hslow).
    rewrite Hk in Hs. inversion Hs; subst.
    destruct (Z.eq_dec (Z.land fl CA_ACK_SLOWPATH) 0) as [E|N].
    + destruct (Hfast E) as [H1 H2]. lia.
    + specialize (Hslow N Ho). lia.
  - unfold tcp_westwood_cong_avoid in Hs.
    destruct (ewr_inputs h beta sk) as [[q t]|d]; cbn [bind] in Hs;
      [|discriminate].
    destruct (q >? t).
    + destruct (tcp_westwood_bw_rttmin sk) as [v|d]; cbn [bind] in Hs;
        [|discriminate].
      inversion Hs; subst. cbn. lia.
    + inversion Hs; subst. cbn. exact Ho.
  - destruct e; cbn in Hs; try (inversion Hs; subst; exact Ho);
      destruct (tcp_westwood_bw_rttmin sk) as [v|d]; cbn [bind] in Hs;
      try discriminate; inversion Hs; subst; cbn; exact Ho.
  - inversion Hs; subst. cbn. exact Ho.
Qed.

(** X15. In every state reachable from [tcp_westwood_init] the delay
    envelope is ordered, [delay_min <= delay_max]; and a slow-path ACK
    received in such a state returns with the filtered RTT inside the
    envelope. *)
Theorem X15_delay_envelope_is_ordered (sk : sock) :
  reachable h beta sk ->
  delay_min (ca sk) <= delay_max (ca sk) /\
  forall now fl,
    Z.land fl CA_ACK_SLOWPATH <> 0 ->
    exists sk',
      tcp_westwood_ack h now sk fl = Ok sk' /\
      delay_min (ca sk') <= rtt (ca sk') <= delay_max (ca sk').
Proof.
  intros Hr.
  assert (Ho : delay_min (ca sk) <= delay_max (ca sk)).
  { induction Hr as [now sk0|sk ev sk' _ IH _ Hs].
    - cbn. lia.
    - exact (step_keeps_envelope_order sk sk' ev IH Hs). }
  split; [exact Ho|]. intros now fl Hfl.
  destruct (ack_delays now sk fl)
    as (s & Hk & _ & Hrt & _ & _ & _ & _ & _ & _ & _ & _ & Hslow).
  exists s. split; [exact Hk|]. rewrite Hrt. exact (Hslow Hfl Ho).
Qed.

Lemma unset_envelope_is_reno (sk : sock) (ack acked : Z) :
  envelope_unset (ca sk) ->
  tcp_westwood_cong_avoid h beta sk ack acked
  = Ok (with_tp (fun t => tcp_reno_cong_avoid h t ack acked) sk).
Proof.
  intros (H1 & H2 & H3 & H4).
  unfold tcp_westwood_cong_avoid, ewr_inputs, ewr_select. cbv zeta.
  rewrite H1, H2, H3, H4. cbn. reflexivity.
Qed.

Lemma fast_step_keeps_unset (sk sk' : sock) (ev : event) :
  fast_path_only [ev] = true ->
  envelope_unset (ca sk) ->
  step h beta sk ev = Ok sk' ->
  envelope_unset (ca sk').
Proof.
  intros Hf Hu Hs. unfold fast_path_only in Hf. cbn [forallb] in Hf.
  destruct ev as [now|cnt r|now fl|ack acked|e|f]; cbn [step] in Hs.
  - inversion Hs; subst. unfold envelope_unset. cbn. auto.
  - inversion Hs; subst. unfold tcp_westwood_pkts_acked.
    case_if; [|exact Hu]. destruct Hu as (H1 & H2 & H3 & H4).
    unfold envelope_unset. cbn. auto.
  - rewrite andb_true_r in Hf. apply Z.eqb_eq in Hf.
    destruct (ack_delays now sk fl)
      as (s & Hk & _ & _ & _ & _ & _ & _ & Ha & Hb & _ & Hfast & _).
    rewrite Hk in Hs. inversion Hs; subst.
    destruct (Hfast Hf) as [E1 E2]. destruct Hu as (H1 & H2 & H3 & H4).
    unfold envelope_unset. repeat split; congruence.
  - rewrite (unset_envelope_is_reno sk ack acked Hu) in Hs.
    inversion Hs; subst. exact Hu.
  - destruct Hu as (H1 & H2 & H3 & H4).
    destruct e; cbn in Hs; try (inversion Hs; subst; now repeat split);
      destruct (tcp_westwood_bw_rttmin sk) as [v|d]; cbn [bind] in Hs;
      try discriminate; inversion Hs; subst; unfold envelope_unset; cbn;
      auto.
  - inversion Hs; subst. exact Hu.
Qed.

(** X16. The delay envelope is fed by slow-path ACKs only.  After
    [tcp_westwood_init], as long as no ACK carries [CA_ACK_SLOWPATH], the
    envelope and its averages stay 0 whatever samples, events and ACKs
    arrive, and [tcp_westwood_cong_avoid] is the Reno step: the early window
    reduction cannot fire. *)
Theorem X16_fast_path_only_is_reno
  (now : Z) (sk0 sk : sock) (evs : list event) :
  fast_path_only evs = true ->
  run h beta (tcp_westwood_init h now sk0) evs = Ok sk ->
  envelope_unset (ca sk) /\
  forall ack acked,
    tcp_westwood_cong_avoid h beta sk ack acked
    = Ok (with_tp (fun t => tcp_reno_cong_avoid h t ack acked) sk).
Proof.
  intros Hf Hrun.
  assert (Hu : envelope_unset (ca sk)).
  { assert (H0 : envelope_unset (ca (tcp_westwood_init h now sk0)))
      by (unfold envelope_unset; cbn; auto).
    revert Hf Hrun H0. generalize (tcp_westwood_init h now sk0) as s.
    induction evs as [|ev evs IH]; intros s Hf Hrun H0.
    - cbn in Hrun. inversion Hrun; subst. exact H0.
    - cbn [run] in Hrun.
      destruct (step h beta s ev) as [s1|d] eqn:Hs; cbn [bind] in Hrun;
        [|discriminate].
      unfold fast_path_only in Hf. cbn [forallb] in Hf.
      apply andb_true_iff in Hf. destruct Hf as [Hev Hrest].
      apply (IH s1); trivial.
      apply (fast_step_keeps_unset s s1 ev); trivial.
      unfold fast_path_only. cbn [forallb]. now rewrite Hev. }
  split; [exact Hu|]. intros ack acked.
  now apply unset_envelope_is_reno.
Qed.

(** X17. The early-window-reduction threshold stays within [0, beta]
    while four times the RTT does not exceed a positive [delay_loss] and
    the lower delay does not exceed the upper one (all products within 32
    bits). *)
Theorem X17_threshold_at_most_beta (r dloss lo hi : Z) (dv : divisor) :
  0 <= beta -> 100 * beta < 2 ^ 32 ->
  0 <= r -> 400 * r < 2 ^ 32 -> 0 < dloss -> 4 * r <= dloss ->
  0 <= lo <= hi -> 0 < hi -> 100 * lo < 2 ^ 32 ->
  exists t, ewr_threshold beta r dloss lo hi dv = Ok t /\ 0 <= t <= beta.
Proof.
  intros Hb Hb' Hr Hr' Hdp Hd Hlo Hhi Hlo'.
  change (2 ^ 32) with 4294967296 in *.
  unfold ewr_threshold, udiv.
  rewrite Z.shiftl_mul_pow2 by lia. change (2 ^ 2) with 4.
  rewrite (u32_small (r * 4)) by lia.
  rewrite (u32_small (100 * (r * 4))) by lia.
  rewrite (u32_small (100 * lo)) by lia.
  rewrite (u32_small beta) by lia.
  destruct (Z.eqb_spec dloss 0) as [E|N]; [lia|].
  - destruct (Z.eqb_spec hi 0) as [E|_]; [lia|]. cbn [bind].
    set (x := 100 * (r * 4) / dloss).
    set (y := 100 * lo / hi).
    assert (Hx : 0 <= x <= 100).
    { subst x. split; [apply Z.div_pos; lia|].
      apply Z.div_le_upper_bound; lia. }
    assert (Hy : 0 <= y <= 100).
    { subst y. split; [apply Z.div_pos; lia|].
      apply Z.div_le_upper_bound; lia. }
    rewrite (u32_small (100 - x)) by lia.
    rewrite (u32_small (100 - y)) by lia.
    assert (Hp : 0 <= beta * (100 - x) <= 100 * beta) by nia.
    rewrite (u32_small (beta * (100 - x))) by lia.
    set (a := beta * (100 - x) / 100).
    assert (Ha : 0 <= a <= beta).
    { subst a. split; [apply Z.div_pos; lia|].
      apply Z.div_le_upper_bound; lia. }
    assert (Hq : 0 <= a * (100 - y) <= 100 * beta) by nia.
    rewrite (u32_small (a * (100 - y))) by lia.
    eexists. split; [reflexivity|].
    split; [apply Z.div_pos; lia|].
    apply Z.div_le_upper_bound; lia.
Qed.

(** X18. A fast-path ACK returns, and counts into [bk] the bytes
    acknowledged since the previous ACK: the advance of [snd_una] over
    [w->snd_una], or nothing on the first ACK after [tcp_westwood_init].
    When the sample window has elapsed, [bk] restarts from that count at
    [now]; otherwise the count is added and the bandwidth estimates are
    the ones before. *)
Theorem X18_fast_ack_counts_bytes_since_last_ack (now : Z) (sk : sock) :
  let w := ca sk in
  let elapsed :=
    negb (rtt w =? 0)
    && (u32 (s32 (u32 (now - rtt_win_sx w)))
        >? Z.max (u32 (rtt w)) (u32 (TCP_WESTWOOD_RTT_MIN h))) in
  let d := if first_ack w =? 0
           then u32 (snd_una (tp sk) - w_snd_una w) else 0 in
  exists sk',
    westwood_fast_bw h now sk = Ok sk' /\
    bk (ca sk') = (if elapsed then d else u32 (bk w + d)) /\
    rtt_win_sx (ca sk') = (if elapsed then now else rtt_win_sx w) /\
    (elapsed = false ->
     bw_est (ca sk') = bw_est w /\ bw_ns_est (ca sk') = bw_ns_est w).
Proof.
  cbv zeta.
  assert (Hidem : forall x, u32 (u32 x) = u32 x).
  { intros x. apply u32_small. apply u32_range. }
  assert (Hz : u32 (snd_una (tp sk) - snd_una (tp sk)) = 0).
  { rewrite Z.sub_diag. reflexivity. }
  unfold westwood_fast_bw, westwood_update_window. cbv zeta.
  destruct (Z.eqb_spec (first_ack (ca sk)) 0) as [F|F]; cbn [negb].
  - destruct (negb (rtt (ca sk) =? 0)
              && (u32 (s32 (u32 (now - rtt_win_sx (ca sk))))
                  >? Z.max (u32 (rtt (ca sk)))
                       (u32 (TCP_WESTWOOD_RTT_MIN h)))) eqn:Hg.
    + bool_prop.
      assert (Hd : u32 (s32 (u32 (now - rtt_win_sx (ca sk)))) <> 0).
      { pose proof (u32_range (rtt (ca sk))). lia. }
      destruct (filter_delays (ca sk) _ Hd) as (w' & Hfl & _ & _ & Hu').
      rewrite Hfl. cbn [bind]. eexists. split; [reflexivity|].
      unfold update_rtt_min. ww_simpl.
      repeat (case_if; ww_simpl);
        rewrite Hu'; cbn [Z.add]; rewrite Hidem;
        repeat split; discriminate.
    + cbn [bind]. eexists. split; [reflexivity|].
      unfold update_rtt_min. ww_simpl.
      repeat (case_if; ww_simpl); repeat split.
  - ww_simpl.
    destruct (negb (rtt (ca sk) =? 0)
              && (u32 (s32 (u32 (now - rtt_win_sx (ca sk))))
                  >? Z.max (u32 (rtt (ca sk)))
                       (u32 (TCP_WESTWOOD_RTT_MIN h)))) eqn:Hg.
    + bool_prop.
      assert (Hd : u32 (s32 (u32 (now - rtt_win_sx (ca sk)))) <> 0).
      { pose proof (u32_range (rtt (ca sk))). lia. }
      match goal with
      | |- context [westwood_filter ?x ?dl] =>
          destruct (filter_delays x dl Hd) as (w' & Hfl & _ & _ & Hu')
      end.
      rewrite Hfl. cbn [bind]. eexists. split; [reflexivity|].
      unfold update_rtt_min. ww_simpl. ww_simpl.
      repeat (case_if; ww_simpl);
        rewrite Hu', Hz; cbn;
        repeat split; discriminate.
    + cbn [bind]. eexists. split; [reflexivity|].
      unfold update_rtt_min. ww_simpl.
      repeat (case_if; ww_simpl); rewrite Hz, Z.add_0_r;
        repeat split.
Qed.

End WestwoodAck.

Lemma X14_witness :
  exists sk',
    WestwoodRun.run linux_host 3 (envelope_westwood_sock example_tp)
      [WestwoodRun.Ev_cwnd_event CA_EVENT_LOSS;
       WestwoodRun.Ev_pkts_acked 1 30000; WestwoodRun.Ev_ack 30 0] = Ok sk' /\
    Westwood.rtt (Westwood.ca sk') = u32 (usecs_to_jiffies linux_host 30000) /\
    Westwood.rtt_min (Westwood.ca sk') = Westwood.rtt (Westwood.ca sk') /\
    2 <= snd_ssthresh (Westwood.tp sk') /\
    snd_cwnd (Westwood.tp sk')
    = snd_cwnd (Westwood.tp (envelope_westwood_sock example_tp)).
Proof.
  refine (X14_loss_restarts_minimum_rtt linux_host 3
            (envelope_westwood_sock example_tp) 1 30000 30 0 _ _).
  - vm_compute. discriminate.
  - lia.
Defined.

Lemma westwood_run_reachable (h : host_stack) (beta : Z)
  (evs : list WestwoodRun.event) (sk sk' : Westwood.sock) :
  WestwoodRun.reachable h beta sk -> Forall WestwoodRun.wf_event evs ->
  WestwoodRun.run h beta sk evs = Ok sk' -> WestwoodRun.reachable h beta sk'.
Proof.
  revert sk. induction evs as [|ev evs IH]; cbn; intros sk Hr Hwf Hrun.
  - inversion Hrun; subst. exact Hr.
  - inversion Hwf; subst.
    destruct (WestwoodRun.step h beta sk ev) as [s|d] eqn:Hs; cbn in Hrun;
      [|discriminate].
    apply (IH s); trivial.
    now apply (WestwoodRun.reach_step h beta sk ev s).
Qed.

Lemma X15_witness :
  let sk := envelope_westwood_sock example_tp in
  Westwood.delay_min (Westwood.ca sk) <= Westwood.delay_max (Westwood.ca sk) /\
  forall now fl,
    Z.land fl Westwood.CA_ACK_SLOWPATH <> 0 ->
    exists sk',
      Westwood.tcp_westwood_ack linux_host now sk fl = Ok sk' /\
      Westwood.delay_min (Westwood.ca sk') <= Westwood.rtt (Westwood.ca sk')
      <= Westwood.delay_max (Westwood.ca sk').
Proof.
  refine (X15_delay_envelope_is_ordered linux_host 3
            (envelope_westwood_sock example_tp) _).
  refine (westwood_run_reachable linux_host 3
            [WestwoodRun.Ev_pkts_acked 1 10000; WestwoodRun.Ev_ack 10 1;
             WestwoodRun.Ev_pkts_acked 1 40000; WestwoodRun.Ev_ack 20 1]
            (Westwood.tcp_westwood_init linux_host 0
               (Westwood.mk_sock example_tp zero_westwood))
            (envelope_westwood_sock example_tp)
            (WestwoodRun.reach_init linux_host 3 0
               (Westwood.mk_sock example_tp zero_westwood)) _ _).
  - apply Forall_cons; [vm_compute; split; [discriminate|reflexivity]|].
    apply Forall_cons; [exact I|].
    apply Forall_cons; [vm_compute; split; [discriminate|reflexivity]|].
    apply Forall_cons; [exact I|]. apply Forall_nil.
  - vm_compute. reflexivity.
Defined.

Lemma X16_witness :
  envelope_unset (Westwood.ca fast_path_westwood_sock) /\
  forall ack acked,
    Westwood.tcp_westwood_cong_avoid linux_host 3 fast_path_westwood_sock
      ack acked
    = Ok (Westwood.with_tp
            (fun t => tcp_reno_cong_avoid linux_host t ack acked)
            fast_path_westwood_sock).
Proof.
  refine (X16_fast_path_only_is_reno linux_host 3 0 fresh_westwood_sock
            fast_path_westwood_sock fast_path_events _ _).
  - vm_compute. reflexivity.
  - vm_compute. reflexivity.
Defined.

Lemma X17_witness :
  exists t,
    Westwood.ewr_threshold 3 10 400 10 40 DIV_delay_max = Ok t /\ 0 <= t <= 3.
Proof.
  refine (X17_threshold_at_most_beta 3 10 400 10 40 DIV_delay_max
            _ _ _ _ _ _ _ _ _); vm_compute;
    try discriminate; try reflexivity; split; discriminate.
Defined.

(** ** TCP Nice: the window law of a round *)

Section NiceVegas.
Import Nice NiceRun.

Variable h : host_stack.
Variable cfg : tunables.

(** X19. In whole-segment mode ([fractional_cwnd = 2]) and outside slow
    start, the ACK that closes a round of three samples or more, with no
    more congestion events than [snd_cwnd / fraction_divisor], moves the
    window by one segment at most: one down when the Vegas difference
    [snd_cwnd * (minRTT - baseRTT) / baseRTT] exceeds [beta], one up when it
    is below [alpha], and none otherwise.  The round is wiped. *)
Theorem X19_vegas_round_moves_one_segment (sk : sock) (ack acked : Z) :
  let cwnd := snd_cwnd (tp sk) in
  let diff := u32 (cwnd * u32 (minRTT (ca sk) - baseRTT (ca sk)))
              / baseRTT (ca sk) in
  fractional_cwnd (ca sk) = 2 ->
  doing_nice_now (ca sk) <> 0 ->
  after ack (beg_snd_nxt (ca sk)) = true ->
  2 < cntRTT (ca sk) ->
  baseRTT (ca sk) <> 0 -> minRTT (ca sk) <> 0 ->
  tcp_in_slow_start h (tp sk) = false ->
  u32 (fraction_divisor sk) <> 0 ->
  numCong (ca sk) <= cwnd / u32 (fraction_divisor sk) ->
  2 < cwnd < snd_cwnd_clamp (tp sk) -> snd_cwnd_clamp (tp sk) < 2 ^ 32 ->
  exists sk',
    tcp_nice_cong_avoid h cfg sk ack acked = Ok sk' /\
    snd_cwnd (tp sk')
    = (if diff >? u32 (beta cfg) then cwnd - 1
       else if diff <? u32 (alpha cfg) then cwnd + 1 else cwnd) /\
    fractional_cwnd (ca sk') = 2 /\
    numCong (ca sk') = 0 /\ cntRTT (ca sk') = 0.
Proof.
  intros cwnd diff Hf Hd Ha Hc Hb Hm Hss Hfd Hn Hw Hcl.
  change (2 ^ 32) with 4294967296 in Hcl.
  unfold tcp_nice_cong_avoid. cbv zeta.
  rewrite (nice_pacing_off sk) by lia.
  destruct (Z.eqb_spec (doing_nice_now (ca sk)) 0) as [E|_]; [contradiction|].
  rewrite Ha.
  cbn [ca tp with_ca cntRTT set_beg_snd_nxt].
  destruct (Z.leb_spec (cntRTT (ca sk)) 2) as [E|_]; [lia|].
  unfold nice_vegas_round, udiv. cbv zeta.
  cbn [ca tp with_ca with_tp cntRTT minRTT baseRTT numCong fractional_cwnd
       fraction_divisor set_beg_snd_nxt].
  destruct (Z.eqb_spec (minRTT (ca sk)) 0) as [E|_]; [contradiction|].
  destruct (Z.eqb_spec (baseRTT (ca sk)) 0) as [E|_]; [contradiction|].
  cbn [bind]. fold cwnd. fold diff.
  rewrite Hss. rewrite andb_false_r.
  destruct (Z.eqb_spec (u32 (fraction_divisor sk)) 0) as [E|_];
    [contradiction|].
  cbn [bind].
  destruct (Z.gtb_spec (numCong (ca sk)) (cwnd / u32 (fraction_divisor sk)))
    as [E|_]; [lia|].
  eexists. split; [reflexivity|].
  unfold nice_vegas_adjust, nice_clamp, nice_wipe, tcp_nice_ssthresh.
  cbn [ca tp with_ca with_tp fractional_cwnd set_beg_snd_nxt snd_cwnd].
  fold cwnd. rewrite Hf.
  change (2 =? 2) with true. rewrite !andb_true_r.
  destruct (Z.gtb_spec diff (u32 (beta cfg))) as [Hgt|Hle].
  - destruct (Z.gtb_spec cwnd 2) as [_|E]; [|lia].
    cbn [ca tp with_ca with_tp fractional_cwnd snd_cwnd set_snd_cwnd
         set_snd_ssthresh snd_cwnd_clamp].
    fold cwnd. rewrite (u32_small (cwnd - 1)) by lia.
    destruct (Z.ltb_spec (cwnd - 1) 2) as [E|_]; [lia|]. cbn [andb].
    destruct (Z.gtb_spec (cwnd - 1) (snd_cwnd_clamp (tp sk))) as [E|_];
      [lia|].
    cbn. fold cwnd. rewrite (u32_small (cwnd - 1)) by lia.
    repeat split; trivial.
  - destruct (Z.ltb_spec diff (u32 (alpha cfg))) as [Hlt|Hge].
    + destruct (Z.geb_spec cwnd 2) as [_|E]; [|lia].
      cbn [ca tp with_ca with_tp fractional_cwnd snd_cwnd set_snd_cwnd
           set_snd_ssthresh snd_cwnd_clamp].
      fold cwnd. rewrite (u32_small (cwnd + 1)) by lia.
      destruct (Z.ltb_spec (cwnd + 1) 2) as [E|_]; [lia|]. cbn [andb].
      destruct (Z.gtb_spec (cwnd + 1) (snd_cwnd_clamp (tp sk))) as [E|_];
        [lia|].
      cbn. fold cwnd. rewrite (u32_small (cwnd + 1)) by lia.
      repeat split; trivial.
    + cbn [ca tp with_ca with_tp fractional_cwnd snd_cwnd set_snd_cwnd
           set_snd_ssthresh snd_cwnd_clamp].
      fold cwnd.
      destruct (Z.ltb_spec cwnd 2) as [E|_]; [lia|]. cbn [andb].
      destruct (Z.gtb_spec cwnd (snd_cwnd_clamp (tp sk))) as [E|_]; [lia|].
      cbn. repeat split; trivial.
Qed.

End NiceVegas.

Lemma X19_witness :
  let sk := calm_round_nice_sock in
  let cwnd := snd_cwnd (Nice.tp sk) in
  let diff := u32 (cwnd * u32 (Nice.minRTT (Nice.ca sk)
                                - Nice.baseRTT (Nice.ca sk)))
              / Nice.baseRTT (Nice.ca sk) in
  exists sk',
    Nice.tcp_nice_cong_avoid linux_host Nice.default_tunables sk 1001 1
    = Ok sk' /\
    snd_cwnd (Nice.tp sk')
    = (if diff >? u32 (Nice.beta Nice.default_tunables) then cwnd - 1
       else if diff <? u32 (Nice.alpha Nice.default_tunables) then cwnd + 1
       else cwnd) /\
    Nice.fractional_cwnd (Nice.ca sk') = 2 /\
    Nice.numCong (Nice.ca sk') = 0 /\ Nice.cntRTT (Nice.ca sk') = 0.
Proof.
  refine (X19_vegas_round_moves_one_segment linux_host Nice.default_tunables
            calm_round_nice_sock 1001 1 _ _ _ _ _ _ _ _ _ _ _).
  - vm_compute. reflexivity.
  - vm_compute. discriminate.
  - vm_compute. reflexivity.
  - vm_compute. reflexivity.
  - vm_compute. discriminate.
  - vm_compute. discriminate.
  - vm_compute. reflexivity.
  - vm_compute. discriminate.
  - vm_compute. discriminate.
  - vm_compute. split; reflexivity.
  - vm_compute. reflexivity.
Defined.
